(** * ICC rankings harvester: the incremental fetch-and-merge engine

    A shallow embedding of [masterfile.py] and the properties of its four
    parts: the cutoff date ([last_tuesday_ist]), the planning of the missing
    (date, format, category) jobs and the merge (both inside [main]), and
    the fetching of one job with retries ([scrape_date]). *)

From Stdlib Require Import ZArith List String Ascii Bool Lia.
From Stdlib Require Import Sorted Permutation.
Import ListNotations.

Local Open Scope string_scope.
Local Open Scope list_scope.
Local Open Scope Z_scope.

(** ** Calendar dates

    A [datetime.date] is modelled by its proleptic Gregorian ordinal
    ([date.toordinal()], day 1 is 0001-01-01), so that adding a
    [timedelta(days=k)] is adding [k] and [(a - b).days] is [a - b].  The
    conversions between ordinals and (year, month, day) follow the
    [datetime] module.  The bound of the type (years 1 to 9999) is not
    modelled: every date the program builds lies between 1970-12-31 and the
    current day. *)

Module Calendar.

Definition is_leap (year : Z) : bool :=
  (year mod 4 =? 0) && (negb (year mod 100 =? 0) || (year mod 400 =? 0)).

Definition days_before_year (year : Z) : Z :=
  let y := year - 1 in y * 365 + y / 4 - y / 100 + y / 400.

Definition DAYS_IN_MONTH : list Z :=
  [31; 28; 31; 30; 31; 30; 31; 31; 30; 31; 30; 31].

Definition days_in_month (year month : Z) : Z :=
  if (month =? 2) && is_leap year then 29
  else nth (Z.to_nat (month - 1)) DAYS_IN_MONTH 0.

Definition DAYS_BEFORE_MONTH : list Z :=
  [0; 31; 59; 90; 120; 151; 181; 212; 243; 273; 304; 334].

Definition days_before_month (year month : Z) : Z :=
  nth (Z.to_nat (month - 1)) DAYS_BEFORE_MONTH 0
  + (if (2 <? month) && is_leap year then 1 else 0).

Definition ymd2ord (year month day : Z) : Z :=
  days_before_year year + days_before_month year month + day.

Definition DI400Y : Z := Eval cbv in days_before_year 401.
Definition DI100Y : Z := Eval cbv in days_before_year 101.
Definition DI4Y : Z := Eval cbv in days_before_year 5.

Definition ord2ymd (ordinal : Z) : Z * Z * Z :=
  let n := ordinal - 1 in
  let n400 := n / DI400Y in
  let n := n mod DI400Y in
  let n100 := n / DI100Y in
  let n := n mod DI100Y in
  let n4 := n / DI4Y in
  let n := n mod DI4Y in
  let n1 := n / 365 in
  let n := n mod 365 in
  let year := n400 * 400 + 1 + n100 * 100 + n4 * 4 + n1 in
  if (n1 =? 4) || (n100 =? 4) then (year - 1, 12, 31)
  else
    let leapyear := (n1 =? 3) && (negb (n4 =? 24) || (n100 =? 3)) in
    let month := Z.shiftr (n + 50) 5 in
    let preceding :=
      nth (Z.to_nat (month - 1)) DAYS_BEFORE_MONTH 0
      + (if (2 <? month) && leapyear then 1 else 0) in
    if n <? preceding then
      let month' := month - 1 in
      let preceding' :=
        preceding
        - (nth (Z.to_nat (month' - 1)) DAYS_IN_MONTH 0
           + (if (month' =? 2) && leapyear then 1 else 0)) in
      (year, month', n - preceding' + 1)
    else (year, month, n - preceding + 1).

(** [date.weekday()]: Monday is 0, Tuesday is 1, ..., Sunday is 6. *)
Definition weekday (ordinal : Z) : Z := (ordinal + 6) mod 7.

(** Decimal digits, zero padded on the left to [width] places. *)
Definition digit (n : Z) : ascii := ascii_of_nat (48 + Z.to_nat (n mod 10)).

Fixpoint zero_padded (width : nat) (n : Z) (acc : string) : string :=
  match width with
  | O => acc
  | S w => zero_padded w (n / 10) (String (digit n) acc)
  end.

(** [date.strftime("%Y/%m/%d")]. *)
Definition strftime (ordinal : Z) : string :=
  let '(y, m, d) := ord2ymd ordinal in
  (zero_padded 4 y "" ++ "/" ++ zero_padded 2 m "" ++ "/" ++ zero_padded 2 d "")%string.

(** Reading a string in the form [strftime] writes, "%Y/%m/%d": the date,
    or nothing when the string is not the name of a day. *)
Definition digit_value (c : ascii) : option Z :=
  let n := Z.of_nat (nat_of_ascii c) in
  if (48 <=? n) && (n <=? 57) then Some (n - 48) else None.

Fixpoint digits_value (cs : list ascii) (acc : Z) : option Z :=
  match cs with
  | [] => Some acc
  | c :: rest =>
      match digit_value c with
      | Some v => digits_value rest (acc * 10 + v)
      | None => None
      end
  end.

Definition strptime (s : string) : option Z :=
  match list_ascii_of_string s with
  | [y1; y2; y3; y4; s1; m1; m2; s2; d1; d2] =>
      match digits_value [y1; y2; y3; y4] 0,
            digits_value [m1; m2] 0,
            digits_value [d1; d2] 0 with
      | Some y, Some m, Some d =>
          if Ascii.eqb s1 "/" && Ascii.eqb s2 "/"
             && (1 <=? y) && (1 <=? m) && (m <=? 12)
             && (1 <=? d) && (d <=? days_in_month y m)
          then Some (ymd2ord y m d)
          else None
      | _, _, _ => None
      end
  | _ => None
  end.

End Calendar.

(** ** The pandas at hand

    The repository does not say which pandas it runs on, and two things the
    program relies on differ between the versions.

    - The days a datetime column can hold.  With nanosecond resolution
      (pandas 2) a [Timestamp] lies between 1677-09-21T00:12:43 and
      2262-04-11T23:47:16, so the first midnight it holds is 1677-09-22 and
      the last is 2262-04-11; [pd.to_datetime(..., errors="coerce")] makes
      NaT of a day outside.  With a coarser resolution (pandas 3) the
      column holds every day of the years 1 to 9999.  Every pandas holds
      the days of the nanosecond range.
    - The type of a concatenated column.  [pd.DataFrame(columns=[...])]
      has columns of type [object]; [pd.concat] of such an empty frame and
      a frame with a datetime column gives a datetime column when empty
      frames are left out of the choice of the type (pandas 2), and an
      [object] column when they are not (pandas 3). *)

Definition TIMESTAMP_FIRST : Z := Eval cbv in Calendar.ymd2ord 1677 9 22.
Definition TIMESTAMP_LAST : Z := Eval cbv in Calendar.ymd2ord 2262 4 11.

Class Pandas : Type := {
  holds_date : Z -> bool;
  holds_date_nanoseconds :
    forall d, TIMESTAMP_FIRST <= d <= TIMESTAMP_LAST -> holds_date d = true;
  concat_counts_empty : bool
}.

(** [pd.to_datetime(s, errors="coerce")] on a string in the form
    [strftime] writes: the date, or NaT ([None]) when the string cannot be
    read or names a day the column cannot hold. *)
Definition to_datetime `{Pandas} (s : string) : option Z :=
  match Calendar.strptime s with
  | Some d => if holds_date d then Some d else None
  | None => None
  end.

(** ** Configuration *)

Definition BASE_URL (format category date : string) : string :=
  ("https://www.relianceiccrankings.com/datespecific/"
   ++ format ++ "/" ++ category ++ "/" ++ date ++ "/")%string.
Definition FORMATS : list string := ["odi"; "test"].
Definition CATEGORIES : list string := ["batting"; "bowling"].
Definition OUTPUT_FILE : string := "ICC_Rankings.csv.gz".
Definition MAX_RETRIES : nat := 3.

(** ** The cutoff date: [last_tuesday_ist]

    An instant is a number of seconds since 1970-01-01T00:00:00 UTC.  The
    zone is given by its offset from UTC, in seconds, at each instant
    ([utcoffset]); for Asia/Kolkata this is 19800 (UTC+05:30). *)

Definition EPOCH_ORDINAL : Z := Eval cbv in Calendar.ymd2ord 1970 1 1.

(** [today_utc.astimezone(zone).date()]. *)
Definition local_date (utcoffset : Z -> Z) (instant : Z) : Z :=
  EPOCH_ORDINAL + (instant + utcoffset instant) / 86400.

Definition kolkata (instant : Z) : Z := 19800.

Definition last_tuesday_ist (utcoffset : Z -> Z) (today_utc : Z) (strict : bool) : Z :=
  let now_ist := local_date utcoffset today_utc in
  let wd := Calendar.weekday now_ist in
  let delta := (wd - 1) mod 7 in
  let delta := if strict && (wd =? 1) then 7 else delta in
  now_ist - delta.

(** ** The master dataset

    A frame has the columns Date, Format, Category, Rank, Player, Rating.
    The Date column holds dates after [pd.to_datetime(..., errors="coerce")]:
    a date, or the missing marker NaT ([None]).  Format and Category hold
    text.  The three other columns hold whatever was read or scraped: a
    number, a text or the missing marker. *)

Inductive cell : Type :=
| Num (n : Z)
| Txt (s : string)
| NaN.

Record row : Type := mkRow {
  Date : option Z;
  Format : string;
  Category : string;
  Rank : cell;
  Player : cell;
  Rating : cell
}.

Definition frame : Type := list row.

(** The order [sort_values] puts on the values of a column, as a
    three-way comparison: symmetric and transitive. *)
Class ColumnOrder : Type := {
  cell_compare : cell -> cell -> comparison;
  cell_compare_sym : forall a b, cell_compare b a = CompOpp (cell_compare a b);
  cell_compare_trans : forall c a b d,
      cell_compare a b = c -> cell_compare b d = c -> cell_compare a d = c
}.

(** Numbers in increasing order, then texts in code point order, the
    missing marker last ([na_position="last"]). *)
Definition cell_compare_default (a b : cell) : comparison :=
  match a, b with
  | Num x, Num y => Z.compare x y
  | Num _, _ => Lt
  | Txt _, Num _ => Gt
  | Txt s, Txt t => String.compare s t
  | Txt _, NaN => Lt
  | NaN, NaN => Eq
  | NaN, _ => Gt
  end.

(** Dates in increasing order, NaT last. *)
Definition date_compare (a b : option Z) : comparison :=
  match a, b with
  | Some x, Some y => Z.compare x y
  | Some _, None => Lt
  | None, Some _ => Gt
  | None, None => Eq
  end.

Definition lex (c : comparison) (rest : comparison) : comparison :=
  match c with Eq => rest | _ => c end.

(** The sort key [["Format","Category","Date","Rank"]]. *)
Definition key_compare `{ColumnOrder} (r1 r2 : row) : comparison :=
  lex (String.compare (Format r1) (Format r2))
   (lex (String.compare (Category r1) (Category r2))
     (lex (date_compare (Date r1) (Date r2))
          (cell_compare (Rank r1) (Rank r2)))).

Definition key_leb `{ColumnOrder} (r1 r2 : row) : bool :=
  match key_compare r1 r2 with Gt => false | _ => true end.

Definition key_le `{ColumnOrder} (r1 r2 : row) : Prop := key_leb r1 r2 = true.

Definition cell_eq_dec (a b : cell) : {a = b} + {a <> b}.
Proof. decide equality; [apply Z.eq_dec | apply string_dec]. Defined.

Definition row_eq_dec (a b : row) : {a = b} + {a <> b}.
Proof.
  decide equality; try apply cell_eq_dec; try apply string_dec.
  decide equality. apply Z.eq_dec.
Defined.

(** ** The merge: [pd.concat], [drop_duplicates], [sort_values] *)

(** [drop_duplicates(subset=<all six columns>)] keeps the first row of
    each set of equal rows ([keep="first"]); [seen] are the rows passed. *)
Fixpoint drop_duplicates_from (seen : list row) (df : frame) : frame :=
  match df with
  | [] => []
  | r :: rest =>
      if in_dec row_eq_dec r seen then drop_duplicates_from seen rest
      else r :: drop_duplicates_from (r :: seen) rest
  end.

Definition drop_duplicates (df : frame) : frame := drop_duplicates_from [] df.

(** [sort_values] on several columns is a stable sort: rows with equal keys
    keep their order.  The stable sorted arrangement of a frame is unique;
    it is computed here by insertion from the right. *)
Fixpoint insert_sorted `{ColumnOrder} (r : row) (sorted : frame) : frame :=
  match sorted with
  | [] => [r]
  | x :: rest => if key_leb r x then r :: sorted else x :: insert_sorted r rest
  end.

Definition sort_values `{ColumnOrder} (df : frame) : frame :=
  fold_right insert_sorted [] df.

Definition merge `{ColumnOrder} (df_master new_df : frame) : frame :=
  let combined := df_master ++ new_df in
  sort_values (drop_duplicates combined).

(** ** Planning the jobs

    A job is a triple (date, format, category). *)

Definition job : Type := Z * string * string.

Definition job_eq_dec (a b : job) : {a = b} + {a <> b}.
Proof. repeat decide equality. Defined.

Definition df_sub (df_master : frame) (fmt cat : string) : frame :=
  filter (fun r => String.eqb (Format r) fmt && String.eqb (Category r) cat)
         df_master.

(** [Series.max()] of a date column: missing dates are skipped, and the
    result is missing when no date is left. *)
Fixpoint series_max (dates : list (option Z)) : option Z :=
  match dates with
  | [] => None
  | d :: rest =>
      match d, series_max rest with
      | Some a, Some b => Some (Z.max a b)
      | Some a, None => Some a
      | None, m => m
      end
  end.

Definition FIRST_DATE : Z := Eval cbv in Calendar.ymd2ord 1971 1 1.

(** [last_date] of the loop body.  When the pair has rows but none with a
    date, the maximum is NaT, which cannot be compared with [end_date]: the
    comparison raises ([None]). *)
Definition last_date (df_master : frame) (fmt cat : string) : option Z :=
  match df_sub df_master fmt cat with
  | [] => Some (FIRST_DATE - 1)
  | sub => series_max (map Date sub)
  end.

(** [[start_date + timedelta(days=i) for i in range((end_date - start_date).days + 1)]] *)
Definition new_dates (start_date end_date : Z) : list Z :=
  map (fun i => start_date + Z.of_nat i)
      (seq 0 (Z.to_nat (end_date - start_date + 1))).

(** One turn of the inner loop: the jobs appended for the pair. *)
Definition pair_jobs (df_master : frame) (end_date : Z) (fmt cat : string)
  : option (list job) :=
  match last_date df_master fmt cat with
  | None => None
  | Some last =>
      if end_date <=? last then Some []
      else
        let start_date := last + 1 in
        Some (map (fun d => (d, fmt, cat)) (new_dates start_date end_date))
  end.

Fixpoint for_categories (df_master : frame) (end_date : Z) (fmt : string)
         (categories : list string) (jobs : list job) : option (list job) :=
  match categories with
  | [] => Some jobs
  | cat :: rest =>
      match pair_jobs df_master end_date fmt cat with
      | None => None
      | Some new => for_categories df_master end_date fmt rest (jobs ++ new)
      end
  end.

Fixpoint for_formats (df_master : frame) (end_date : Z)
         (formats categories : list string) (jobs : list job)
  : option (list job) :=
  match formats with
  | [] => Some jobs
  | fmt :: rest =>
      match for_categories df_master end_date fmt categories jobs with
      | None => None
      | Some jobs' => for_formats df_master end_date rest categories jobs'
      end
  end.

(** The job list [main] builds, for given [FORMATS] and [CATEGORIES]. *)
Definition plan_jobs (formats categories : list string)
           (df_master : frame) (end_date : Z) : option (list job) :=
  for_formats df_master end_date formats categories [].

(** ** Effects

    A computation runs on a state and returns a value or raises; what it
    did to the state before raising stays done. *)

Inductive result (A : Type) : Type :=
| Ok (a : A)
| Raised.
Arguments Ok {A} a.
Arguments Raised {A}.

Definition M (S A : Type) : Type := S -> result A * S.

Definition ret {S A : Type} (a : A) : M S A := fun s => (Ok a, s).

Definition bind {S A B : Type} (m : M S A) (k : A -> M S B) : M S B :=
  fun s =>
    match m s with
    | (Ok a, s') => k a s'
    | (Raised, s') => (Raised, s')
    end.

Definition raise {S A : Type} : M S A := fun s => (Raised, s).

(** [try: body  except Exception: handler] *)
Definition try_except {S A : Type} (body handler : M S A) : M S A :=
  fun s =>
    match body s with
    | (Ok a, s') => (Ok a, s')
    | (Raised, s') => handler s'
    end.

Declare Scope prog_scope.
Delimit Scope prog_scope with prog.
Notation "x <- m ;; k" := (bind m (fun x => k))
  (at level 61, m at next level, right associativity) : prog_scope.
Notation "m ;; k" := (bind m (fun _ => k))
  (at level 61, right associativity) : prog_scope.

(** [for _ in range(n): body], where the body either returns from the
    function ([Some v]) or goes on to the next turn ([None]); [after] is
    the code behind the loop. *)
Fixpoint for_range {S A : Type} (n : nat) (body : M S (option A))
         (after : M S A) : M S A :=
  match n with
  | O => after
  | S n' =>
      bind body (fun r =>
        match r with
        | Some v => ret v
        | None => for_range n' body after
        end)
  end.

Inductive message : Type :=
| LoadedExisting
| StartingFresh
| NothingNew
| Scraping (jobs : nat)
| NoNewData
| NewRows (rows : nat)
| Updated (path : string) (rows : nat).

Inductive event : Type :=
| Print (m : message)
| Request (url : string) (timeout : Z)
| Sleep (seconds : Z)
| ToCsv (path : string) (df : frame).

(** ** The page

    A parsed document is a tree of elements and text nodes. *)

#[warnings="-register-all"]
Inductive node : Type :=
| Text (s : string)
| Elem (tag : string) (children : list node).

Definition is_elem (name : string) (n : node) : bool :=
  match n with
  | Elem tag _ => String.eqb tag name
  | Text _ => false
  end.

(** [soup.select("table tr")]: the [tr] elements below a [table] element,
    in document order. *)
Fixpoint select_table_tr (in_table : bool) (n : node) : list node :=
  match n with
  | Text _ => []
  | Elem tag children =>
      let inside := in_table || String.eqb tag "table" in
      flat_map (fun k =>
                  (if inside && is_elem "tr" k then [k] else [])
                  ++ select_table_tr inside k)
               children
  end.

(** [row.find_all(name)]: the elements of that name below [n]. *)
Fixpoint find_all (name : string) (n : node) : list node :=
  match n with
  | Text _ => []
  | Elem _ children =>
      flat_map (fun k => (if is_elem name k then [k] else []) ++ find_all name k)
               children
  end.

(** The text nodes of [n], in document order. *)
Fixpoint strings (n : node) : list string :=
  match n with
  | Text s => [s]
  | Elem _ children => flat_map strings children
  end.

(** Texts are strings of bytes: a Python [str] is modelled by its UTF-8
    encoding, which keeps equality and the order of code points.  A
    character above U+007F is then two bytes or more: the non-breaking
    space U+00A0 is the bytes 194 160, and a byte 160 alone is no
    character.

    [WHITESPACE] lists the characters for which [str.isspace] holds, each
    by its UTF-8 bytes: U+0009 to U+000D, U+001C to U+0020, U+0085, U+00A0,
    U+1680, U+2000 to U+200A, U+2028, U+2029, U+202F, U+205F and U+3000. *)
Definition WHITESPACE : list (list ascii) :=
  map (map ascii_of_nat)
      [[9]; [10]; [11]; [12]; [13]; [28]; [29]; [30]; [31]; [32];
       [194; 133]; [194; 160];
       [225; 154; 128];
       [226; 128; 128]; [226; 128; 129]; [226; 128; 130]; [226; 128; 131];
       [226; 128; 132]; [226; 128; 133]; [226; 128; 134]; [226; 128; 135];
       [226; 128; 136]; [226; 128; 137]; [226; 128; 138];
       [226; 128; 168]; [226; 128; 169]; [226; 128; 175];
       [226; 129; 159];
       [227; 128; 128]]%nat.

(** What follows [pattern] in [l], when [l] starts with it. *)
Fixpoint after_prefix (pattern l : list ascii) : option (list ascii) :=
  match pattern with
  | [] => Some l
  | a :: pattern' =>
      match l with
      | b :: l' => if Ascii.eqb a b then after_prefix pattern' l' else None
      | [] => None
      end
  end.

(** What follows the first character of [l], when it is one of [chars]. *)
Fixpoint drop_char (chars : list (list ascii)) (l : list ascii)
  : option (list ascii) :=
  match chars with
  | [] => None
  | c :: chars' =>
      match after_prefix c l with
      | Some rest => Some rest
      | None => drop_char chars' l
      end
  end.

(** [l] without its leading characters of [chars]; [fuel] bounds their
    number. *)
Fixpoint drop_chars (chars : list (list ascii)) (fuel : nat) (l : list ascii)
  : list ascii :=
  match fuel with
  | O => l
  | S fuel' =>
      match drop_char chars l with
      | Some rest => drop_chars chars fuel' rest
      | None => l
      end
  end.

(** [str.lstrip()], [str.rstrip()] and [str.strip()]: the whitespace
    characters at the start, at the end, at both ends are removed.  At the
    end the bytes are read backwards. *)
Definition lstrip (s : string) : string :=
  let l := list_ascii_of_string s in
  string_of_list_ascii (drop_chars WHITESPACE (List.length l) l).

Definition rstrip (s : string) : string :=
  let l := list_ascii_of_string s in
  string_of_list_ascii
    (rev (drop_chars (map (@rev ascii) WHITESPACE) (List.length l) (rev l))).

Definition strip (s : string) : string := rstrip (lstrip s).

(** [cell.get_text(strip=True)]: every text node stripped, the empty ones
    left out, the rest joined with nothing in between. *)
Definition get_text_strip (n : node) : string :=
  String.concat ""
    (filter (fun s => negb (String.eqb s "")) (map strip (strings n))).

(** [l[a:b]] for [0 <= a <= b]. *)
Definition slice {A : Type} (a b : nat) (l : list A) : list A :=
  firstn (b - a) (skipn a l).
Arguments slice : simpl never.

(** ** Fetching one job: [scrape_date]

    What the site does is given by [net]: the outcome of the [k]-th request
    a worker sends for a URL.  A request raises (connection error, timeout)
    or brings a response with a status code; [text] is the parsed body, or
    [None] when parsing it raises. *)

Record response : Type := mkResponse {
  status_code : Z;
  text : option node
}.

Inductive attempt : Type :=
| Fails
| Responds (r : response).

Definition network : Type := string -> nat -> attempt.

Record worker : Type := mkWorker {
  sent : nat;
  trace : list event
}.

Definition session_get (net : network) (url : string) (timeout : Z)
  : M worker response :=
  fun w =>
    let w' := {| sent := S (sent w); trace := trace w ++ [Request url timeout] |} in
    match net url (sent w) with
    | Fails => (Raised, w')
    | Responds r => (Ok r, w')
    end.

Definition BeautifulSoup (body : option node) : M worker node :=
  match body with
  | Some soup => ret soup
  | None => raise
  end.

Definition time_sleep (seconds : Z) : M worker unit :=
  fun w => (Ok tt, {| sent := sent w; trace := trace w ++ [Sleep seconds] |}).

Definition is_empty {A : Type} (l : list A) : bool :=
  match l with [] => true | _ => false end.

(** The rows of the list comprehension, for the selected [rows]. *)
Definition scraped_rows (date_str fmt category : string) (rows : list node)
  : list (list string) :=
  map (fun cols =>
         [date_str; fmt; category;
          get_text_strip (nth 0 cols (Text ""));
          get_text_strip (nth 1 cols (Text ""));
          get_text_strip (nth 2 cols (Text ""))])
      (filter (fun cols => (3 <=? List.length cols)%nat)
              (map (find_all "td") rows)).

Definition scrape_attempt (net : network) (date_str fmt category : string)
  : M worker (option (list (list string))) :=
  try_except
    (r <- session_get net (BASE_URL fmt category date_str) 10 ;;
     if negb (status_code r =? 200) then ret None
     else
       soup <- BeautifulSoup (text r) ;;
       let rows := slice 1 101 (select_table_tr false soup) in
       if is_empty rows then ret (Some [])
       else ret (Some (scraped_rows date_str fmt category rows)))%prog
    (time_sleep 1 ;; ret None)%prog.

Definition scrape_date (net : network) (date_obj : Z) (fmt category : string)
  : M worker (list (list string)) :=
  let date_str := Calendar.strftime date_obj in
  for_range MAX_RETRIES (scrape_attempt net date_str fmt category) (ret []).

(** ** The run: [main]

    The world of a run is the table stored in [OUTPUT_FILE] ([None] when
    the file does not exist) and what the run has printed, requested and
    written so far.  [read_csv] is what [pd.read_csv] followed by
    [pd.to_datetime] on the Date column makes of a stored table. *)

Record world : Type := mkWorld {
  file : option frame;
  log : list event
}.

Definition emit (evs : list event) : M world unit :=
  fun w => (Ok tt, {| file := file w; log := log w ++ evs |}).

Definition print (m : message) : M world unit := emit [Print m].

Definition path_exists : M world bool :=
  fun w => (Ok (match file w with Some _ => true | None => false end), w).

Definition pd_read_csv (read_csv : frame -> frame) : M world frame :=
  fun w =>
    match file w with
    | Some stored => (Ok (read_csv stored), w)
    | None => (Raised, w)
    end.

Definition to_csv (df : frame) : M world unit :=
  fun w => (Ok tt, {| file := Some df; log := log w ++ [ToCsv OUTPUT_FILE df] |}).

Definition lift_option {S A : Type} (o : option A) : M S A :=
  match o with
  | Some a => ret a
  | None => raise
  end.

(** One worker process runs [scrape_date] on one job; its result goes to
    the callback. *)
Definition run_worker (net : network) (j : job) : list (list string) * list event :=
  let '(d, fmt, cat) := j in
  match scrape_date net d fmt cat {| sent := O; trace := [] |} with
  | (Ok res, w) => (res, trace w)
  | (Raised, w) => ([], trace w)
  end.

(** The pool: the jobs finish in some order ([finished]); the callback
    extends [results] with each result that is not empty.  The events of a
    worker are kept together in the log. *)
Fixpoint pool (net : network) (finished : list job)
         (results : list (list string)) : M world (list (list string)) :=
  match finished with
  | [] => ret results
  | j :: rest =>
      let '(res, evs) := run_worker net j in
      (emit evs ;;
       pool net rest (if is_empty res then results else results ++ res))%prog
  end.

(** [pd.DataFrame(results, columns=[...])] followed by [pd.to_datetime] on
    the Date column, for one scraped row. *)
Definition new_row `{Pandas} (r : list string) : row :=
  {| Date := to_datetime (nth 0 r "");
     Format := nth 1 r "";
     Category := nth 2 r "";
     Rank := Txt (nth 3 r "");
     Player := Txt (nth 4 r "");
     Rating := Txt (nth 5 r "") |}.

(** [combined["Date"].dt.strftime("%Y/%m/%d")] (line 118).  The [.dt]
    accessor raises when the column is not of a datetime type.  The Date
    column of the master is of a datetime type when the file was read
    (line 62) and of type [object] when the frame was built empty
    (line 65); the Date column of [new_df] is of a datetime type
    (line 108).  So the column of the concatenation is of a datetime type
    unless the master was built empty and [pd.concat] counts it.  The
    strings the call makes of the dates are what [to_csv] stores; the
    stored table is kept with its dates. *)
Definition dt_strftime `{Pandas} (present : bool) : M world unit :=
  if present || negb concat_counts_empty then ret tt else raise.

Definition main `{Pandas} `{ColumnOrder} (utcoffset : Z -> Z) (utcnow : Z)
           (read_csv : frame -> frame) (net : network)
           (completion : list job -> list job) : M world unit :=
  (present <- path_exists ;;
   df_master <- (if present
                 then (df <- pd_read_csv read_csv ;; print LoadedExisting ;; ret df)
                 else (print StartingFresh ;; ret [])) ;;
   let end_date := last_tuesday_ist utcoffset utcnow true in
   jobs <- lift_option (plan_jobs FORMATS CATEGORIES df_master end_date) ;;
   if is_empty jobs then print NothingNew
   else
     print (Scraping (List.length jobs)) ;;
     results <- pool net (completion jobs) [] ;;
     if is_empty results then print NoNewData
     else
       let new_df := map new_row results in
       print (NewRows (List.length new_df)) ;;
       let combined := merge df_master new_df in
       dt_strftime present ;;
       to_csv combined ;;
       print (Updated OUTPUT_FILE (List.length combined)))%prog.

(** ** Auxiliary definitions for the statements *)

(** The jobs of one pair, nothing when its turn raises. *)
Definition pair_jobs_or_nil (df_master : frame) (end_date : Z)
           (fmt cat : string) : list job :=
  match pair_jobs df_master end_date fmt cat with
  | Some new => new
  | None => []
  end.

(** The jobs of all pairs, in the order of the two loops. *)
Definition all_jobs (formats categories : list string)
           (df_master : frame) (end_date : Z) : list job :=
  flat_map (fun fmt =>
              flat_map (pair_jobs_or_nil df_master end_date fmt) categories)
           formats.

(** A pair is planned without failure when it has no row, or has a row
    with a date. *)
Definition dated_or_absent (df_master : frame) (fmt cat : string) : Prop :=
  df_sub df_master fmt cat = []
  \/ exists r, In r (df_sub df_master fmt cat) /\ Date r <> None.

(** The watermark of a pair: the greatest date of the rows of the pair, or
    1970-12-31 when the pair has no row. *)
Definition watermark (df_master : frame) (fmt cat : string) (W : Z) : Prop :=
  (df_sub df_master fmt cat = [] /\ W = Calendar.ymd2ord 1970 12 31)
  \/ ((exists r, In r df_master /\ Format r = fmt /\ Category r = cat
                  /\ Date r = Some W)
      /\ (forall r d, In r df_master -> Format r = fmt -> Category r = cat ->
                       Date r = Some d -> d <= W)).

(** A master in which (odi, batting) reaches 1971-01-02 and the only row
    of (test, batting) has no date. *)
Definition undated_pair_master : frame :=
  [ {| Date := Some (Calendar.ymd2ord 1971 1 2);
       Format := "odi"; Category := "batting";
       Rank := Txt "1"; Player := Txt "G Boycott"; Rating := Txt "880" |};
    {| Date := None;
       Format := "test"; Category := "batting";
       Rank := Txt "1"; Player := Txt "G Sobers"; Rating := Txt "900" |} ].

(** The two laws of a three-way comparison. *)
Definition cmp_sym {A : Type} (cmp : A -> A -> comparison) : Prop :=
  forall a b, cmp b a = CompOpp (cmp a b).

Definition cmp_trans {A : Type} (cmp : A -> A -> comparison) : Prop :=
  forall c a b d, cmp a b = c -> cmp b d = c -> cmp a d = c.

(** The rows with the sort key of [r0]. *)
Definition same_key `{ColumnOrder} (r0 r : row) : bool :=
  match key_compare r0 r with Eq => true | _ => false end.

(** A small master, for the examples: one row of (odi, batting). *)
Definition sample_master : frame :=
  [ {| Date := Some (Calendar.ymd2ord 1971 1 3);
       Format := "odi"; Category := "batting";
       Rank := Txt "1"; Player := Txt "G Boycott"; Rating := Txt "880" |} ].

Definition sample_last_date (fmt cat : string) : Z :=
  if String.eqb fmt "odi" && String.eqb cat "batting"
  then Calendar.ymd2ord 1971 1 3
  else Calendar.ymd2ord 1970 12 31.

(** What one attempt comes to: it raises (the request fails, or the body
    of a 200 response cannot be parsed), it is refused (a status other than
    200), or it brings a page, of which the rows [[1:101]] are taken. *)
Definition raises (a : attempt) : bool :=
  match a with
  | Fails => true
  | Responds r =>
      (status_code r =? 200) && match text r with None => true | Some _ => false end
  end.

Definition refused (a : attempt) : bool :=
  match a with
  | Fails => false
  | Responds r => negb (status_code r =? 200)
  end.

Definition page_rows (a : attempt) : option (list node) :=
  match a with
  | Fails => None
  | Responds r =>
      if status_code r =? 200
      then match text r with
           | Some soup => Some (slice 1 101 (select_table_tr false soup))
           | None => None
           end
      else None
  end.

(** The first of the attempts [start], ..., [start + n - 1] that brings a
    page, with the rows taken from it. *)
Fixpoint first_page (net : network) (url : string) (start n : nat)
  : option (nat * list node) :=
  match n with
  | O => None
  | S n' =>
      match page_rows (net url start) with
      | Some rows => Some (start, rows)
      | None => first_page net url (S start) n'
      end
  end.

(** The events of [n] attempts from [start] on: a request each, followed by
    a sleep of one second when the attempt raises. *)
Definition attempts_trace (net : network) (url : string) (start n : nat)
  : list event :=
  flat_map (fun k => Request url 10
                     :: (if raises (net url k) then [Sleep 1] else []))
           (seq start n).

(** The URL of a job. *)
Definition job_url (date_obj : Z) (fmt category : string) : string :=
  BASE_URL fmt category (Calendar.strftime date_obj).

(** [cell.get_text()], and the rows of the first table of a page with the
    first of them left out and at most 100 kept: the reading of a page
    that takes the first table only and trims each cell as a whole. *)
Definition get_text (n : node) : string := String.concat "" (strings n).

Definition first_table_rows (soup : node) : list node :=
  match find_all "table" soup with
  | first :: _ => slice 1 101 (find_all "tr" first)
  | [] => []
  end.

Definition first_table_records (date_str fmt category : string) (soup : node)
  : list (list string) :=
  map (fun cols =>
         [date_str; fmt; category;
          strip (get_text (nth 0 cols (Text "")));
          strip (get_text (nth 1 cols (Text "")));
          strip (get_text (nth 2 cols (Text "")))])
      (filter (fun cols => (3 <=? List.length cols)%nat)
              (map (find_all "td") (first_table_rows soup))).

Definition failed (a : attempt) : bool := raises a || refused a.

(** The events the attempts would leave if every failed attempt, refused
    or raising, were followed by the sleep. *)
Definition backoff_after_every_failure (net : network) (url : string)
           (start n : nat) : list event :=
  flat_map (fun k => Request url 10
                     :: (if failed (net url k) then [Sleep 1] else []))
           (seq start n).

(** The row [scrape_date] makes of a [tr] element with three cells or
    more. *)
Definition scraped_row (date_str fmt category : string) (row : node)
  : list string :=
  let cols := find_all "td" row in
  [date_str; fmt; category;
   get_text_strip (nth 0 cols (Text ""));
   get_text_strip (nth 1 cols (Text ""));
   get_text_strip (nth 2 cols (Text ""))].

(** Pages and networks for the examples. *)
Definition td (s : string) : node := Elem "td" [Text s].
Definition th (s : string) : node := Elem "th" [Text s].
Definition tr (cells : list node) : node := Elem "tr" cells.
Definition table (rows : list node) : node := Elem "table" rows.
Definition document (body : list node) : node :=
  Elem "[document]" [Elem "html" [Elem "body" body]].

Definition header_row : node := tr [th "Rank"; th "Name"; th "Rating"].

Definition ranking_page : node :=
  document [table [header_row;
                   tr [td " 1 "; td "G Boycott"; td "880"];
                   tr [td "2"; td "G Sobers"; td "870"];
                   tr [td "no ranking"];
                   tr [td "3"; td "B Richards"; td "860"]]].

Definition empty_page : node := document [table [header_row]].

Definition two_table_page : node :=
  document [table [header_row; tr [td "1"; td "G Boycott"; td "880"]];
            table [header_row; tr [td "7"; td "Other"; td "100"]]].

Definition markup_page : node :=
  document [table [header_row;
                   tr [td "1";
                       Elem "td" [Text "G "; Elem "b" [Text "Boycott"]];
                       td "880"]]].

Definition ok_response (soup : node) : attempt :=
  Responds {| status_code := 200; text := Some soup |}.

Definition status_response (code : Z) : attempt :=
  Responds {| status_code := code; text := None |}.

(** The network that answers the successive requests with [attempts], and
    fails afterwards. *)
Definition net_of (attempts : list attempt) : network :=
  fun _ k => nth k attempts Fails.

Definition fresh_worker : worker := {| sent := O; trace := [] |}.

(** The master a run starts from, and its first line of output. *)
Definition loaded_master (read_csv : frame -> frame) (w : world) : frame :=
  match file w with
  | Some stored => read_csv stored
  | None => []
  end.

Definition load_message (w : world) : message :=
  match file w with
  | Some _ => LoadedExisting
  | None => StartingFresh
  end.

(** Whether the Date column of the concatenation is of a datetime type:
    the master was read from the file, or [pd.concat] leaves the empty
    master out of the choice of the type. *)
Definition datetime_column `{Pandas} (w : world) : bool :=
  match file w with Some _ => true | None => negb concat_counts_empty end.

(** What the workers return and do, in the order they finish. *)
Definition pool_results (net : network) (finished : list job)
  : list (list string) :=
  flat_map (fun j => fst (run_worker net j)) finished.

Definition pool_events (net : network) (finished : list job) : list event :=
  flat_map (fun j => snd (run_worker net j)) finished.

Definition is_write (e : event) : bool :=
  match e with
  | ToCsv _ _ => true
  | _ => false
  end.

(** A master that covers the four pairs up to 1971-01-05. *)
Definition covered_master : frame :=
  map (fun p => {| Date := Some (Calendar.ymd2ord 1971 1 5);
                   Format := fst p; Category := snd p;
                   Rank := Num 1; Player := Txt "x"; Rating := Num 900 |})
      (list_prod FORMATS CATEGORIES).

(** The site that serves the ranking page for (odi, batting) on
    1971-01-05 and answers 404 otherwise. *)
Definition one_page_net : network :=
  fun url _ =>
    if String.eqb url (job_url (Calendar.ymd2ord 1971 1 5) "odi" "batting")
    then ok_response ranking_page
    else status_response 404.

(** Noon of Wednesday 1971-01-06, UTC. *)
Definition noon_1971_01_06 : Z := 370 * 86400 + 43200.

(** ** Auxiliary definitions for the further properties *)

(** The dates [strftime] writes with a year of four digits: 1000-01-01 to
    9999-12-31. *)
Definition four_digit_year (d : Z) : Prop :=
  Calendar.ymd2ord 1000 1 1 <= d <= Calendar.ymd2ord 9999 12 31.

(** The dates every pandas holds: 1677-09-22 to 2262-04-11. *)
Definition timestamp_date (d : Z) : Prop :=
  TIMESTAMP_FIRST <= d <= TIMESTAMP_LAST.

(** The check of one day of the cycle of 400 years that the calendar
    repeats with: the day is split into a year of the cycle, a month and a
    day of that month, and these give the day back. *)
Definition cycle_day_ok (n : Z) : bool :=
  let '(y, m, d) := Calendar.ord2ymd n in
  (1 <=? y) && (y <=? 400) && (1 <=? m) && (m <=? 12)
  && (1 <=? d) && (d <=? Calendar.days_in_month y m)
  && (Calendar.ymd2ord y m d =? n)
  && ((145731 <? n) || (y <=? 399)).

Definition is_request (e : event) : bool :=
  match e with
  | Request _ _ => true
  | _ => false
  end.

(** The text with the given bytes. *)
Definition utf8 (bytes : list nat) : string :=
  string_of_list_ascii (map ascii_of_nat bytes).





Fixpoint all_from (start : Z) (n : nat) (p : Z -> bool) : bool :=
  match n with
  | O => true
  | S k => p start && all_from (start + 1) k p
  end.

(** * Properties *)

(** ** Calendar *)

Lemma weekday_range (d : Z) : 0 <= Calendar.weekday d < 7.
Proof. unfold Calendar.weekday. apply Z.mod_pos_bound. lia. Qed.

Lemma weekday_shift_week (d : Z) : Calendar.weekday (d - 7) = Calendar.weekday d.
Proof.
  unfold Calendar.weekday.
  replace (d - 7 + 6) with (d + 6 + (-1) * 7) by lia.
  apply Z.mod_add. lia.
Qed.

Example ord_1970_01_01 : Calendar.ymd2ord 1970 1 1 = 719163.
Proof. reflexivity. Qed.

Example ord_1971_01_05 : Calendar.ymd2ord 1971 1 5 = 719532.
Proof. reflexivity. Qed.

Example ymd_719532 : Calendar.ord2ymd 719532 = (1971, 1, 5).
Proof. reflexivity. Qed.

Example ymd_leap_day :
  Calendar.ord2ymd (Calendar.ymd2ord 2024 2 29) = (2024, 2, 29).
Proof. reflexivity. Qed.

Example ymd_year_end :
  Calendar.ord2ymd (Calendar.ymd2ord 2023 12 31) = (2023, 12, 31).
Proof. reflexivity. Qed.

Example strftime_1971_01_05 :
  Calendar.strftime (Calendar.ymd2ord 1971 1 5) = "1971/01/05".
Proof. reflexivity. Qed.

Example strptime_1971_01_05 :
  Calendar.strptime "1971/01/05" = Some (Calendar.ymd2ord 1971 1 5).
Proof. reflexivity. Qed.

Example strptime_not_a_date : Calendar.strptime "1971/02/30" = None.
Proof. reflexivity. Qed.

Example tuesday_1971_01_05 : Calendar.weekday (Calendar.ymd2ord 1971 1 5) = 1.
Proof. reflexivity. Qed.

Example first_date_sentinel : FIRST_DATE - 1 = Calendar.ymd2ord 1970 12 31.
Proof. reflexivity. Qed.

(** ** The pandas at hand *)

Definition in_nanoseconds (d : Z) : bool :=
  (TIMESTAMP_FIRST <=? d) && (d <=? TIMESTAMP_LAST).

Definition in_years_1_to_9999 (d : Z) : bool :=
  (1 <=? d) && (d <=? Calendar.ymd2ord 9999 12 31).

Lemma in_nanoseconds_holds (d : Z) :
  TIMESTAMP_FIRST <= d <= TIMESTAMP_LAST -> in_nanoseconds d = true.
Proof.
  intros [Hlo Hhi]. unfold in_nanoseconds.
  apply andb_true_intro. split; now apply Z.leb_le.
Qed.

Lemma in_years_holds (d : Z) :
  TIMESTAMP_FIRST <= d <= TIMESTAMP_LAST -> in_years_1_to_9999 d = true.
Proof.
  intros [Hlo Hhi]. unfold in_years_1_to_9999.
  assert (H9 : TIMESTAMP_LAST <= Calendar.ymd2ord 9999 12 31) by (vm_compute; discriminate).
  assert (H1 : 1 <= TIMESTAMP_FIRST) by (vm_compute; discriminate).
  apply andb_true_intro. split; apply Z.leb_le; lia.
Qed.

(** A pandas of nanosecond resolution whose [pd.concat] leaves empty
    frames out of the choice of the types, and one that holds the years 1
    to 9999 and counts them. *)
#[export] Instance pandas_2 : Pandas :=
  {| holds_date := in_nanoseconds;
     holds_date_nanoseconds := in_nanoseconds_holds;
     concat_counts_empty := false |}.

Definition pandas_3 : Pandas :=
  {| holds_date := in_years_1_to_9999;
     holds_date_nanoseconds := in_years_holds;
     concat_counts_empty := true |}.

Example to_datetime_1971_01_05 :
  to_datetime "1971/01/05" = Some (Calendar.ymd2ord 1971 1 5).
Proof. reflexivity. Qed.

Example to_datetime_not_a_date : to_datetime "1971/02/30" = None.
Proof. reflexivity. Qed.

Example to_datetime_out_of_bounds :
  @to_datetime pandas_2 "1500/01/01" = None
  /\ @to_datetime pandas_3 "1500/01/01" = Some (Calendar.ymd2ord 1500 1 1).
Proof. split; reflexivity. Qed.

(** ** The cutoff date *)

Section Cutoff.

Variable utcoffset : Z -> Z.

(** The cutoff is a Tuesday, whatever the instant and the mode. *)
Lemma weekday_back (d : Z) :
  Calendar.weekday (d - (Calendar.weekday d - 1) mod 7) = 1.
Proof.
  unfold Calendar.weekday.
  pose proof (Z.div_mod (d + 6) 7 ltac:(lia)) as Hd.
  pose proof (Z.mod_pos_bound (d + 6) 7 ltac:(lia)) as Hr.
  set (w := (d + 6) mod 7) in *. set (q := (d + 6) / 7) in *.
  pose proof (Z.div_mod (w - 1) 7 ltac:(lia)) as Hk.
  pose proof (Z.mod_pos_bound (w - 1) 7 ltac:(lia)) as Hkr.
  set (k := (w - 1) mod 7) in *. set (p := (w - 1) / 7) in *.
  symmetry. apply (Z.mod_unique_pos _ _ (q + p)); lia.
Qed.

Lemma last_tuesday_is_tuesday (today_utc : Z) (strict : bool) :
  Calendar.weekday (last_tuesday_ist utcoffset today_utc strict) = 1.
Proof.
  unfold last_tuesday_ist.
  set (d := local_date utcoffset today_utc).
  destruct (strict && (Calendar.weekday d =? 1)) eqn:E.
  - apply andb_prop in E. destruct E as [_ E]. apply Z.eqb_eq in E.
    rewrite weekday_shift_week. exact E.
  - apply weekday_back.
Qed.

(** It is at most a week back: today or one of the six days before it in
    the lenient mode, one of the seven days before today in the strict
    mode when today is a Tuesday. *)
Lemma last_tuesday_within_week (today_utc : Z) (strict : bool) :
  local_date utcoffset today_utc - 7
  <= last_tuesday_ist utcoffset today_utc strict
  <= local_date utcoffset today_utc.
Proof.
  unfold last_tuesday_ist.
  set (d := local_date utcoffset today_utc).
  pose proof (Z.mod_pos_bound (Calendar.weekday d - 1) 7 ltac:(lia)).
  destruct (strict && (Calendar.weekday d =? 1)); lia.
Qed.

Lemma last_tuesday_lenient_on_tuesday (today_utc : Z) :
  Calendar.weekday (local_date utcoffset today_utc) = 1 ->
  last_tuesday_ist utcoffset today_utc false = local_date utcoffset today_utc.
Proof.
  intros Hwd. unfold last_tuesday_ist. rewrite Hwd.
  change ((1 - 1) mod 7) with 0. cbn [andb]. lia.
Qed.

(** C4.  When the date of the instant in the zone is a Tuesday, the strict
    cutoff is the date seven days before it, and so not that date. *)
Theorem last_tuesday_strict_on_tuesday (today_utc : Z) :
  Calendar.weekday (local_date utcoffset today_utc) = 1 ->
  last_tuesday_ist utcoffset today_utc true = local_date utcoffset today_utc - 7
  /\ last_tuesday_ist utcoffset today_utc true <> local_date utcoffset today_utc.
Proof.
  intros Hwd.
  assert (E : last_tuesday_ist utcoffset today_utc true
              = local_date utcoffset today_utc - 7).
  { unfold last_tuesday_ist. rewrite Hwd. reflexivity. }
  split; [exact E | rewrite E; lia].
Qed.

End Cutoff.

(** 2024-01-02T00:00:00 UTC is 05:30 of Tuesday 2024-01-02 in Kolkata; the
    strict cutoff is 2023-12-26. *)
Lemma last_tuesday_strict_on_tuesday_witness :
  Calendar.weekday (local_date kolkata 1704153600) = 1
  /\ last_tuesday_ist kolkata 1704153600 true = Calendar.ymd2ord 2023 12 26.
Proof.
  split; [reflexivity |].
  exact (proj1 (last_tuesday_strict_on_tuesday kolkata 1704153600 eq_refl)).
Defined.

(** ** Planning the jobs *)

Lemma NoDup_map_injective {A B : Type} (f : A -> B) (l : list A) :
  (forall a b, f a = f b -> a = b) -> NoDup l -> NoDup (map f l).
Proof.
  intros Hinj. induction 1 as [| x l Hx Hl IH]; simpl; constructor; [| exact IH].
  rewrite in_map_iff. intros (y & Hy & Hin). apply Hinj in Hy. now subst.
Qed.

Lemma in_new_dates (start_date end_date d : Z) :
  In d (new_dates start_date end_date) <-> start_date <= d <= end_date.
Proof.
  unfold new_dates. rewrite in_map_iff. split.
  - intros (i & <- & Hi). apply in_seq in Hi. lia.
  - intros Hd. exists (Z.to_nat (d - start_date)). split; [lia |].
    apply in_seq. lia.
Qed.

Lemma NoDup_new_dates (start_date end_date : Z) :
  NoDup (new_dates start_date end_date).
Proof.
  unfold new_dates. apply NoDup_map_injective; [| apply seq_NoDup].
  intros i j Hij. lia.
Qed.

Lemma NoDup_flat_map {A B : Type} (f : A -> list B) (l : list A) :
  NoDup l ->
  (forall a, In a l -> NoDup (f a)) ->
  (forall a a' b, In a l -> In a' l -> In b (f a) -> In b (f a') -> a = a') ->
  NoDup (flat_map f l).
Proof.
  induction l as [| x l IH]; intros Hl Hf Hdisj; simpl; [constructor |].
  inversion Hl as [| ? ? Hx Hl']; subst.
  apply NoDup_app.
  - apply Hf. now left.
  - apply IH; [assumption | intros; apply Hf; now right |].
    intros a a' b Ha Ha'. apply Hdisj; now right.
  - intros b Hb Hb'. apply in_flat_map in Hb'. destruct Hb' as (a & Ha & Hba).
    apply Hx. rewrite (Hdisj x a b); auto; [now left | now right].
Qed.

(** A turn of the inner loop raises exactly when the pair has no last
    date. *)
Lemma pair_jobs_None (df_master : frame) (end_date : Z) (fmt cat : string) :
  pair_jobs df_master end_date fmt cat = None
  <-> last_date df_master fmt cat = None.
Proof.
  unfold pair_jobs. destruct (last_date df_master fmt cat) as [last |].
  - destruct (end_date <=? last); split; discriminate.
  - split; reflexivity.
Qed.

Lemma in_pair_jobs (df_master : frame) (end_date : Z) (fmt cat : string)
      (last : Z) (j : job) :
  last_date df_master fmt cat = Some last ->
  In j (pair_jobs_or_nil df_master end_date fmt cat)
  <-> exists d, j = (d, fmt, cat) /\ last < d <= end_date.
Proof.
  intros Hlast. unfold pair_jobs_or_nil, pair_jobs. rewrite Hlast.
  destruct (end_date <=? last) eqn:Hcmp.
  - apply Z.leb_le in Hcmp. simpl. split; [tauto |].
    intros (d & _ & Hd). lia.
  - apply Z.leb_gt in Hcmp. rewrite in_map_iff. split.
    + intros (d & <- & Hd). apply in_new_dates in Hd. exists d. split; [easy | lia].
    + intros (d & -> & Hd). exists d. split; [easy |]. apply in_new_dates. lia.
Qed.

Lemma pair_jobs_tagged (df_master : frame) (end_date : Z) (fmt cat : string)
      (j : job) :
  In j (pair_jobs_or_nil df_master end_date fmt cat) ->
  snd (fst j) = fmt /\ snd j = cat.
Proof.
  unfold pair_jobs_or_nil, pair_jobs.
  destruct (last_date df_master fmt cat) as [last |]; [| contradiction].
  destruct (end_date <=? last); [contradiction |].
  rewrite in_map_iff. intros (d & <- & _). split; reflexivity.
Qed.

Lemma NoDup_pair_jobs (df_master : frame) (end_date : Z) (fmt cat : string) :
  NoDup (pair_jobs_or_nil df_master end_date fmt cat).
Proof.
  unfold pair_jobs_or_nil, pair_jobs.
  destruct (last_date df_master fmt cat) as [last |]; [| constructor].
  destruct (end_date <=? last); [constructor |].
  apply NoDup_map_injective; [| apply NoDup_new_dates].
  intros a b Hab. congruence.
Qed.

Lemma in_all_jobs (formats categories : list string) (df_master : frame)
      (end_date : Z) (j : job) :
  In j (all_jobs formats categories df_master end_date)
  <-> In (snd (fst j)) formats /\ In (snd j) categories
      /\ In j (pair_jobs_or_nil df_master end_date (snd (fst j)) (snd j)).
Proof.
  unfold all_jobs. rewrite in_flat_map. split.
  - intros (fmt & Hf & Hj). apply in_flat_map in Hj.
    destruct Hj as (cat & Hc & Hj).
    destruct (pair_jobs_tagged _ _ _ _ _ Hj) as [-> ->]. auto.
  - intros (Hf & Hc & Hj). eexists. split; [exact Hf |].
    apply in_flat_map. eexists. split; [exact Hc | exact Hj].
Qed.

Lemma NoDup_all_jobs (formats categories : list string) (df_master : frame)
      (end_date : Z) :
  NoDup formats -> NoDup categories ->
  NoDup (all_jobs formats categories df_master end_date).
Proof.
  intros Hf Hc. unfold all_jobs. apply NoDup_flat_map; [assumption | |].
  - intros fmt _. apply NoDup_flat_map; [assumption | |].
    + intros cat _. apply NoDup_pair_jobs.
    + intros c c' j _ _ Hj Hj'.
      apply pair_jobs_tagged in Hj, Hj'. destruct Hj, Hj'. congruence.
  - intros f f' j _ _ Hj Hj'. apply in_flat_map in Hj, Hj'.
    destruct Hj as (c & _ & Hj), Hj' as (c' & _ & Hj').
    apply pair_jobs_tagged in Hj, Hj'. destruct Hj, Hj'. congruence.
Qed.

Lemma for_categories_defined (df_master : frame) (end_date : Z) (fmt : string)
      (categories : list string) (jobs : list job) :
  (forall cat, In cat categories -> last_date df_master fmt cat <> None) ->
  for_categories df_master end_date fmt categories jobs
  = Some (jobs ++ flat_map (pair_jobs_or_nil df_master end_date fmt) categories).
Proof.
  revert jobs. induction categories as [| cat rest IH]; intros jobs Hdef; simpl.
  - now rewrite app_nil_r.
  - unfold pair_jobs_or_nil at 1.
    destruct (pair_jobs df_master end_date fmt cat) as [new |] eqn:Hp.
    + rewrite IH by (intros; apply Hdef; now right). now rewrite app_assoc.
    + apply pair_jobs_None in Hp. exfalso. apply (Hdef cat); [now left | exact Hp].
Qed.

Lemma for_categories_raises (df_master : frame) (end_date : Z) (fmt : string)
      (categories : list string) (jobs : list job) (cat : string) :
  In cat categories -> last_date df_master fmt cat = None ->
  for_categories df_master end_date fmt categories jobs = None.
Proof.
  revert jobs. induction categories as [| c rest IH]; intros jobs Hin Hnone;
    [contradiction |].
  simpl. destruct (pair_jobs df_master end_date fmt c) as [new |] eqn:Hp;
    [| reflexivity].
  destruct Hin as [-> | Hin].
  - apply (proj2 (pair_jobs_None _ end_date _ _)) in Hnone. congruence.
  - now apply IH.
Qed.

Lemma for_formats_defined (df_master : frame) (end_date : Z)
      (formats categories : list string) (jobs : list job) :
  (forall fmt cat, In fmt formats -> In cat categories ->
                   last_date df_master fmt cat <> None) ->
  for_formats df_master end_date formats categories jobs
  = Some (jobs ++ all_jobs formats categories df_master end_date).
Proof.
  revert jobs. induction formats as [| fmt rest IH]; intros jobs Hdef; simpl.
  - unfold all_jobs. simpl. now rewrite app_nil_r.
  - rewrite for_categories_defined by (intros; apply Hdef; [now left | assumption]).
    rewrite IH by (intros; apply Hdef; [now right | assumption]).
    unfold all_jobs. simpl. now rewrite app_assoc.
Qed.

Lemma for_formats_raises (df_master : frame) (end_date : Z)
      (formats categories : list string) (jobs : list job) (fmt cat : string) :
  In fmt formats -> In cat categories -> last_date df_master fmt cat = None ->
  for_formats df_master end_date formats categories jobs = None.
Proof.
  revert jobs. induction formats as [| f rest IH]; intros jobs Hf Hc Hnone;
    [contradiction |].
  simpl.
  destruct (for_categories df_master end_date f categories jobs) as [jobs' |] eqn:E;
    [| reflexivity].
  destruct Hf as [-> | Hf].
  - rewrite (for_categories_raises _ _ _ _ _ cat Hc Hnone) in E. discriminate.
  - now apply IH.
Qed.

(** The planner returns a job list exactly when every pair has a last date,
    and the list is then the jobs of all the pairs. *)
Lemma plan_jobs_defined (formats categories : list string) (df_master : frame)
      (end_date : Z) :
  (forall fmt cat, In fmt formats -> In cat categories ->
                   last_date df_master fmt cat <> None) ->
  plan_jobs formats categories df_master end_date
  = Some (all_jobs formats categories df_master end_date).
Proof. intros Hdef. unfold plan_jobs. now rewrite for_formats_defined. Qed.

Lemma plan_jobs_raises (formats categories : list string) (df_master : frame)
      (end_date : Z) (fmt cat : string) :
  In fmt formats -> In cat categories -> last_date df_master fmt cat = None ->
  plan_jobs formats categories df_master end_date = None.
Proof. intros. unfold plan_jobs. eapply for_formats_raises; eassumption. Qed.

(** The last date of a pair is the sentinel 1970-12-31 when the pair has
    no row, and the greatest date of its rows otherwise. *)
Lemma series_max_None (dates : list (option Z)) :
  series_max dates = None <-> forall d, ~ In (Some d) dates.
Proof.
  induction dates as [| [a |] rest IH]; simpl.
  - split; auto.
  - split.
    + destruct (series_max rest); discriminate.
    + intros H. exfalso. apply (H a). now left.
  - rewrite IH. split.
    + intros H d [Hd | Hd]; [discriminate | eapply H; eauto].
    + intros H d Hd. apply (H d). now right.
Qed.

Lemma series_max_Some (dates : list (option Z)) (W : Z) :
  series_max dates = Some W ->
  In (Some W) dates /\ forall d, In (Some d) dates -> d <= W.
Proof.
  revert W. induction dates as [| [a |] rest IH]; intros W Hmax; simpl in Hmax.
  - discriminate.
  - destruct (series_max rest) as [b |] eqn:Hrest.
    + destruct (IH b eq_refl) as [Hin Hle]. injection Hmax as <-. split.
      * destruct (Z.max_spec a b) as [[_ ->] | [_ ->]]; [now right | now left].
      * intros d [Hd | Hd]; [injection Hd as ->; lia |].
        specialize (Hle d Hd). lia.
    + injection Hmax as <-. split; [now left |].
      intros d [Hd | Hd]; [injection Hd as ->; lia |].
      exfalso. rewrite series_max_None in Hrest. exact (Hrest d Hd).
  - destruct (IH W Hmax) as [Hin Hle]. split; [now right |].
    intros d [Hd | Hd]; [discriminate | auto].
Qed.

Lemma last_date_fresh (df_master : frame) (fmt cat : string) :
  df_sub df_master fmt cat = [] ->
  last_date df_master fmt cat = Some (Calendar.ymd2ord 1970 12 31).
Proof. intros Hsub. unfold last_date. now rewrite Hsub. Qed.

Lemma in_df_sub (df_master : frame) (fmt cat : string) (r : row) :
  In r (df_sub df_master fmt cat)
  <-> In r df_master /\ Format r = fmt /\ Category r = cat.
Proof.
  unfold df_sub. rewrite filter_In, andb_true_iff, !String.eqb_eq. tauto.
Qed.

Lemma last_date_is_max (df_master : frame) (fmt cat : string) (W : Z) :
  df_sub df_master fmt cat <> [] ->
  last_date df_master fmt cat = Some W ->
  (exists r, In r df_master /\ Format r = fmt /\ Category r = cat
             /\ Date r = Some W)
  /\ (forall r d, In r df_master -> Format r = fmt -> Category r = cat ->
                  Date r = Some d -> d <= W).
Proof.
  intros Hne Hlast. unfold last_date in Hlast.
  destruct (df_sub df_master fmt cat) as [| r0 sub] eqn:Hsub; [congruence |].
  rewrite <- Hsub in Hlast.
  apply series_max_Some in Hlast. destruct Hlast as [Hin Hle]. split.
  - apply in_map_iff in Hin. destruct Hin as (r & Hr & Hin).
    apply in_df_sub in Hin. exists r. tauto.
  - intros r d Hr Hf Hc Hd. apply Hle. rewrite <- Hd.
    apply in_map. apply in_df_sub. tauto.
Qed.

(** When every row of the master has a date, every pair has a last date. *)
Lemma last_date_dated (df_master : frame) (fmt cat : string) :
  (forall r, In r df_master -> Date r <> None) ->
  last_date df_master fmt cat <> None.
Proof.
  intros Hdated. unfold last_date.
  destruct (df_sub df_master fmt cat) as [| r0 sub] eqn:Hsub; [discriminate |].
  rewrite <- Hsub. intros Hnone.
  assert (Hr0 : In r0 (df_sub df_master fmt cat)) by (rewrite Hsub; now left).
  destruct (Date r0) as [d |] eqn:Hd.
  - rewrite series_max_None in Hnone. apply (Hnone d).
    rewrite <- Hd. now apply in_map.
  - apply in_df_sub in Hr0. apply (Hdated r0); tauto.
Qed.

Lemma NoDup_count_occ_In {A : Type} (dec : forall a b : A, {a = b} + {a <> b})
      (l : list A) (x : A) :
  NoDup l -> count_occ dec l x = if in_dec dec x l then 1%nat else 0%nat.
Proof.
  intros Hl. destruct (in_dec dec x l) as [Hin | Hout].
  - apply (count_occ_In dec) in Hin.
    pose proof (proj1 (NoDup_count_occ dec l) Hl x). lia.
  - now apply count_occ_not_In.
Qed.

Lemma NoDup_FORMATS : NoDup FORMATS.
Proof. repeat constructor; simpl; intuition discriminate. Qed.

Lemma NoDup_CATEGORIES : NoDup CATEGORIES.
Proof. repeat constructor; simpl; intuition discriminate. Qed.

(** What the loop takes for the last date of a pair that is planned
    without failure is the watermark of the pair. *)
Lemma last_date_watermark (df_master : frame) (fmt cat : string) :
  dated_or_absent df_master fmt cat ->
  exists W, last_date df_master fmt cat = Some W /\ watermark df_master fmt cat W.
Proof.
  intros [Hsub | (r & Hr & Hd)].
  - exists (Calendar.ymd2ord 1970 12 31). split; [now apply last_date_fresh |].
    left. now split.
  - assert (Hne : df_sub df_master fmt cat <> [])
      by (intros Hnil; rewrite Hnil in Hr; contradiction).
    destruct (last_date df_master fmt cat) as [W |] eqn:E.
    + exists W. split; [reflexivity |]. right.
      now apply last_date_is_max.
    + exfalso. unfold last_date in E.
      destruct (df_sub df_master fmt cat) as [| r0 sub] eqn:Hsub; [congruence |].
      rewrite <- Hsub in E. rewrite series_max_None in E.
      destruct (Date r) as [d |] eqn:Hdate; [| congruence].
      apply (E d). rewrite <- Hdate. apply in_map. now rewrite Hsub.
Qed.

Lemma watermark_unique (df_master : frame) (fmt cat : string) (W W' : Z) :
  watermark df_master fmt cat W -> watermark df_master fmt cat W' -> W = W'.
Proof.
  intros [[Hsub ->] | [(r & Hr & Hf & Hc & Hd) Hmax]]
         [[Hsub' ->] | [(r' & Hr' & Hf' & Hc' & Hd') Hmax']].
  - reflexivity.
  - exfalso. assert (Hin : In r' (df_sub df_master fmt cat))
      by (apply in_df_sub; tauto).
    rewrite Hsub in Hin. contradiction.
  - exfalso. assert (Hin : In r (df_sub df_master fmt cat))
      by (apply in_df_sub; tauto).
    rewrite Hsub' in Hin. contradiction.
  - pose proof (Hmax r' W' Hr' Hf' Hc' Hd').
    pose proof (Hmax' r W Hr Hf Hc Hd). lia.
Qed.

(** C1, as amended.  Let every pair of FORMATS x CATEGORIES have no row in
    the master, or a row with a date.  Then the planner returns a job list
    without duplicates, with jobs of these pairs only; and for each pair,
    with [W] its watermark (the greatest date of its rows, or 1970-12-31
    when it has none), the list holds exactly the dates after [W] up to
    the cutoff, once each, and no job of the pair when [W] is not before
    the cutoff. *)
Theorem plan_jobs_complete (df_master : frame) (cutoff : Z) :
  (forall fmt cat, In fmt FORMATS -> In cat CATEGORIES ->
                   dated_or_absent df_master fmt cat) ->
  exists jobs,
    plan_jobs FORMATS CATEGORIES df_master cutoff = Some jobs
    /\ NoDup jobs
    /\ (forall d fmt cat,
           In (d, fmt, cat) jobs -> In fmt FORMATS /\ In cat CATEGORIES)
    /\ (forall fmt cat,
           In fmt FORMATS -> In cat CATEGORIES ->
           exists W,
             watermark df_master fmt cat W
             /\ (forall d, In (d, fmt, cat) jobs <-> W < d <= cutoff)
             /\ (forall d, count_occ job_eq_dec jobs (d, fmt, cat)
                           = if (W <? d) && (d <=? cutoff) then 1%nat else 0%nat)
             /\ (cutoff <= W -> forall d, ~ In (d, fmt, cat) jobs)).
Proof.
  intros Hpairs.
  exists (all_jobs FORMATS CATEGORIES df_master cutoff).
  assert (Hnodup : NoDup (all_jobs FORMATS CATEGORIES df_master cutoff))
    by (apply NoDup_all_jobs; [apply NoDup_FORMATS | apply NoDup_CATEGORIES]).
  split.
  { apply plan_jobs_defined. intros fmt cat Hf Hc.
    destruct (last_date_watermark _ _ _ (Hpairs fmt cat Hf Hc)) as (W & -> & _).
    discriminate. }
  split; [exact Hnodup |]. split.
  { intros d fmt cat Hj. apply in_all_jobs in Hj. cbn [fst snd] in Hj.
    destruct Hj as (Hf & Hc & _). now split. }
  intros fmt cat Hf Hc.
  destruct (last_date_watermark _ _ _ (Hpairs fmt cat Hf Hc)) as (W & Hlast & HW).
  exists W. split; [exact HW |].
  assert (Hin : forall d,
             In (d, fmt, cat) (all_jobs FORMATS CATEGORIES df_master cutoff)
             <-> W < d <= cutoff).
  { intros d. rewrite in_all_jobs. simpl. split.
    - intros (_ & _ & Hj).
      apply (in_pair_jobs _ _ _ _ _ _ Hlast) in Hj.
      destruct Hj as (d' & E & Hd). injection E as <-. exact Hd.
    - intros Hd. split; [exact Hf |]. split; [exact Hc |].
      apply (in_pair_jobs _ _ _ _ _ _ Hlast). now exists d. }
  split; [exact Hin |]. split.
  - intros d. rewrite (NoDup_count_occ_In _ _ _ Hnodup).
    destruct (in_dec job_eq_dec (d, fmt, cat) _) as [Hj | Hj].
    + apply Hin in Hj.
      replace (W <? d) with true by (symmetry; apply Z.ltb_lt; lia).
      replace (d <=? cutoff) with true by (symmetry; apply Z.leb_le; lia).
      reflexivity.
    + destruct (W <? d) eqn:E1; [| reflexivity].
      destruct (d <=? cutoff) eqn:E2; [| reflexivity].
      exfalso. apply Hj, Hin. apply Z.ltb_lt in E1. apply Z.leb_le in E2. auto.
  - intros Hcov d Hj. apply Hin in Hj. lia.
Qed.

(** C1, as stated, fails.  In this master the watermark of (odi, batting)
    is 1971-01-02, before the cutoff 1971-01-05, and the planner returns no
    job list at all: the only row of (test, batting) has no date, and the
    turn of the loop for that pair raises. *)
Lemma plan_undated_pair_emits_nothing :
  watermark undated_pair_master "odi" "batting" (Calendar.ymd2ord 1971 1 2)
  /\ Calendar.ymd2ord 1971 1 2 < Calendar.ymd2ord 1971 1 5
  /\ plan_jobs FORMATS CATEGORIES undated_pair_master (Calendar.ymd2ord 1971 1 5)
     = None.
Proof.
  split; [| split; reflexivity].
  right. split.
  - eexists. split; [left; reflexivity |]. repeat split.
  - intros r d [<- | [<- | []]]; cbn; intros; try discriminate.
    injection H1 as <-. lia.
Qed.

(** C10, as amended.  A pair without rows in the master has the last date
    1970-12-31; its turn of the loop gives the dates from 1971-01-01 to the
    cutoff, once each; and these are the jobs of the pair in the list the
    planner returns, when no other pair makes the planning fail: when
    every pair has no row, or a row with a date. *)
Theorem fresh_pair_epoch (df_master : frame) (cutoff : Z) (fmt cat : string) :
  In fmt FORMATS -> In cat CATEGORIES ->
  df_sub df_master fmt cat = [] ->
  last_date df_master fmt cat = Some (Calendar.ymd2ord 1970 12 31)
  /\ (exists new,
         pair_jobs df_master cutoff fmt cat = Some new
         /\ NoDup new
         /\ (forall j, In j new
                       <-> exists d, j = (d, fmt, cat)
                                     /\ Calendar.ymd2ord 1971 1 1 <= d <= cutoff))
  /\ ((forall f c, In f FORMATS -> In c CATEGORIES ->
                   dated_or_absent df_master f c) ->
      exists jobs,
        plan_jobs FORMATS CATEGORIES df_master cutoff = Some jobs
        /\ NoDup jobs
        /\ (forall d, In (d, fmt, cat) jobs
                      <-> Calendar.ymd2ord 1971 1 1 <= d <= cutoff)).
Proof.
  intros Hf Hc Hsub.
  pose proof (last_date_fresh _ _ _ Hsub) as Hlast.
  split; [exact Hlast |]. split.
  - pose proof (NoDup_pair_jobs df_master cutoff fmt cat) as Hnd.
    pose proof (fun j => in_pair_jobs df_master cutoff fmt cat _ j Hlast) as Hin.
    unfold pair_jobs_or_nil in Hnd, Hin.
    destruct (pair_jobs df_master cutoff fmt cat) as [new |] eqn:E.
    + exists new. split; [reflexivity |]. split; [exact Hnd |].
      intros j. rewrite Hin.
      change (Calendar.ymd2ord 1970 12 31) with 719527.
      change (Calendar.ymd2ord 1971 1 1) with 719528.
      split; intros (d & -> & Hd); exists d; (split; [reflexivity | lia]).
    + apply pair_jobs_None in E. congruence.
  - intros Hpairs.
    exists (all_jobs FORMATS CATEGORIES df_master cutoff).
    split.
    { apply plan_jobs_defined. intros f c Hf' Hc'.
      destruct (last_date_watermark _ _ _ (Hpairs f c Hf' Hc')) as (W & -> & _).
      discriminate. }
    split; [apply NoDup_all_jobs; [apply NoDup_FORMATS | apply NoDup_CATEGORIES] |].
    intros d. rewrite in_all_jobs. simpl.
    rewrite (in_pair_jobs _ _ _ _ _ _ Hlast).
    change (Calendar.ymd2ord 1970 12 31) with 719527.
    change (Calendar.ymd2ord 1971 1 1) with 719528.
    split.
    + intros (_ & _ & d' & E & Hd). injection E as <-. lia.
    + intros Hd. split; [exact Hf |]. split; [exact Hc |]. exists d.
      split; [reflexivity | lia].
Qed.

(** C10, as stated, fails.  In this master the pair (odi, bowling) has no
    row, and no date is planned for it: the planner raises on the pair
    (test, batting), whose only row has no date. *)
Lemma fresh_pair_not_planned :
  df_sub undated_pair_master "odi" "bowling" = []
  /\ In "odi" FORMATS /\ In "bowling" CATEGORIES
  /\ plan_jobs FORMATS CATEGORIES undated_pair_master (Calendar.ymd2ord 1971 1 5)
     = None.
Proof.
  split; [reflexivity |]. split; [now left |]. split; [right; now left |].
  reflexivity.
Qed.

(** C7, as amended.  With an empty master, the cutoff 1971-01-05 and only
    the pair (odi, batting), the planner returns five jobs: the dates from
    1971-01-01 to 1971-01-05. *)
Theorem plan_empty_master_one_pair :
  plan_jobs ["odi"] ["batting"] [] (Calendar.ymd2ord 1971 1 5)
  = Some [(Calendar.ymd2ord 1971 1 1, "odi", "batting");
          (Calendar.ymd2ord 1971 1 2, "odi", "batting");
          (Calendar.ymd2ord 1971 1 3, "odi", "batting");
          (Calendar.ymd2ord 1971 1 4, "odi", "batting");
          (Calendar.ymd2ord 1971 1 5, "odi", "batting")].
Proof. reflexivity. Qed.

(** C7, as stated, fails: the planner does not return the single job
    (1971-01-05, odi, batting). *)
Lemma plan_empty_master_not_one_job :
  plan_jobs ["odi"] ["batting"] [] (Calendar.ymd2ord 1971 1 5)
  <> Some [(Calendar.ymd2ord 1971 1 5, "odi", "batting")].
Proof. discriminate. Qed.

(** The sample master with the cutoff 1971-01-05: (odi, batting) has rows
    up to 1971-01-03, the three other pairs have none. *)
Lemma plan_jobs_complete_witness :
  exists jobs,
    plan_jobs FORMATS CATEGORIES sample_master (Calendar.ymd2ord 1971 1 5)
    = Some jobs
    /\ NoDup jobs
    /\ (forall d fmt cat,
           In (d, fmt, cat) jobs -> In fmt FORMATS /\ In cat CATEGORIES)
    /\ (forall fmt cat,
           In fmt FORMATS -> In cat CATEGORIES ->
           exists W,
             watermark sample_master fmt cat W
             /\ (forall d, In (d, fmt, cat) jobs
                           <-> W < d <= Calendar.ymd2ord 1971 1 5)
             /\ (forall d, count_occ job_eq_dec jobs (d, fmt, cat)
                           = if (W <? d) && (d <=? Calendar.ymd2ord 1971 1 5)
                             then 1%nat else 0%nat)
             /\ (Calendar.ymd2ord 1971 1 5 <= W ->
                 forall d, ~ In (d, fmt, cat) jobs)).
Proof.
  apply (plan_jobs_complete sample_master (Calendar.ymd2ord 1971 1 5)).
  intros fmt cat [<- | [<- | []]] [<- | [<- | []]];
    try (left; reflexivity).
  right. eexists. split; [left; reflexivity | discriminate].
Defined.

Lemma fresh_pair_epoch_witness :
  last_date sample_master "test" "bowling" = Some (Calendar.ymd2ord 1970 12 31)
  /\ (exists new,
         pair_jobs sample_master (Calendar.ymd2ord 1971 1 5) "test" "bowling"
         = Some new
         /\ NoDup new
         /\ (forall j, In j new
                       <-> exists d, j = (d, "test", "bowling")
                                     /\ Calendar.ymd2ord 1971 1 1 <= d
                                        <= Calendar.ymd2ord 1971 1 5))
  /\ ((forall f c, In f FORMATS -> In c CATEGORIES ->
                   dated_or_absent sample_master f c) ->
      exists jobs,
        plan_jobs FORMATS CATEGORIES sample_master (Calendar.ymd2ord 1971 1 5)
        = Some jobs
        /\ NoDup jobs
        /\ (forall d, In (d, "test", "bowling") jobs
                      <-> Calendar.ymd2ord 1971 1 1 <= d
                          <= Calendar.ymd2ord 1971 1 5)).
Proof.
  apply (fresh_pair_epoch sample_master (Calendar.ymd2ord 1971 1 5)
                          "test" "bowling").
  - right. now left.
  - right. now left.
  - reflexivity.
Defined.

(** A pair that is covered gets no job, whatever the other pairs: the
    sample master with the cutoff 1971-01-03. *)
Example plan_covered_pair :
  plan_jobs FORMATS CATEGORIES sample_master (Calendar.ymd2ord 1971 1 3)
  = Some (map (fun d => (d, "odi", "bowling"))
              (new_dates (Calendar.ymd2ord 1971 1 1) (Calendar.ymd2ord 1971 1 3))
          ++ map (fun d => (d, "test", "batting"))
              (new_dates (Calendar.ymd2ord 1971 1 1) (Calendar.ymd2ord 1971 1 3))
          ++ map (fun d => (d, "test", "bowling"))
              (new_dates (Calendar.ymd2ord 1971 1 1) (Calendar.ymd2ord 1971 1 3))).
Proof. reflexivity. Qed.

(** A pair whose rows all lack a date makes the planner raise. *)
Example plan_undated_pair_raises :
  plan_jobs FORMATS CATEGORIES
            [ {| Date := None; Format := "test"; Category := "batting";
                 Rank := Txt "1"; Player := Txt "x"; Rating := Txt "1" |} ]
            (Calendar.ymd2ord 1971 1 5)
  = None.
Proof. reflexivity. Qed.

(** ** The merge *)

Lemma lex_sym (x x' y y' : comparison) :
  x' = CompOpp x -> y' = CompOpp y -> lex x' y' = CompOpp (lex x y).
Proof. intros -> ->. now destruct x. Qed.

Lemma lex_trans (x_ab x_bd x_ad y_ab y_bd y_ad c : comparison) :
  (x_ab = Eq -> x_ad = x_bd) ->
  (x_bd = Eq -> x_ad = x_ab) ->
  (x_ab = c -> x_bd = c -> x_ad = c) ->
  (y_ab = c -> y_bd = c -> y_ad = c) ->
  lex x_ab y_ab = c -> lex x_bd y_bd = c -> lex x_ad y_ad = c.
Proof.
  intros H1 H2 H3 H4.
  destruct x_ab, x_bd; simpl; intros E1 E2; subst; try discriminate;
    try (rewrite H1 by reflexivity); try (rewrite H2 by reflexivity);
    try (rewrite H3 by reflexivity); simpl; auto.
Qed.

Section ComparisonLaws.

Context {A : Type} (cmp : A -> A -> comparison).
Hypothesis Hsym : cmp_sym cmp.
Hypothesis Htrans : cmp_trans cmp.

Lemma cmp_refl (a : A) : cmp a a = Eq.
Proof. pose proof (Hsym a a) as H. now destruct (cmp a a). Qed.

Lemma cmp_eq_left (a b d : A) : cmp a b = Eq -> cmp a d = cmp b d.
Proof.
  intros E.
  pose proof (Hsym a b) as Sab. pose proof (Hsym a d) as Sad.
  pose proof (Hsym b d) as Sbd. rewrite E in Sab. simpl in Sab.
  destruct (cmp a d) eqn:Ead, (cmp b d) eqn:Ebd; try reflexivity; exfalso;
    simpl in Sad, Sbd.
  - pose proof (Htrans Eq _ _ _ Sab Ead). congruence.
  - pose proof (Htrans Eq _ _ _ Sab Ead). congruence.
  - pose proof (Htrans Eq _ _ _ E Ebd). congruence.
  - pose proof (Htrans Lt _ _ _ Ead Sbd). congruence.
  - pose proof (Htrans Eq _ _ _ E Ebd). congruence.
  - pose proof (Htrans Gt _ _ _ Ead Sbd). congruence.
Qed.

Lemma cmp_eq_right (a b d : A) : cmp b d = Eq -> cmp a d = cmp a b.
Proof.
  intros E.
  pose proof (Hsym b d) as Sbd. rewrite E in Sbd. simpl in Sbd.
  pose proof (cmp_eq_left d b a Sbd) as H.
  rewrite (Hsym a d), (Hsym a b) in H.
  destruct (cmp a d), (cmp a b); simpl in H; congruence.
Qed.

End ComparisonLaws.

Lemma Z_compare_sym : cmp_sym Z.compare.
Proof. intros a b. apply Z.compare_antisym. Qed.

Lemma Z_compare_trans : cmp_trans Z.compare.
Proof.
  intros [| |] a b d Hab Hbd.
  - apply Z.compare_eq_iff in Hab, Hbd. apply Z.compare_eq_iff. lia.
  - change (a < b) in Hab. change (b < d) in Hbd. change (a < d). lia.
  - change (a > b) in Hab. change (b > d) in Hbd. change (a > d). lia.
Qed.

Lemma ascii_compare_sym : cmp_sym Ascii.compare.
Proof. intros a b. apply Ascii.compare_antisym. Qed.

Lemma ascii_compare_trans : cmp_trans Ascii.compare.
Proof.
  unfold Ascii.compare. intros [| |] a b d Hab Hbd.
  - apply N.compare_eq_iff in Hab, Hbd. apply N.compare_eq_iff. congruence.
  - exact (N.lt_trans _ _ _ Hab Hbd).
  - rewrite N.compare_gt_iff in *. exact (N.lt_trans _ _ _ Hbd Hab).
Qed.

Lemma string_compare_sym : cmp_sym String.compare.
Proof. intros a b. apply String.compare_antisym. Qed.

Lemma string_compare_cons (x y : ascii) (a b : string) :
  String.compare (String x a) (String y b)
  = lex (Ascii.compare x y) (String.compare a b).
Proof. simpl. now destruct (Ascii.compare x y). Qed.

Lemma string_compare_trans : cmp_trans String.compare.
Proof.
  intros c a. revert c.
  induction a as [| x a IH]; intros c [| y b] [| z d];
    try (simpl; congruence).
  rewrite !string_compare_cons.
  apply lex_trans.
  - apply (cmp_eq_left _ ascii_compare_sym ascii_compare_trans).
  - apply (cmp_eq_right _ ascii_compare_sym ascii_compare_trans).
  - apply ascii_compare_trans.
  - apply IH.
Qed.

Lemma date_compare_sym : cmp_sym date_compare.
Proof.
  intros [a |] [b |]; simpl; try reflexivity. apply Z.compare_antisym.
Qed.

Lemma date_compare_trans : cmp_trans date_compare.
Proof.
  intros c [a |] [b |] [d |]; simpl; try congruence. apply Z_compare_trans.
Qed.

Lemma cell_compare_default_sym : cmp_sym cell_compare_default.
Proof.
  intros [x | s |] [y | t |]; simpl; try reflexivity.
  - apply Z.compare_antisym.
  - apply String.compare_antisym.
Qed.

Lemma cell_compare_default_trans : cmp_trans cell_compare_default.
Proof.
  intros c [x | s |] [y | t |] [z | u |]; simpl; try congruence.
  - apply Z_compare_trans.
  - apply string_compare_trans.
Qed.

(** The order of [cell_compare_default] is a column order. *)
#[export] Instance default_order : ColumnOrder :=
  {| cell_compare := cell_compare_default;
     cell_compare_sym := cell_compare_default_sym;
     cell_compare_trans := cell_compare_default_trans |}.

Section Merge.

Context `{ColumnOrder}.

Lemma key_compare_sym : cmp_sym key_compare.
Proof.
  intros r1 r2. unfold key_compare.
  repeat apply lex_sym.
  - apply String.compare_antisym.
  - apply String.compare_antisym.
  - apply date_compare_sym.
  - apply cell_compare_sym.
Qed.

Lemma key_compare_trans : cmp_trans key_compare.
Proof.
  intros c r1 r2 r3. unfold key_compare.
  apply lex_trans;
    [apply (cmp_eq_left _ string_compare_sym string_compare_trans)
    |apply (cmp_eq_right _ string_compare_sym string_compare_trans)
    |apply string_compare_trans |].
  apply lex_trans;
    [apply (cmp_eq_left _ string_compare_sym string_compare_trans)
    |apply (cmp_eq_right _ string_compare_sym string_compare_trans)
    |apply string_compare_trans |].
  apply lex_trans;
    [apply (cmp_eq_left _ date_compare_sym date_compare_trans)
    |apply (cmp_eq_right _ date_compare_sym date_compare_trans)
    |apply date_compare_trans |].
  apply cell_compare_trans.
Qed.

Lemma key_le_total (r1 r2 : row) : key_le r1 r2 \/ key_le r2 r1.
Proof.
  unfold key_le, key_leb. rewrite (key_compare_sym r1 r2).
  destruct (key_compare r1 r2); simpl; auto.
Qed.

Lemma key_le_refl (r : row) : key_le r r.
Proof. destruct (key_le_total r r); assumption. Qed.

Lemma key_le_trans (r1 r2 r3 : row) :
  key_le r1 r2 -> key_le r2 r3 -> key_le r1 r3.
Proof.
  unfold key_le, key_leb. intros H12 H23.
  destruct (key_compare r1 r3) eqn:E13; try reflexivity. exfalso.
  pose proof (key_compare_sym r1 r3) as S13. rewrite E13 in S13. simpl in S13.
  destruct (key_compare r1 r2) eqn:E12; try discriminate;
    destruct (key_compare r2 r3) eqn:E23; try discriminate.
  - pose proof (key_compare_trans Eq _ _ _ E12 E23). congruence.
  - rewrite (cmp_eq_left _ key_compare_sym key_compare_trans _ _ _ E12) in E13.
    congruence.
  - rewrite (cmp_eq_right _ key_compare_sym key_compare_trans _ _ _ E23) in E13.
    congruence.
  - pose proof (key_compare_trans Lt _ _ _ E12 E23). congruence.
Qed.

(** *** [sort_values] *)

Lemma insert_sorted_perm (r : row) (l : frame) :
  Permutation (insert_sorted r l) (r :: l).
Proof.
  induction l as [| x l IH]; simpl; [reflexivity |].
  destruct (key_leb r x); [reflexivity |].
  rewrite IH. apply perm_swap.
Qed.

Lemma sort_values_perm (df : frame) : Permutation (sort_values df) df.
Proof.
  induction df as [| r df IH]; simpl; [reflexivity |].
  rewrite insert_sorted_perm. now constructor.
Qed.

Lemma insert_sorted_sorted (r : row) (l : frame) :
  StronglySorted key_le l -> StronglySorted key_le (insert_sorted r l).
Proof.
  induction 1 as [| x l Hl IH Hx]; simpl.
  - constructor; constructor.
  - destruct (key_leb r x) eqn:E.
    + constructor; [constructor; assumption |].
      constructor; [exact E |].
      eapply Forall_impl; [| exact Hx].
      intros y Hy. eapply key_le_trans; [exact E | exact Hy].
    + constructor; [exact IH |].
      assert (Hxr : key_le x r).
      { destruct (key_le_total r x) as [Hrx | Hxr]; [| exact Hxr].
        unfold key_le in Hrx. congruence. }
      apply (Permutation_Forall (x := r :: l)).
      * symmetry. apply insert_sorted_perm.
      * constructor; assumption.
Qed.

Lemma sort_values_sorted (df : frame) : StronglySorted key_le (sort_values df).
Proof.
  induction df as [| r df IH]; simpl; [constructor |].
  now apply insert_sorted_sorted.
Qed.

(** A sorted frame is left as it is. *)
Lemma sort_values_fixed (df : frame) :
  StronglySorted key_le df -> sort_values df = df.
Proof.
  induction 1 as [| x l Hl IH Hx]; simpl; [reflexivity |].
  rewrite IH. destruct l as [| y l']; simpl; [reflexivity |].
  inversion Hx as [| ? ? Hxy _]; subst. unfold key_le in Hxy. now rewrite Hxy.
Qed.

(** The sort is stable: the rows of one key keep their order. *)
Lemma insert_sorted_stable (r0 r : row) (l : frame) :
  filter (same_key r0) (insert_sorted r l) = filter (same_key r0) (r :: l).
Proof.
  induction l as [| x l IH]; [reflexivity |].
  cbn [insert_sorted]. destruct (key_leb r x) eqn:E; [reflexivity |].
  cbn [filter] in *. rewrite IH.
  destruct (same_key r0 x) eqn:Ex, (same_key r0 r) eqn:Er; try reflexivity.
  exfalso. unfold same_key in Ex, Er. unfold key_leb in E.
  destruct (key_compare r0 x) eqn:E0x; try discriminate.
  destruct (key_compare r0 r) eqn:E0r; try discriminate.
  pose proof (key_compare_sym r0 r) as S. rewrite E0r in S. simpl in S.
  pose proof (key_compare_trans Eq _ _ _ S E0x) as Hrx.
  rewrite Hrx in E. discriminate.
Qed.

Lemma sort_values_stable (r0 : row) (df : frame) :
  filter (same_key r0) (sort_values df) = filter (same_key r0) df.
Proof.
  induction df as [| r df IH]; [reflexivity |].
  cbn [sort_values fold_right]. fold (sort_values df).
  rewrite insert_sorted_stable. cbn [filter]. now rewrite IH.
Qed.

(** *** [drop_duplicates] *)

Lemma in_drop_duplicates_from (seen df : frame) (r : row) :
  In r (drop_duplicates_from seen df) <-> In r df /\ ~ In r seen.
Proof.
  revert seen. induction df as [| x df IH]; intros seen; simpl; [tauto |].
  destruct (in_dec row_eq_dec x seen) as [Hx | Hx].
  - rewrite IH. split; [tauto |]. intros [[-> | Hr] Hs]; tauto.
  - simpl. rewrite IH. simpl. split.
    + intros [-> | [Hr Hs]]; tauto.
    + intros [[-> | Hr] Hs]; [now left |].
      destruct (row_eq_dec x r) as [-> | Hne]; [now left | right; tauto].
Qed.

Lemma NoDup_drop_duplicates_from (seen df : frame) :
  NoDup (drop_duplicates_from seen df).
Proof.
  revert seen. induction df as [| x df IH]; intros seen; simpl; [constructor |].
  destruct (in_dec row_eq_dec x seen) as [Hx | Hx]; [apply IH |].
  constructor; [| apply IH].
  rewrite in_drop_duplicates_from. simpl. tauto.
Qed.

Lemma in_drop_duplicates (df : frame) (r : row) :
  In r (drop_duplicates df) <-> In r df.
Proof. unfold drop_duplicates. rewrite in_drop_duplicates_from. simpl. tauto. Qed.

(** A frame without duplicates, followed by rows it already has, loses
    exactly those rows. *)
Lemma drop_duplicates_from_absorb (seen df new : frame) :
  NoDup df ->
  (forall r, In r df -> ~ In r seen) ->
  (forall r, In r new -> In r df \/ In r seen) ->
  drop_duplicates_from seen (df ++ new) = df.
Proof.
  revert seen. induction df as [| x df IH]; intros seen Hnd Hfresh Hnew; simpl.
  - induction new as [| y new IHn]; simpl; [reflexivity |].
    destruct (in_dec row_eq_dec y seen) as [Hy | Hy].
    + apply IHn. intros r Hr. apply Hnew. now right.
    + exfalso. destruct (Hnew y (or_introl eq_refl)); [contradiction | auto].
  - inversion Hnd as [| ? ? Hx Hnd']; subst.
    destruct (in_dec row_eq_dec x seen) as [Hs | Hs].
    + exfalso. apply (Hfresh x); [now left | exact Hs].
    + f_equal. apply IH; [exact Hnd' | |].
      * intros r Hr [<- | Hrs]; [contradiction |].
        apply (Hfresh r); [now right | exact Hrs].
      * intros r Hr. destruct (Hnew r Hr) as [[<- | Hd] | Hsn].
        -- right. now left.
        -- now left.
        -- right. now right.
Qed.

(** *** The merge *)

Lemma in_merge (df_master new_df : frame) (r : row) :
  In r (merge df_master new_df) <-> In r df_master \/ In r new_df.
Proof.
  unfold merge. rewrite <- in_app_iff. split; intros Hr.
  - apply (Permutation_in _ (sort_values_perm _)) in Hr.
    exact (proj1 (in_drop_duplicates _ _) Hr).
  - apply (Permutation_in _ (Permutation_sym (sort_values_perm _))).
    exact (proj2 (in_drop_duplicates _ _) Hr).
Qed.

Lemma NoDup_merge (df_master new_df : frame) :
  NoDup (merge df_master new_df).
Proof.
  unfold merge. eapply Permutation_NoDup.
  - symmetry. apply sort_values_perm.
  - apply NoDup_drop_duplicates_from.
Qed.

Lemma merge_sorted (df_master new_df : frame) :
  StronglySorted key_le (merge df_master new_df).
Proof. apply sort_values_sorted. Qed.

(** Merging rows that a sorted master without duplicates already has
    changes nothing. *)
Lemma merge_absorb (df_master new_df : frame) :
  NoDup df_master -> StronglySorted key_le df_master ->
  (forall r, In r new_df -> In r df_master) ->
  merge df_master new_df = df_master.
Proof.
  intros Hnd Hsorted Hnew. unfold merge, drop_duplicates.
  rewrite drop_duplicates_from_absorb; auto.
  now apply sort_values_fixed.
Qed.

(** C2.  Merging a batch a second time into the result of merging it
    changes nothing. *)
Theorem merge_idempotent (df_master new_df : frame) :
  merge (merge df_master new_df) new_df = merge df_master new_df.
Proof.
  apply merge_absorb.
  - apply NoDup_merge.
  - apply merge_sorted.
  - intros r Hr. apply in_merge. now right.
Qed.

(** C3.  The merged frame has no two equal rows (rows are compared on all
    six columns), is sorted by (Format, Category, Date, Rank), each row
    before all the rows behind it, and holds the rows of the master and of
    the batch and no others. *)
Theorem merge_invariant (df_master new_df : frame) :
  NoDup (merge df_master new_df)
  /\ StronglySorted key_le (merge df_master new_df)
  /\ (forall r, In r (merge df_master new_df)
                <-> In r df_master \/ In r new_df).
Proof.
  split; [apply NoDup_merge |]. split; [apply merge_sorted |].
  intros r. apply in_merge.
Qed.

(** Merging rows fetched again for dates the master covers does not add a
    row. *)
Lemma merge_no_growth (df_master new_df : frame) :
  NoDup df_master ->
  (forall r, In r new_df -> In r df_master) ->
  List.length (merge df_master new_df) = List.length df_master.
Proof.
  intros Hnd Hnew. unfold merge, drop_duplicates.
  rewrite (Permutation_length (sort_values_perm _)).
  rewrite drop_duplicates_from_absorb; auto.
Qed.

End Merge.

(** ** Fetching one job *)

Section Scrape.

Variable net : network.
Variables (date_str fmt category : string).

Let url : string := BASE_URL fmt category date_str.

(** One turn of the loop: a page ends the loop with its rows; any other
    attempt goes on to the next turn, after a sleep when it raised. *)
Lemma scrape_attempt_spec (w : worker) :
  scrape_attempt net date_str fmt category w
  = match page_rows (net url (sent w)) with
    | Some rows =>
        (Ok (Some (scraped_rows date_str fmt category rows)),
         {| sent := S (sent w); trace := trace w ++ [Request url 10] |})
    | None =>
        (Ok None,
         {| sent := S (sent w);
            trace := trace w ++ Request url 10
                             :: (if raises (net url (sent w)) then [Sleep 1] else []) |})
    end.
Proof.
  unfold scrape_attempt, try_except, bind, session_get, page_rows, raises.
  fold url.
  destruct (net url (sent w)) as [| [status body]]; cbn.
  - now rewrite <- app_assoc.
  - destruct (status =? 200); cbn.
    + destruct body as [soup |]; cbn.
      * destruct (slice 1 101 (select_table_tr false soup)) eqn:E;
          rewrite ?E; reflexivity.
      * now rewrite <- app_assoc.
    + reflexivity.
Qed.

Lemma page_rows_not_raises (a : attempt) (rows : list node) :
  page_rows a = Some rows -> raises a = false /\ refused a = false.
Proof.
  destruct a as [| [status body]]; simpl; [discriminate |].
  destruct (status =? 200); [| discriminate].
  destruct body; [auto | discriminate].
Qed.

Lemma page_rows_None (a : attempt) :
  page_rows a = None <-> raises a = true \/ refused a = true.
Proof.
  destruct a as [| [status body]]; simpl; [tauto |].
  destruct (status =? 200); simpl; [| tauto].
  destruct body; simpl; split; try tauto; try discriminate.
  intros [? | ?]; discriminate.
Qed.

Lemma first_page_Some (start n k : nat) (rows : list node) :
  first_page net url start n = Some (k, rows) ->
  (start <= k < start + n)%nat
  /\ page_rows (net url k) = Some rows
  /\ (forall j, (start <= j < k)%nat -> page_rows (net url j) = None).
Proof.
  revert start. induction n as [| n IH]; intros start; simpl; [discriminate |].
  destruct (page_rows (net url start)) as [rows0 |] eqn:E.
  - intros [= <- <-]. repeat split; try lia. exact E.
  - intros Hk. apply IH in Hk. destruct Hk as (Hb & Hp & Hbefore).
    repeat split; try lia; [exact Hp |].
    intros j Hj. destruct (Nat.eq_dec j start) as [-> | Hne]; [exact E |].
    apply Hbefore. lia.
Qed.

Lemma first_page_None (start n : nat) :
  first_page net url start n = None
  <-> forall j, (start <= j < start + n)%nat -> page_rows (net url j) = None.
Proof.
  revert start. induction n as [| n IH]; intros start; simpl.
  - split; [intros _ j Hj; lia | reflexivity].
  - destruct (page_rows (net url start)) as [rows0 |] eqn:E.
    + split; [discriminate |]. intros Hall.
      rewrite (Hall start) in E by lia. discriminate.
    + rewrite IH. split; intros Hall j Hj.
      * destruct (Nat.eq_dec j start) as [-> | Hne]; [exact E |].
        apply Hall. lia.
      * apply Hall. lia.
Qed.

Lemma attempts_trace_step (start n : nat) :
  attempts_trace net url start (S n)
  = (Request url 10 :: (if raises (net url start) then [Sleep 1] else []))
    ++ attempts_trace net url (S start) n.
Proof. reflexivity. Qed.

(** The loop: the attempts are made in turn up to the first that brings a
    page, whose rows are returned, and at most [n] of them; when none
    brings a page the result is the empty list. *)
Lemma scrape_loop_spec (n : nat) (w : worker) :
  for_range n (scrape_attempt net date_str fmt category) (ret []) w
  = match first_page net url (sent w) n with
    | Some (k, rows) =>
        (Ok (scraped_rows date_str fmt category rows),
         {| sent := S k;
            trace := trace w ++ attempts_trace net url (sent w) (S k - sent w) |})
    | None =>
        (Ok [],
         {| sent := sent w + n;
            trace := trace w ++ attempts_trace net url (sent w) n |})
    end.
Proof.
  revert w. induction n as [| n IH]; intros w.
  - destruct w as [k t]. cbn. unfold ret. now rewrite Nat.add_0_r, app_nil_r.
  - cbn [for_range first_page]. unfold bind at 1.
    rewrite scrape_attempt_spec. fold url.
    destruct (page_rows (net url (sent w))) as [rows |] eqn:E.
    + unfold ret. replace (S (sent w) - sent w)%nat with 1%nat by lia.
      rewrite attempts_trace_step.
      destruct (page_rows_not_raises _ _ E) as [-> _].
      unfold attempts_trace. cbn. reflexivity.
    + rewrite IH. cbn [sent trace].
      destruct (first_page net url (S (sent w)) n) as [[k rows] |] eqn:F.
      * apply first_page_Some in F. destruct F as (Hb & _ & _).
        replace (S k - sent w)%nat with (S (S k - S (sent w))) by lia.
        rewrite attempts_trace_step. now rewrite <- app_assoc.
      * rewrite attempts_trace_step, <- app_assoc.
        now replace (S (sent w) + n)%nat with (sent w + S n)%nat by lia.
Qed.

End Scrape.

(** [scrape_date], as a whole. *)
Lemma scrape_date_spec (net : network) (date_obj : Z) (fmt category : string)
      (w : worker) :
  scrape_date net date_obj fmt category w
  = match first_page net (job_url date_obj fmt category) (sent w) MAX_RETRIES with
    | Some (k, rows) =>
        (Ok (scraped_rows (Calendar.strftime date_obj) fmt category rows),
         {| sent := S k;
            trace := trace w ++ attempts_trace net (job_url date_obj fmt category)
                                               (sent w) (S k - sent w) |})
    | None =>
        (Ok [],
         {| sent := sent w + MAX_RETRIES;
            trace := trace w ++ attempts_trace net (job_url date_obj fmt category)
                                               (sent w) MAX_RETRIES |})
    end.
Proof. unfold scrape_date. apply scrape_loop_spec. Qed.

Lemma in_scraped_rows (date_str fmt category : string) (rows : list node)
      (rec : list string) :
  In rec (scraped_rows date_str fmt category rows)
  <-> exists row, In row rows
                  /\ (3 <= List.length (find_all "td" row))%nat
                  /\ rec = scraped_row date_str fmt category row.
Proof.
  unfold scraped_rows, scraped_row. rewrite in_map_iff. split.
  - intros (cols & <- & Hcols). apply filter_In in Hcols.
    destruct Hcols as [Hcols Hlen]. apply in_map_iff in Hcols.
    destruct Hcols as (row & <- & Hrow). exists row.
    apply Nat.leb_le in Hlen. auto.
  - intros (row & Hrow & Hlen & ->). exists (find_all "td" row).
    split; [reflexivity |]. apply filter_In. split.
    + now apply in_map.
    + now apply Nat.leb_le.
Qed.

Lemma length_scraped_rows (date_str fmt category : string) (rows : list node) :
  (List.length (scraped_rows date_str fmt category rows) <= List.length rows)%nat.
Proof.
  unfold scraped_rows. rewrite length_map.
  etransitivity; [apply filter_length_le |]. now rewrite length_map.
Qed.

(** A page has no usable row when each of its rows has less than three
    cells; a page without rows is one. *)
Lemma scraped_rows_nil (date_str fmt category : string) (rows : list node) :
  scraped_rows date_str fmt category rows = []
  <-> forall row, In row rows -> (List.length (find_all "td" row) < 3)%nat.
Proof.
  split.
  - intros Hnil row Hrow.
    destruct (Nat.lt_ge_cases (List.length (find_all "td" row)) 3) as [Hlt | Hge];
      [exact Hlt | exfalso].
    assert (Hin : In (scraped_row date_str fmt category row)
                     (scraped_rows date_str fmt category rows))
      by (apply in_scraped_rows; eauto).
    rewrite Hnil in Hin. contradiction.
  - intros Hall.
    destruct (scraped_rows date_str fmt category rows) as [| rec rest] eqn:E;
      [reflexivity | exfalso].
    assert (Hin : In rec (scraped_rows date_str fmt category rows))
      by (rewrite E; now left).
    apply in_scraped_rows in Hin. destruct Hin as (row & Hrow & Hlen & _).
    specialize (Hall row Hrow). lia.
Qed.

Lemma attempts_trace_app (net : network) (url : string) (start a b : nat) :
  attempts_trace net url start (a + b)
  = attempts_trace net url start a ++ attempts_trace net url (start + a)%nat b.
Proof. unfold attempts_trace. now rewrite seq_app, flat_map_app. Qed.

Lemma attempts_trace_one (net : network) (url : string) (k : nat) :
  attempts_trace net url k 1
  = Request url 10 :: (if raises (net url k) then [Sleep 1] else []).
Proof. unfold attempts_trace. cbn [seq flat_map]. now rewrite app_nil_r. Qed.

Lemma first_page_at (net : network) (url : string) (start n k : nat)
      (rows : list node) :
  (k < n)%nat ->
  (forall j, (j < k)%nat -> failed (net url (start + j)%nat) = true) ->
  page_rows (net url (start + k)%nat) = Some rows ->
  first_page net url start n = Some ((start + k)%nat, rows).
Proof.
  revert start n. induction k as [| k IH]; intros start n Hk Hfail Hpage;
    (destruct n as [| n]; [lia |]); simpl.
  - rewrite Nat.add_0_r in Hpage. rewrite Hpage. now rewrite Nat.add_0_r.
  - assert (E : page_rows (net url start) = None).
    { apply page_rows_None. specialize (Hfail O ltac:(lia)).
      rewrite Nat.add_0_r in Hfail. now apply orb_prop in Hfail. }
    rewrite E. replace (start + S k)%nat with (S start + k)%nat in * by lia.
    apply IH; [lia | | exact Hpage].
    intros j Hj. replace (S start + j)%nat with (start + S j)%nat by lia.
    apply Hfail. lia.
Qed.

(** C5.  [scrape_date] returns, whatever the site does: it never raises.
    When each of its three attempts fails, by raising or by a status other
    than 200, it returns the empty list.  When an attempt brings a page of
    which no row is usable, after [k < 3] failed attempts, it returns the
    empty list at once: that request is the last, and no sleep follows
    it. *)
Theorem scrape_date_degrades (net : network) (date_obj : Z)
        (fmt category : string) (w : worker) :
  (exists res w', scrape_date net date_obj fmt category w = (Ok res, w'))
  /\ ((forall k, (k < MAX_RETRIES)%nat ->
                 failed (net (job_url date_obj fmt category) (sent w + k)%nat) = true) ->
      exists w',
        scrape_date net date_obj fmt category w = (Ok [], w')
        /\ sent w' = (sent w + MAX_RETRIES)%nat)
  /\ (forall k rows,
         (k < MAX_RETRIES)%nat ->
         (forall j, (j < k)%nat ->
                    failed (net (job_url date_obj fmt category) (sent w + j)%nat) = true) ->
         page_rows (net (job_url date_obj fmt category) (sent w + k)%nat) = Some rows ->
         scraped_rows (Calendar.strftime date_obj) fmt category rows = [] ->
         exists w',
           scrape_date net date_obj fmt category w = (Ok [], w')
           /\ sent w' = S (sent w + k)%nat
           /\ trace w'
              = trace w
                ++ attempts_trace net (job_url date_obj fmt category) (sent w) k
                ++ [Request (job_url date_obj fmt category) 10]).
Proof.
  set (url := job_url date_obj fmt category).
  split; [| split].
  - rewrite scrape_date_spec.
    destruct (first_page net _ (sent w) MAX_RETRIES) as [[k rows] |]; eauto.
  - intros Hfail. rewrite scrape_date_spec. fold url.
    assert (E : first_page net url (sent w) MAX_RETRIES = None).
    { apply first_page_None. intros j Hj. apply page_rows_None.
      specialize (Hfail (j - sent w)%nat ltac:(lia)).
      replace (sent w + (j - sent w))%nat with j in Hfail by lia.
      now apply orb_prop in Hfail. }
    rewrite E. eauto.
  - intros k rows Hk Hfail Hpage Hnil. rewrite scrape_date_spec. fold url.
    rewrite (first_page_at net url (sent w) MAX_RETRIES k rows Hk Hfail Hpage).
    rewrite Hnil. eexists. split; [reflexivity |]. split; [reflexivity |].
    cbn [trace]. f_equal.
    replace (S (sent w + k) - sent w)%nat with (k + 1)%nat by lia.
    rewrite attempts_trace_app. f_equal.
    rewrite attempts_trace_one.
    destruct (page_rows_not_raises _ _ Hpage) as [-> _]. reflexivity.
Qed.

(** A site that is down, and a site that refuses once and then serves a
    page without data rows. *)
Lemma scrape_date_degrades_witness :
  (exists w',
      scrape_date (net_of []) (Calendar.ymd2ord 1971 1 5) "odi" "batting"
                  fresh_worker = (Ok [], w')
      /\ sent w' = 3%nat)
  /\ (exists w',
         scrape_date (net_of [status_response 500; ok_response empty_page])
                     (Calendar.ymd2ord 1971 1 5) "odi" "batting" fresh_worker
         = (Ok [], w')
         /\ sent w' = 2%nat
         /\ trace w'
            = [Request (job_url (Calendar.ymd2ord 1971 1 5) "odi" "batting") 10;
               Request (job_url (Calendar.ymd2ord 1971 1 5) "odi" "batting") 10]).
Proof.
  split.
  - apply (proj1 (proj2 (scrape_date_degrades
                           (net_of []) (Calendar.ymd2ord 1971 1 5)
                           "odi" "batting" fresh_worker))).
    intros k Hk. destruct k; reflexivity.
  - apply (proj2 (proj2 (scrape_date_degrades
                           (net_of [status_response 500; ok_response empty_page])
                           (Calendar.ymd2ord 1971 1 5)
                           "odi" "batting" fresh_worker)) 1%nat []).
    + unfold MAX_RETRIES. lia.
    + intros j Hj. assert (j = O) as -> by lia. reflexivity.
    + reflexivity.
    + reflexivity.
Defined.

(** The events of a call of [scrape_date] are those of the attempts it
    made, at most three. *)
Lemma scrape_date_trace (net : network) (date_obj : Z)
      (fmt category : string) (w : worker) :
  exists res w',
    scrape_date net date_obj fmt category w = (Ok res, w')
    /\ (sent w <= sent w' <= sent w + MAX_RETRIES)%nat
    /\ trace w'
       = trace w
         ++ attempts_trace net (job_url date_obj fmt category)
                           (sent w) (sent w' - sent w).
Proof.
  rewrite scrape_date_spec.
  destruct (first_page net _ (sent w) MAX_RETRIES) as [[k rows] |] eqn:E.
  - apply first_page_Some in E. destruct E as (Hb & _ & _).
    eexists. eexists. split; [reflexivity |]. cbn [sent trace].
    split; [lia | reflexivity].
  - eexists. eexists. split; [reflexivity |]. cbn [sent trace].
    split; [lia |]. now replace (sent w + MAX_RETRIES - sent w)%nat
                      with MAX_RETRIES by lia.
Qed.

(** C6, as amended.  [scrape_date] makes at most three attempts, one
    request each, and its events are those of its attempts in turn.  An
    attempt that raises is followed by a sleep of one second, before the
    next attempt and also after the last one; an attempt refused with a
    status other than 200 is followed by no sleep: the next request comes
    at once. *)
Theorem scrape_date_backoff (net : network) (date_obj : Z)
        (fmt category : string) (w : worker) :
  exists res w',
    scrape_date net date_obj fmt category w = (Ok res, w')
    /\ (sent w <= sent w' <= sent w + MAX_RETRIES)%nat
    /\ trace w'
       = trace w
         ++ flat_map (fun k => attempts_trace net (job_url date_obj fmt category)
                                              k 1)
                     (seq (sent w) (sent w' - sent w))
    /\ (forall k,
           raises (net (job_url date_obj fmt category) k) = true ->
           attempts_trace net (job_url date_obj fmt category) k 1
           = [Request (job_url date_obj fmt category) 10; Sleep 1])
    /\ (forall k,
           refused (net (job_url date_obj fmt category) k) = true ->
           attempts_trace net (job_url date_obj fmt category) k 1
           = [Request (job_url date_obj fmt category) 10]).
Proof.
  destruct (scrape_date_trace net date_obj fmt category w)
    as (res & w' & E & Hb & Ht).
  exists res, w'. split; [exact E |]. split; [exact Hb |]. split; [| split].
  - rewrite Ht. f_equal. unfold attempts_trace.
    induction (seq (sent w) (sent w' - sent w)) as [| k l IH]; [reflexivity |].
    cbn [flat_map seq]. rewrite IH, app_nil_r. reflexivity.
  - intros k Hk. rewrite attempts_trace_one, Hk. reflexivity.
  - intros k Hk. rewrite attempts_trace_one.
    destruct (net (job_url date_obj fmt category) k) as [| [status body]];
      cbn in *; [discriminate |].
    destruct (status =? 200); [discriminate | reflexivity].
Qed.

(** C6, as stated, fails: a refused attempt is not followed by a sleep.
    The site answers 503 and then serves the page; the two requests follow
    each other. *)
Lemma refused_attempt_no_backoff :
  failed (status_response 503) = true
  /\ trace (snd (scrape_date
                   (net_of [status_response 503; ok_response ranking_page])
                   (Calendar.ymd2ord 1971 1 5) "odi" "batting" fresh_worker))
     = [Request (job_url (Calendar.ymd2ord 1971 1 5) "odi" "batting") 10;
        Request (job_url (Calendar.ymd2ord 1971 1 5) "odi" "batting") 10]
  /\ trace (snd (scrape_date
                   (net_of [status_response 503; ok_response ranking_page])
                   (Calendar.ymd2ord 1971 1 5) "odi" "batting" fresh_worker))
     <> backoff_after_every_failure
          (net_of [status_response 503; ok_response ranking_page])
          (job_url (Calendar.ymd2ord 1971 1 5) "odi" "batting") 0 2.
Proof.
  split; [reflexivity |]. split; [reflexivity |]. discriminate.
Qed.

(** A raising attempt is followed by the sleep, also when it is the last
    one. *)
Example raising_attempts_sleep :
  trace (snd (scrape_date (net_of []) (Calendar.ymd2ord 1971 1 5)
                          "odi" "batting" fresh_worker))
  = [Request (job_url (Calendar.ymd2ord 1971 1 5) "odi" "batting") 10; Sleep 1;
     Request (job_url (Calendar.ymd2ord 1971 1 5) "odi" "batting") 10; Sleep 1;
     Request (job_url (Calendar.ymd2ord 1971 1 5) "odi" "batting") 10; Sleep 1].
Proof. reflexivity. Qed.

Example job_url_1971_01_05 :
  job_url (Calendar.ymd2ord 1971 1 5) "odi" "batting"
  = "https://www.relianceiccrankings.com/datespecific/odi/batting/1971/01/05/".
Proof. reflexivity. Qed.

(** C8, as amended.  When an attempt brings a page, the rows are taken
    from the [tr] elements below any [table] element of the page, in
    document order: the first of them is left out and at most the next 100
    are kept.  The result has a record for each kept row with three [td]
    cells or more, in order, and nothing else; so at most 100 records.  A
    record is the date as YYYY/MM/DD, the format, the category and the
    texts of the first three cells, where the text of a cell is made of its
    text pieces, each stripped of surrounding whitespace. *)
Theorem scrape_date_rows (net : network) (date_obj : Z) (fmt category : string)
        (w : worker) (k : nat) (soup : node) :
  (sent w <= k < sent w + MAX_RETRIES)%nat ->
  (forall j, (sent w <= j < k)%nat ->
             failed (net (job_url date_obj fmt category) j) = true) ->
  net (job_url date_obj fmt category) k
  = Responds {| status_code := 200; text := Some soup |} ->
  let rows := firstn 100 (skipn 1 (select_table_tr false soup)) in
  exists res w',
    scrape_date net date_obj fmt category w = (Ok res, w')
    /\ res = map (scraped_row (Calendar.strftime date_obj) fmt category)
                 (filter (fun row => (3 <=? List.length (find_all "td" row))%nat)
                         rows)
    /\ (List.length res <= 100)%nat
    /\ (forall rec,
           In rec res
           <-> exists row,
                 In row rows
                 /\ (3 <= List.length (find_all "td" row))%nat
                 /\ rec = [Calendar.strftime date_obj; fmt; category;
                           get_text_strip (nth 0 (find_all "td" row) (Text ""));
                           get_text_strip (nth 1 (find_all "td" row) (Text ""));
                           get_text_strip (nth 2 (find_all "td" row) (Text ""))]).
Proof.
  intros Hk Hfail Hpage rows.
  assert (Hrows : page_rows (net (job_url date_obj fmt category) k) = Some rows)
    by (rewrite Hpage; reflexivity).
  assert (E : first_page net (job_url date_obj fmt category) (sent w) MAX_RETRIES
              = Some (k, rows)).
  { replace k with (sent w + (k - sent w))%nat in * by lia.
    apply first_page_at; [lia | | exact Hrows].
    intros j Hj. apply Hfail. lia. }
  rewrite scrape_date_spec, E. eexists. eexists. split; [reflexivity |].
  split; [| split].
  - unfold scraped_rows, scraped_row.
    generalize rows. intros l. induction l as [| row l IH]; [reflexivity |].
    cbn [map filter].
    destruct (3 <=? List.length (find_all "td" row))%nat; cbn [map]; now rewrite IH.
  - etransitivity; [apply length_scraped_rows |].
    unfold rows. apply firstn_le_length.
  - intros rec. apply in_scraped_rows.
Qed.

(** On the ranking page, served at once: the three rows with three cells,
    the rank of the first one stripped. *)
Lemma scrape_date_rows_witness :
  fst (scrape_date (net_of [ok_response ranking_page])
                   (Calendar.ymd2ord 1971 1 5) "odi" "batting" fresh_worker)
  = Ok [["1971/01/05"; "odi"; "batting"; "1"; "G Boycott"; "880"];
        ["1971/01/05"; "odi"; "batting"; "2"; "G Sobers"; "870"];
        ["1971/01/05"; "odi"; "batting"; "3"; "B Richards"; "860"]].
Proof.
  destruct (scrape_date_rows (net_of [ok_response ranking_page])
                             (Calendar.ymd2ord 1971 1 5) "odi" "batting"
                             fresh_worker O ranking_page)
    as (res & w' & E & Hres & _).
  - unfold MAX_RETRIES. simpl. lia.
  - intros j Hj. simpl in Hj. lia.
  - reflexivity.
  - rewrite E, Hres. reflexivity.
Defined.

(** Cells padded with spaces that are not ASCII (U+00A0, U+2003, U+3000)
    are stripped as well. *)
Example scrape_date_unicode_padding :
  fst (scrape_date
         (net_of [ok_response
                    (document
                       [table [header_row;
                               tr [td (utf8 [194; 160]%nat ++ "1"
                                       ++ utf8 [194; 160]%nat)%string;
                                   td (utf8 [226; 128; 131]%nat ++ "G Boycott ")%string;
                                   td ("880" ++ utf8 [227; 128; 128]%nat)%string]]])])
         (Calendar.ymd2ord 1971 1 5) "odi" "batting" fresh_worker)
  = Ok [["1971/01/05"; "odi"; "batting"; "1"; "G Boycott"; "880"]].
Proof. reflexivity. Qed.

(** C8, as stated, fails.  On a page with two tables the result has a
    record of the second table, which the rows of the first table do not
    give; and the text of a cell with markup inside is not the text of the
    cell stripped at its two ends. *)
Lemma first_table_reading_fails :
  (fst (scrape_date (net_of [ok_response two_table_page])
                    (Calendar.ymd2ord 1971 1 5) "odi" "batting" fresh_worker)
   = Ok [["1971/01/05"; "odi"; "batting"; "1"; "G Boycott"; "880"];
         ["1971/01/05"; "odi"; "batting"; "7"; "Other"; "100"]]
   /\ first_table_records "1971/01/05" "odi" "batting" two_table_page
      = [["1971/01/05"; "odi"; "batting"; "1"; "G Boycott"; "880"]])
  /\ (fst (scrape_date (net_of [ok_response markup_page])
                       (Calendar.ymd2ord 1971 1 5) "odi" "batting" fresh_worker)
      = Ok [["1971/01/05"; "odi"; "batting"; "1"; "GBoycott"; "880"]]
      /\ first_table_records "1971/01/05" "odi" "batting" markup_page
         = [["1971/01/05"; "odi"; "batting"; "1"; "G Boycott"; "880"]]).
Proof. repeat split; reflexivity. Qed.

(** ** The run *)

Lemma attempts_trace_no_write (net : network) (url : string) (start n : nat)
      (e : event) :
  In e (attempts_trace net url start n) -> is_write e = false.
Proof.
  unfold attempts_trace. rewrite in_flat_map. intros (k & _ & [<- | He]);
    [reflexivity |].
  destruct (raises (net url k)); [| contradiction].
  destruct He as [<- | []]. reflexivity.
Qed.

Lemma run_worker_spec (net : network) (j : job) :
  exists res n,
    run_worker net j = (res, attempts_trace net (job_url (fst (fst j)) (snd (fst j)) (snd j)) 0 n).
Proof.
  destruct j as [[d fmt] cat]. unfold run_worker.
  destruct (scrape_date_trace net d fmt cat {| sent := O; trace := [] |})
    as (res & w' & E & _ & Ht).
  rewrite E. exists res, (sent w' - 0)%nat. cbn in *. now rewrite Ht.
Qed.

Lemma pool_events_no_write (net : network) (finished : list job) (e : event) :
  In e (pool_events net finished) -> is_write e = false.
Proof.
  unfold pool_events. rewrite in_flat_map. intros (j & _ & He).
  destruct (run_worker_spec net j) as (res & n & E). rewrite E in He.
  eapply attempts_trace_no_write. exact He.
Qed.

Lemma pool_spec (net : network) (finished : list job)
      (results : list (list string)) (w : world) :
  pool net finished results w
  = (Ok (results ++ pool_results net finished),
     {| file := file w; log := log w ++ pool_events net finished |}).
Proof.
  unfold pool_results, pool_events.
  revert results w. induction finished as [| j rest IH]; intros results w.
  - destruct w. cbn. unfold ret. now rewrite !app_nil_r.
  - cbn [pool flat_map].
    destruct (run_worker net j) as [res evs]. cbn [fst snd].
    unfold bind, emit. rewrite IH. cbn [file log].
    replace (if is_empty res then results else results ++ res)
      with (results ++ res)
      by (destruct res; cbn [is_empty]; now rewrite ?app_nil_r).
    now rewrite <- !app_assoc.
Qed.

Section Run.

Context `{Pandas} `{ColumnOrder}.
Variable utcoffset : Z -> Z.
Variable utcnow : Z.
Variable read_csv : frame -> frame.
Variable net : network.
Variable completion : list job -> list job.

(** The five ways a run ends: the planner raises; there is nothing to
    fetch; nothing was fetched; the dates of the merged master cannot be
    written out (line 118 raises); the merged master is written. *)
Lemma main_spec (w : world) :
  main utcoffset utcnow read_csv net completion w
  = match plan_jobs FORMATS CATEGORIES (loaded_master read_csv w)
                    (last_tuesday_ist utcoffset utcnow true) with
    | None =>
        (Raised, {| file := file w; log := log w ++ [Print (load_message w)] |})
    | Some jobs =>
        if is_empty jobs
        then (Ok tt, {| file := file w;
                        log := log w ++ [Print (load_message w); Print NothingNew] |})
        else
          let results := pool_results net (completion jobs) in
          let fetched :=
            log w ++ [Print (load_message w); Print (Scraping (List.length jobs))]
                  ++ pool_events net (completion jobs) in
          if is_empty results
          then (Ok tt, {| file := file w; log := fetched ++ [Print NoNewData] |})
          else
            let new_df := map new_row results in
            let combined := merge (loaded_master read_csv w) new_df in
            if datetime_column w
            then
              (Ok tt,
               {| file := Some combined;
                  log := fetched
                         ++ [Print (NewRows (List.length new_df));
                             ToCsv OUTPUT_FILE combined;
                             Print (Updated OUTPUT_FILE (List.length combined))] |})
            else
              (Raised,
               {| file := file w;
                  log := fetched ++ [Print (NewRows (List.length new_df))] |})
    end.
Proof.
  unfold main, loaded_master, load_message, datetime_column.
  unfold bind at 1. unfold path_exists at 1.
  unfold bind at 1.
  assert (Hload :
    (if match file w with Some _ => true | None => false end
     then bind (pd_read_csv read_csv)
               (fun df => bind (print LoadedExisting) (fun _ => ret df))
     else bind (print StartingFresh) (fun _ => ret [])) w
    = (Ok match file w with Some stored => read_csv stored | None => [] end,
       {| file := file w;
          log := log w ++ [Print match file w with
                                 | Some _ => LoadedExisting
                                 | None => StartingFresh
                                 end] |})).
  { unfold bind, pd_read_csv, print, emit, ret.
    destruct (file w) as [stored |] eqn:E; cbn; rewrite ?E; reflexivity. }
  rewrite Hload. clear Hload.
  set (df_master := match file w with Some stored => read_csv stored | None => [] end).
  set (msg := match file w with Some _ => LoadedExisting | None => StartingFresh end).
  unfold bind at 1.
  destruct (plan_jobs FORMATS CATEGORIES df_master
                      (last_tuesday_ist utcoffset utcnow true)) as [jobs |];
    cbn [lift_option]; [| reflexivity].
  unfold ret at 1.
  destruct jobs as [| j jobs]; cbn [is_empty].
  - unfold print, emit. cbn [file log]. now rewrite <- app_assoc.
  - unfold bind at 1. unfold print at 1, emit at 1.
    unfold bind at 1. rewrite pool_spec. cbn [file log app].
    destruct (pool_results net (completion (j :: jobs))) as [| r results];
      cbn [is_empty].
    + unfold print, emit. cbn [file log].
      now rewrite <- !app_assoc.
    + unfold bind at 1. unfold print at 1, emit at 1. cbn [file log].
      unfold bind at 1. unfold dt_strftime.
      destruct (file w) as [stored |]; cbn [orb].
      * unfold ret at 1. unfold bind, print, emit, to_csv. cbn [file log].
        now rewrite <- !app_assoc.
      * destruct concat_counts_empty; cbn [negb].
        -- unfold raise. cbn [file log]. now rewrite <- !app_assoc.
        -- unfold ret at 1. unfold bind, print, emit, to_csv. cbn [file log].
           now rewrite <- !app_assoc.
Qed.

(** C9.  When the planner returns no job, the run ends at once: it leaves
    the stored table as it is and only prints two lines, so it sends no
    request and writes nothing.  When the workers return no row at all, the
    run ends without writing: the stored table is as it was and none of
    the events of the run is a write. *)
Theorem main_no_write (w : world) :
  (plan_jobs FORMATS CATEGORIES (loaded_master read_csv w)
             (last_tuesday_ist utcoffset utcnow true) = Some [] ->
   exists w',
     main utcoffset utcnow read_csv net completion w = (Ok tt, w')
     /\ file w' = file w
     /\ log w' = log w ++ [Print (load_message w); Print NothingNew])
  /\ (forall jobs,
         plan_jobs FORMATS CATEGORIES (loaded_master read_csv w)
                   (last_tuesday_ist utcoffset utcnow true) = Some jobs ->
         pool_results net (completion jobs) = [] ->
         exists w' evs,
           main utcoffset utcnow read_csv net completion w = (Ok tt, w')
           /\ file w' = file w
           /\ log w' = log w ++ evs
           /\ (forall e, In e evs -> is_write e = false)).
Proof.
  split.
  - intros Hplan. rewrite main_spec, Hplan. cbn [is_empty]. eauto.
  - intros jobs Hplan Hres. rewrite main_spec, Hplan.
    destruct (is_empty jobs).
    + eexists. eexists. split; [reflexivity |]. split; [reflexivity |].
      split; [reflexivity |].
      intros e [<- | [<- | []]]; reflexivity.
    + cbv zeta. rewrite Hres. cbn [is_empty].
      eexists. eexists. split; [reflexivity |]. split; [reflexivity |].
      cbn [log]. rewrite <- app_assoc. split; [reflexivity |].
      intros e He. cbn [app] in He.
      destruct He as [<- | [<- | He]]; try reflexivity.
      apply in_app_or in He. destruct He as [He | [<- | []]]; [| reflexivity].
      eapply pool_events_no_write. exact He.
Qed.

End Run.

(** A run on a master that covers every pair, and a run from nothing while
    the site is down; the clock is at noon of Wednesday 1971-01-06, so the
    cutoff is Tuesday 1971-01-05. *)
Lemma main_no_write_witness :
  (exists w',
      main kolkata noon_1971_01_06 (fun df => df) (net_of []) (fun jobs => jobs)
           {| file := Some covered_master; log := [] |} = (Ok tt, w')
      /\ file w' = Some covered_master
      /\ log w' = [Print LoadedExisting; Print NothingNew])
  /\ (exists w' evs,
         main kolkata noon_1971_01_06 (fun df => df) (net_of []) (fun jobs => jobs)
              {| file := None; log := [] |} = (Ok tt, w')
         /\ file w' = None
         /\ log w' = [] ++ evs
         /\ (forall e, In e evs -> is_write e = false)).
Proof.
  split.
  - apply (proj1 (main_no_write kolkata noon_1971_01_06 (fun df => df)
                                (net_of []) (fun jobs => jobs)
                                {| file := Some covered_master; log := [] |})).
    reflexivity.
  - apply (proj2 (main_no_write kolkata noon_1971_01_06 (fun df => df)
                                (net_of []) (fun jobs => jobs)
                                {| file := None; log := [] |})
                 (all_jobs FORMATS CATEGORIES [] (Calendar.ymd2ord 1971 1 5))).
    + reflexivity.
    + vm_compute. reflexivity.
Defined.

(** A run from nothing that fetches one page, under a pandas whose
    [pd.concat] leaves the empty master out of the choice of the types: the
    three rows are written, sorted by rank. *)
Example main_from_scratch :
  file (snd (@main pandas_2 default_order kolkata noon_1971_01_06
                   (fun df => df) one_page_net
                   (fun jobs => jobs) {| file := None; log := [] |}))
  = Some [ {| Date := Some (Calendar.ymd2ord 1971 1 5);
              Format := "odi"; Category := "batting";
              Rank := Txt "1"; Player := Txt "G Boycott"; Rating := Txt "880" |};
           {| Date := Some (Calendar.ymd2ord 1971 1 5);
              Format := "odi"; Category := "batting";
              Rank := Txt "2"; Player := Txt "G Sobers"; Rating := Txt "870" |};
           {| Date := Some (Calendar.ymd2ord 1971 1 5);
              Format := "odi"; Category := "batting";
              Rank := Txt "3"; Player := Txt "B Richards"; Rating := Txt "860" |} ].
Proof. vm_compute. reflexivity. Qed.

(** * Further properties *)

(** ** Dates written and read back *)

Lemma all_from_spec (start : Z) (n : nat) (p : Z -> bool) (k : Z) :
  all_from start n p = true -> start <= k < start + Z.of_nat n -> p k = true.
Proof.
  revert start. induction n as [| n IH]; intros start Hall Hk; [lia |].
  cbn [all_from] in Hall. apply andb_prop in Hall. destruct Hall as [Hn Hall].
  destruct (Z.eq_dec k start) as [-> | Hne]; [exact Hn |].
  apply (IH (start + 1)); [exact Hall | lia].
Qed.

Lemma cycle_checked :
  all_from 1 (Z.to_nat 146097) cycle_day_ok = true.
Proof. vm_compute. reflexivity. Qed.

Lemma is_leap_shift (y q : Z) :
  Calendar.is_leap (y + 400 * q) = Calendar.is_leap y.
Proof.
  unfold Calendar.is_leap.
  replace (y + 400 * q) with (y + (100 * q) * 4) at 1 by lia.
  replace (y + 400 * q) with (y + (4 * q) * 100) at 1 by lia.
  replace (y + 400 * q) with (y + q * 400) by lia.
  now rewrite !Z.mod_add by lia.
Qed.

Lemma days_before_year_shift (y q : Z) :
  Calendar.days_before_year (y + 400 * q)
  = Calendar.days_before_year y + 146097 * q.
Proof.
  unfold Calendar.days_before_year. cbv zeta.
  replace (y + 400 * q - 1) with (y - 1 + (100 * q) * 4) at 2 by lia.
  replace (y + 400 * q - 1) with (y - 1 + (4 * q) * 100) at 2 by lia.
  replace (y + 400 * q - 1) with (y - 1 + q * 400) at 2 by lia.
  rewrite !Z.div_add by lia. lia.
Qed.

Lemma ymd2ord_shift (y m d q : Z) :
  Calendar.ymd2ord (y + 400 * q) m d = Calendar.ymd2ord y m d + 146097 * q.
Proof.
  unfold Calendar.ymd2ord, Calendar.days_before_month.
  rewrite days_before_year_shift, is_leap_shift. lia.
Qed.

Lemma days_in_month_shift (y m q : Z) :
  Calendar.days_in_month (y + 400 * q) m = Calendar.days_in_month y m.
Proof. unfold Calendar.days_in_month. now rewrite is_leap_shift. Qed.

Lemma ord2ymd_shift (n q : Z) :
  Calendar.ord2ymd (n + 146097 * q)
  = let '(y, m, d) := Calendar.ord2ymd n in (y + 400 * q, m, d).
Proof.
  unfold Calendar.ord2ymd. cbv zeta.
  replace (n + 146097 * q - 1) with (n - 1 + q * Calendar.DI400Y)
    by (unfold Calendar.DI400Y; lia).
  rewrite Z.div_add, Z.mod_add by (unfold Calendar.DI400Y; lia).
  set (r := (n - 1) mod Calendar.DI400Y).
  set (n400 := (n - 1) / Calendar.DI400Y).
  destruct ((r mod Calendar.DI100Y mod Calendar.DI4Y / 365 =? 4)
            || (r / Calendar.DI100Y =? 4)).
  - f_equal. f_equal. lia.
  - match goal with
    | |- (if ?c then _ else _) = _ => destruct c
    end; f_equal; f_equal; lia.
Qed.

(** Every day of the years 1 to 9999 is split into a year, a month and a
    day of that month, and these give the day back. *)
Lemma ord2ymd_valid (n : Z) :
  1 <= n <= Calendar.ymd2ord 9999 12 31 ->
  let '(y, m, d) := Calendar.ord2ymd n in
  1 <= y <= 9999 /\ 1 <= m <= 12 /\ 1 <= d <= Calendar.days_in_month y m
  /\ Calendar.ymd2ord y m d = n.
Proof.
  change (Calendar.ymd2ord 9999 12 31) with 3652059. intros Hn.
  pose proof (Z.div_mod (n - 1) 146097 ltac:(lia)) as Hdm.
  pose proof (Z.mod_pos_bound (n - 1) 146097 ltac:(lia)) as Hr.
  set (q := (n - 1) / 146097) in *. set (r := (n - 1) mod 146097) in *.
  assert (Hq : 0 <= q <= 24) by nia.
  pose proof (all_from_spec 1 (Z.to_nat 146097) cycle_day_ok (r + 1)
                            cycle_checked ltac:(lia)) as Hok.
  replace n with (r + 1 + 146097 * q) by lia.
  rewrite ord2ymd_shift. unfold cycle_day_ok in Hok.
  destruct (Calendar.ord2ymd (r + 1)) as [[y m] d].
  repeat (apply andb_prop in Hok; destruct Hok as [Hok ?]).
  rewrite days_in_month_shift, ymd2ord_shift.
  assert (Hy : 399 < y -> 145731 < r + 1).
  { intros Hlt. match goal with
                | H : (_ <? _) || (_ <=? _) = true |- _ =>
                    apply orb_prop in H; destruct H as [H | H];
                    [apply Z.ltb_lt in H; exact H | apply Z.leb_le in H; lia]
                end. }
  repeat match goal with
         | H : (_ <=? _) = true |- _ => apply Z.leb_le in H
         | H : (_ =? _) = true |- _ => apply Z.eqb_eq in H
         end.
  repeat split; try lia.
Qed.
Lemma digit_value_digit (n : Z) :
  Calendar.digit_value (Calendar.digit n) = Some (n mod 10).
Proof.
  unfold Calendar.digit_value, Calendar.digit.
  pose proof (Z.mod_pos_bound n 10 ltac:(lia)) as Hr.
  rewrite nat_ascii_embedding by lia.
  replace (Z.of_nat (48 + Z.to_nat (n mod 10))) with (48 + n mod 10) by lia.
  replace (48 <=? 48 + n mod 10) with true by (symmetry; apply Z.leb_le; lia).
  replace (48 + n mod 10 <=? 57) with true by (symmetry; apply Z.leb_le; lia).
  cbn [andb]. f_equal. lia.
Qed.

Lemma digits_value_two (n : Z) :
  0 <= n < 100 ->
  Calendar.digits_value [Calendar.digit (n / 10); Calendar.digit n] 0 = Some n.
Proof.
  intros Hn. cbn [Calendar.digits_value]. rewrite !digit_value_digit.
  f_equal. Z.div_mod_to_equations. lia.
Qed.

Lemma digits_value_four (n : Z) :
  0 <= n < 10000 ->
  Calendar.digits_value
    [Calendar.digit (n / 10 / 10 / 10); Calendar.digit (n / 10 / 10);
     Calendar.digit (n / 10); Calendar.digit n] 0
  = Some n.
Proof.
  intros Hn. cbn [Calendar.digits_value]. rewrite !digit_value_digit.
  f_equal. Z.div_mod_to_equations. lia.
Qed.

Lemma days_in_month_le (y m : Z) : Calendar.days_in_month y m <= 31.
Proof.
  unfold Calendar.days_in_month.
  destruct ((m =? 2) && Calendar.is_leap y); [lia |].
  unfold Calendar.DAYS_IN_MONTH.
  destruct (Z.to_nat (m - 1)) as [| [| [| [| [| [| [| [| [| [| [| [| [| k]]]]]]]]]]]]];
    cbn; lia.
Qed.

(** A date from 1000-01-01 to 9999-12-31, written and read back. *)
Lemma strptime_strftime (d : Z) :
  four_digit_year d ->
  Calendar.strptime (Calendar.strftime d) = Some d.
Proof.
  unfold four_digit_year.
  change (Calendar.ymd2ord 1000 1 1) with 364878. intros Hd.
  pose proof (ord2ymd_valid d ltac:(lia)) as Hv.
  unfold Calendar.strftime.
  destruct (Calendar.ord2ymd d) as [[y m] day].
  destruct Hv as (Hy & Hm & Hday & Hord).
  pose proof (days_in_month_le y m) as Hle.
  unfold Calendar.strptime.
  cbn [Calendar.zero_padded append list_ascii_of_string].
  rewrite digits_value_four, !digits_value_two by lia.
  replace (1 <=? y) with true by (symmetry; apply Z.leb_le; lia).
  replace (1 <=? m) with true by (symmetry; apply Z.leb_le; lia).
  replace (m <=? 12) with true by (symmetry; apply Z.leb_le; lia).
  replace (1 <=? day) with true by (symmetry; apply Z.leb_le; lia).
  replace (day <=? Calendar.days_in_month y m) with true
    by (symmetry; apply Z.leb_le; lia).
  cbn. now rewrite Hord.
Qed.

Lemma timestamp_four_digit_year (d : Z) : timestamp_date d -> four_digit_year d.
Proof.
  unfold timestamp_date, four_digit_year.
  assert (Calendar.ymd2ord 1000 1 1 <= TIMESTAMP_FIRST) by (vm_compute; discriminate).
  assert (TIMESTAMP_LAST <= Calendar.ymd2ord 9999 12 31) by (vm_compute; discriminate).
  lia.
Qed.

(** A date from 1677-09-22 to 2262-04-11, written and read back, whatever
    the pandas. *)
Lemma strftime_read_back `{Pandas} (d : Z) :
  timestamp_date d ->
  to_datetime (Calendar.strftime d) = Some d.
Proof.
  intros Hd. unfold to_datetime.
  rewrite strptime_strftime by now apply timestamp_four_digit_year.
  now rewrite holds_date_nanoseconds.
Qed.

(** X1.  A date from 1677-09-22 to 2262-04-11 (the dates a datetime column
    holds under every pandas), written with [strftime("%Y/%m/%d")] and read
    with [pd.to_datetime(..., errors="coerce")], is the same date again;
    and two dates with a year of four digits are never written alike, so
    two jobs of one pair never share a URL. *)
Theorem strftime_round_trip `{Pandas} (d : Z) :
  timestamp_date d ->
  to_datetime (Calendar.strftime d) = Some d
  /\ (forall d' fmt cat,
         four_digit_year d' ->
         job_url d fmt cat = job_url d' fmt cat -> d = d').
Proof.
  intros Hd. split; [now apply strftime_read_back |].
  intros d' fmt cat Hd' Hurl.
  assert (E : Calendar.strftime d = Calendar.strftime d').
  { unfold job_url, BASE_URL in Hurl.
    repeat match type of Hurl with
           | (String ?c _ = String ?c _) => injection Hurl as Hurl
           end.
    revert Hurl. generalize (Calendar.strftime d), (Calendar.strftime d').
    clear. cbn [append].
    intros s s'. revert s'.
    assert (Hcut : forall p t t' : string,
               (p ++ t = p ++ t')%string -> t = t').
    { induction p as [| c p IH]; intros t t' Hp; [exact Hp |].
      cbn in Hp. injection Hp as Hp. now apply IH. }
    intros s' Hurl.
    apply (Hcut "https://www.relianceiccrankings.com/datespecific/") in Hurl.
    apply Hcut in Hurl. apply (Hcut "/") in Hurl. apply Hcut in Hurl.
    apply (Hcut "/") in Hurl.
    revert s' Hurl. induction s as [| c s IH]; intros [| c' s'] Hs; cbn in Hs;
      try reflexivity; try discriminate.
    - destruct s'; discriminate.
    - destruct s; discriminate.
    - injection Hs as -> Hs. f_equal. now apply IH. }
  pose proof (strptime_strftime d (timestamp_four_digit_year d Hd)) as R.
  pose proof (strptime_strftime d' Hd') as R'.
  rewrite E in R. congruence.
Qed.

Lemma strftime_round_trip_witness :
  @to_datetime pandas_2 (Calendar.strftime (Calendar.ymd2ord 1971 1 5))
  = Some (Calendar.ymd2ord 1971 1 5)
  /\ (forall d' fmt cat,
         four_digit_year d' ->
         job_url (Calendar.ymd2ord 1971 1 5) fmt cat = job_url d' fmt cat ->
         Calendar.ymd2ord 1971 1 5 = d').
Proof.
  apply (@strftime_round_trip pandas_2 (Calendar.ymd2ord 1971 1 5)).
  unfold timestamp_date. vm_compute. split; discriminate.
Defined.

(** ** The cutoff date, in both modes *)

Lemma tuesdays_a_week_apart (t r : Z) :
  Calendar.weekday t = 1 -> Calendar.weekday r = 1 -> r < t -> r + 7 <= t.
Proof.
  unfold Calendar.weekday. intros Ht Hr Hlt.
  Z.div_mod_to_equations. lia.
Qed.

(** X2.  In the lenient mode the cutoff is the latest Tuesday that is not
    after the day of the instant in the zone: a Tuesday, at most six days
    back, and no Tuesday lies between it and that day. *)
Theorem last_tuesday_lenient_latest (utcoffset : Z -> Z) (today_utc : Z) :
  Calendar.weekday (last_tuesday_ist utcoffset today_utc false) = 1
  /\ local_date utcoffset today_utc - 6
     <= last_tuesday_ist utcoffset today_utc false
     <= local_date utcoffset today_utc
  /\ (forall t, Calendar.weekday t = 1 -> t <= local_date utcoffset today_utc ->
                t <= last_tuesday_ist utcoffset today_utc false).
Proof.
  pose proof (last_tuesday_is_tuesday utcoffset today_utc false) as Htue.
  assert (Hb : local_date utcoffset today_utc - 6
               <= last_tuesday_ist utcoffset today_utc false
               <= local_date utcoffset today_utc).
  { unfold last_tuesday_ist. cbn [andb].
    pose proof (Z.mod_pos_bound
                  (Calendar.weekday (local_date utcoffset today_utc) - 1) 7
                  ltac:(lia)).
    lia. }
  split; [exact Htue |]. split; [exact Hb |].
  intros t Ht Hle.
  destruct (Z.le_gt_cases t (last_tuesday_ist utcoffset today_utc false))
    as [Hok | Hgt]; [exact Hok |].
  pose proof (tuesdays_a_week_apart _ _ Ht Htue ltac:(lia)). lia.
Qed.

(** X3.  In the strict mode the cutoff is the latest Tuesday before the day
    of the instant in the zone, whatever day of the week that is: a
    Tuesday, one to seven days back, and no Tuesday lies between it and
    that day.  On a day other than a Tuesday the two modes agree. *)
Theorem last_tuesday_strict_latest_before (utcoffset : Z -> Z) (today_utc : Z) :
  Calendar.weekday (last_tuesday_ist utcoffset today_utc true) = 1
  /\ local_date utcoffset today_utc - 7
     <= last_tuesday_ist utcoffset today_utc true
     <= local_date utcoffset today_utc - 1
  /\ (forall t, Calendar.weekday t = 1 -> t < local_date utcoffset today_utc ->
                t <= last_tuesday_ist utcoffset today_utc true)
  /\ (Calendar.weekday (local_date utcoffset today_utc) <> 1 ->
      last_tuesday_ist utcoffset today_utc true
      = last_tuesday_ist utcoffset today_utc false).
Proof.
  pose proof (last_tuesday_is_tuesday utcoffset today_utc true) as Htue.
  set (d := local_date utcoffset today_utc) in *.
  assert (Hb : d - 7 <= last_tuesday_ist utcoffset today_utc true <= d - 1).
  { unfold last_tuesday_ist. fold d. cbn [andb].
    destruct (Calendar.weekday d =? 1) eqn:E; [lia |].
    apply Z.eqb_neq in E. pose proof (weekday_range d) as Hr.
    assert (Hm : (Calendar.weekday d - 1) mod 7 <> 0).
    { intros Hz. apply E. Z.div_mod_to_equations. lia. }
    pose proof (Z.mod_pos_bound (Calendar.weekday d - 1) 7 ltac:(lia)). lia. }
  split; [exact Htue |]. split; [exact Hb |]. split.
  - intros t Ht Hlt.
    destruct (Z.le_gt_cases t (last_tuesday_ist utcoffset today_utc true))
      as [Hok | Hgt]; [exact Hok |].
    pose proof (tuesdays_a_week_apart _ _ Ht Htue ltac:(lia)). lia.
  - intros Hwd. unfold last_tuesday_ist. fold d. cbn [andb].
    apply Z.eqb_neq in Hwd. now rewrite Hwd.
Qed.

(** ** The planner: nothing new, and how much there is to fetch *)

Lemma length_pair_jobs (df_master : frame) (end_date : Z) (fmt cat : string)
      (last : Z) :
  last_date df_master fmt cat = Some last ->
  List.length (pair_jobs_or_nil df_master end_date fmt cat)
  = Z.to_nat (end_date - last).
Proof.
  intros Hlast. unfold pair_jobs_or_nil, pair_jobs. rewrite Hlast.
  destruct (end_date <=? last) eqn:E.
  - apply Z.leb_le in E. cbn. lia.
  - apply Z.leb_gt in E. unfold new_dates. rewrite !length_map, length_seq. lia.
Qed.

(** X4.  When every pair has a last date, the planner returns the empty
    list, the case in which the run stops with "Nothing new to scrape",
    exactly when no pair has its last date before the cutoff. *)
Theorem plan_nothing_new_iff (df_master : frame) (cutoff : Z)
        (W : string -> string -> Z) :
  (forall fmt cat, In fmt FORMATS -> In cat CATEGORIES ->
                   last_date df_master fmt cat = Some (W fmt cat)) ->
  plan_jobs FORMATS CATEGORIES df_master cutoff = Some []
  <-> (forall fmt cat, In fmt FORMATS -> In cat CATEGORIES ->
                       cutoff <= W fmt cat).
Proof.
  intros HW.
  rewrite plan_jobs_defined
    by (intros fmt cat Hf Hc; rewrite (HW fmt cat Hf Hc); discriminate).
  split.
  - intros Hnil fmt cat Hf Hc.
    destruct (Z.le_gt_cases cutoff (W fmt cat)) as [Hle | Hgt]; [exact Hle |].
    exfalso.
    assert (Hin : In (cutoff, fmt, cat)
                     (all_jobs FORMATS CATEGORIES df_master cutoff)).
    { apply in_all_jobs. cbn [fst snd]. split; [exact Hf |]. split; [exact Hc |].
      apply (in_pair_jobs _ _ _ _ _ _ (HW fmt cat Hf Hc)).
      exists cutoff. split; [reflexivity | lia]. }
    assert (Hnil' : all_jobs FORMATS CATEGORIES df_master cutoff = [])
      by congruence.
    rewrite Hnil' in Hin. contradiction.
  - intros Hcov. f_equal.
    destruct (all_jobs FORMATS CATEGORIES df_master cutoff) as [| j rest] eqn:E;
      [reflexivity | exfalso].
    assert (Hin : In j (all_jobs FORMATS CATEGORIES df_master cutoff))
      by (rewrite E; now left).
    apply in_all_jobs in Hin. destruct Hin as (Hf & Hc & Hj).
    apply (in_pair_jobs _ _ _ _ _ _ (HW _ _ Hf Hc)) in Hj.
    destruct Hj as (d & _ & Hd). specialize (Hcov _ _ Hf Hc). lia.
Qed.

Lemma plan_nothing_new_iff_witness :
  plan_jobs FORMATS CATEGORIES covered_master (Calendar.ymd2ord 1971 1 5) = Some []
  <-> (forall fmt cat, In fmt FORMATS -> In cat CATEGORIES ->
                       Calendar.ymd2ord 1971 1 5 <= Calendar.ymd2ord 1971 1 5).
Proof.
  apply (plan_nothing_new_iff covered_master (Calendar.ymd2ord 1971 1 5)
                              (fun _ _ => Calendar.ymd2ord 1971 1 5)).
  intros fmt cat [<- | [<- | []]] [<- | [<- | []]]; reflexivity.
Defined.

(** X5.  The number of jobs of a run, and so of the pages it asks for, is
    the number of days from the last date to the cutoff, summed over the
    four pairs (a pair that is covered counts for nothing). *)
Theorem plan_jobs_count (df_master : frame) (cutoff : Z)
        (W : string -> string -> Z) :
  (forall fmt cat, In fmt FORMATS -> In cat CATEGORIES ->
                   last_date df_master fmt cat = Some (W fmt cat)) ->
  exists jobs,
    plan_jobs FORMATS CATEGORIES df_master cutoff = Some jobs
    /\ List.length jobs
       = (Z.to_nat (cutoff - W "odi" "batting")
          + Z.to_nat (cutoff - W "odi" "bowling")
          + Z.to_nat (cutoff - W "test" "batting")
          + Z.to_nat (cutoff - W "test" "bowling"))%nat.
Proof.
  intros HW. eexists. split.
  - apply plan_jobs_defined. intros fmt cat Hf Hc.
    rewrite (HW fmt cat Hf Hc). discriminate.
  - unfold all_jobs, FORMATS, CATEGORIES. cbn [flat_map].
    rewrite !length_app. cbn [List.length].
    assert (Hlen : forall fmt cat,
               In fmt FORMATS -> In cat CATEGORIES ->
               List.length (pair_jobs_or_nil df_master cutoff fmt cat)
               = Z.to_nat (cutoff - W fmt cat))
      by (intros fmt cat Hf Hc; apply length_pair_jobs; now apply HW).
    rewrite !Hlen by (cbn; auto). lia.
Qed.

Lemma plan_jobs_count_witness :
  exists jobs,
    plan_jobs FORMATS CATEGORIES sample_master (Calendar.ymd2ord 1971 1 5)
    = Some jobs
    /\ List.length jobs = 17%nat.
Proof.
  destruct (plan_jobs_count sample_master (Calendar.ymd2ord 1971 1 5)
                            sample_last_date) as (jobs & Hplan & Hlen).
  - intros fmt cat [<- | [<- | []]] [<- | [<- | []]]; reflexivity.
  - exists jobs. split; [exact Hplan |]. rewrite Hlen. reflexivity.
Defined.

(** ** One job: the budget of requests, and the rows it brings *)

Lemma attempts_trace_events (net : network) (url : string) (start n : nat) :
  (forall e, In e (attempts_trace net url start n) ->
             e = Request url 10 \/ e = Sleep 1)
  /\ List.length (filter is_request (attempts_trace net url start n)) = n.
Proof.
  unfold attempts_trace. revert start.
  induction n as [| n IH]; intros start; cbn [seq flat_map].
  - split; [intros e [] | reflexivity].
  - destruct (IH (S start)) as [Hev Hlen]. split.
    + intros e [<- | He]; [now left |].
      apply in_app_or in He. destruct He as [He | He]; [| now apply Hev].
      destruct (raises (net url start)); [| contradiction].
      destruct He as [<- | []]. now right.
    + cbn [filter is_request]. rewrite filter_app, length_app.
      cbn [List.length]. rewrite Hlen.
      destruct (raises (net url start)); reflexivity.
Qed.

Lemma length_page_rows (a : attempt) (rows : list node) :
  page_rows a = Some rows -> (List.length rows <= 100)%nat.
Proof.
  destruct a as [| [status body]]; cbn; [discriminate |].
  destruct (status =? 200); [| discriminate].
  destruct body as [soup |]; [| discriminate].
  intros [= <-]. unfold slice. apply firstn_le_length.
Qed.

(** X6.  Whatever the site does, a call of [scrape_date] returns; it sends
    at least one and at most three requests, each to the URL of the job
    with a timeout of 10 seconds; apart from the requests it only sleeps,
    one second at a time; and it returns at most 100 records. *)
Theorem scrape_date_budget (net : network) (date_obj : Z)
        (fmt category : string) (w : worker) :
  exists res w' evs,
    scrape_date net date_obj fmt category w = (Ok res, w')
    /\ (1 <= sent w' - sent w <= 3)%nat
    /\ trace w' = trace w ++ evs
    /\ (forall e, In e evs ->
                  e = Request (job_url date_obj fmt category) 10 \/ e = Sleep 1)
    /\ List.length (filter is_request evs) = (sent w' - sent w)%nat
    /\ (List.length res <= 100)%nat.
Proof.
  rewrite scrape_date_spec.
  destruct (first_page net _ (sent w) MAX_RETRIES) as [[k rows] |] eqn:E.
  - apply first_page_Some in E. destruct E as (Hb & Hp & _).
    unfold MAX_RETRIES in Hb.
    destruct (attempts_trace_events net (job_url date_obj fmt category)
                                    (sent w) (S k - sent w)) as [Hev Hlen].
    eexists. eexists. eexists. split; [reflexivity |]. cbn [sent trace].
    split; [lia |]. split; [reflexivity |]. split; [exact Hev |].
    split; [exact Hlen |].
    etransitivity; [apply length_scraped_rows |].
    eapply length_page_rows. exact Hp.
  - destruct (attempts_trace_events net (job_url date_obj fmt category)
                                    (sent w) MAX_RETRIES) as [Hev Hlen].
    eexists. eexists. eexists. split; [reflexivity |]. cbn [sent trace].
    unfold MAX_RETRIES in *.
    split; [lia |]. split; [reflexivity |]. split; [exact Hev |].
    split; [rewrite Hlen; lia | cbn; lia].
Qed.

(** X7.  Every record [scrape_date] returns has six fields, the first
    three being the date of the job as YYYY/MM/DD, its format and its
    category; the row made of it for the new frame has that format and
    category, and the date of the job when this lies from 1677-09-22 to
    2262-04-11 (the dates a datetime column holds under every pandas). *)
Theorem scrape_date_records_tagged `{Pandas} (net : network) (date_obj : Z)
        (fmt category : string) (w : worker) :
  exists res w',
    scrape_date net date_obj fmt category w = (Ok res, w')
    /\ (forall rec,
           In rec res ->
           (exists rank player rating,
               rec = [Calendar.strftime date_obj; fmt; category;
                      rank; player; rating])
           /\ Format (new_row rec) = fmt
           /\ Category (new_row rec) = category
           /\ (timestamp_date date_obj -> Date (new_row rec) = Some date_obj)).
Proof.
  rewrite scrape_date_spec.
  destruct (first_page net _ (sent w) MAX_RETRIES) as [[k rows] |].
  - eexists. eexists. split; [reflexivity |].
    intros rec Hrec. apply in_scraped_rows in Hrec.
    destruct Hrec as (row & _ & _ & ->). unfold scraped_row.
    split; [eauto |]. split; [reflexivity |]. split; [reflexivity |].
    intros Hd. cbn [new_row Date nth]. now apply strftime_read_back.
  - eexists. eexists. split; [reflexivity |]. intros rec [].
Qed.

(** ** The pool and the run *)

(** X8.  The pool returns the rows of every job, each job's rows once and
    together, in the order the jobs finish: the result is a rearrangement
    of the rows of the jobs in the order they were planned.  The pool does
    not touch the stored table and writes nothing. *)
Theorem pool_collects_all (net : network) (finished jobs : list job) (w : world) :
  Permutation finished jobs ->
  exists res w',
    pool net finished [] w = (Ok res, w')
    /\ res = flat_map (fun j => fst (run_worker net j)) finished
    /\ Permutation res (pool_results net jobs)
    /\ file w' = file w
    /\ (exists evs, log w' = log w ++ evs
                    /\ forall e, In e evs -> is_write e = false).
Proof.
  intros Hperm. rewrite pool_spec. eexists. eexists.
  split; [reflexivity |]. cbn [app file log].
  split; [reflexivity |]. split.
  - unfold pool_results. now apply Permutation_flat_map.
  - split; [reflexivity |]. eexists. split; [reflexivity |].
    apply pool_events_no_write.
Qed.

Lemma pool_collects_all_witness :
  exists res w',
    pool one_page_net
         [(Calendar.ymd2ord 1971 1 5, "odi", "batting");
          (Calendar.ymd2ord 1971 1 4, "odi", "batting")] []
         {| file := None; log := [] |} = (Ok res, w')
    /\ res = flat_map (fun j => fst (run_worker one_page_net j))
                      [(Calendar.ymd2ord 1971 1 5, "odi", "batting");
                       (Calendar.ymd2ord 1971 1 4, "odi", "batting")]
    /\ Permutation res
         (pool_results one_page_net
                       [(Calendar.ymd2ord 1971 1 4, "odi", "batting");
                        (Calendar.ymd2ord 1971 1 5, "odi", "batting")])
    /\ file w' = None
    /\ (exists evs, log w' = [] ++ evs
                    /\ forall e, In e evs -> is_write e = false).
Proof.
  apply (pool_collects_all one_page_net
           [(Calendar.ymd2ord 1971 1 5, "odi", "batting");
            (Calendar.ymd2ord 1971 1 4, "odi", "batting")]
           [(Calendar.ymd2ord 1971 1 4, "odi", "batting");
            (Calendar.ymd2ord 1971 1 5, "odi", "batting")]
           {| file := None; log := [] |}).
  apply perm_swap.
Defined.

Lemma last_date_None_iff (df_master : frame) (fmt cat : string) :
  last_date df_master fmt cat = None
  <-> df_sub df_master fmt cat <> []
      /\ (forall r, In r (df_sub df_master fmt cat) -> Date r = None).
Proof.
  unfold last_date.
  destruct (df_sub df_master fmt cat) as [| r0 sub] eqn:Hsub.
  - split; [discriminate | intros [Hne _]; congruence].
  - rewrite series_max_None. split.
    + intros Hnone. split; [discriminate |].
      intros r Hr. destruct (Date r) as [d |] eqn:Hd; [| reflexivity].
      exfalso. apply (Hnone d). rewrite <- Hd. now apply in_map.
    + intros [_ Hall] d Hd. apply in_map_iff in Hd.
      destruct Hd as (r & Hr & Hin). rewrite (Hall r Hin) in Hr. discriminate.
Qed.

Section RunMore.

Context `{Pandas} `{ColumnOrder}.
Variable utcoffset : Z -> Z.
Variable utcnow : Z.
Variable read_csv : frame -> frame.
Variable net : network.
Variable completion : list job -> list job.

(** X9.  When one of the four pairs has rows in the loaded master and none
    of them has a date, the run raises while planning: after its first
    line of output, before any request, and without writing. *)
Theorem main_raises_on_undated_pair (w : world) (fmt cat : string) :
  In fmt FORMATS -> In cat CATEGORIES ->
  df_sub (loaded_master read_csv w) fmt cat <> [] ->
  (forall r, In r (df_sub (loaded_master read_csv w) fmt cat) -> Date r = None) ->
  main utcoffset utcnow read_csv net completion w
  = (Raised, {| file := file w; log := log w ++ [Print (load_message w)] |}).
Proof.
  intros Hf Hc Hne Hall. rewrite main_spec.
  now rewrite (plan_jobs_raises _ _ _ _ fmt cat Hf Hc
                 (proj2 (last_date_None_iff _ _ _) (conj Hne Hall))).
Qed.

(** X10.  When every row of the loaded master has a date, and the master
    was read from the file or [pd.concat] leaves an empty frame out of the
    choice of the types, the run does not raise, whatever the clock, the
    site and the order of the workers. *)
Theorem main_returns_when_dated (w : world) :
  (forall r, In r (loaded_master read_csv w) -> Date r <> None) ->
  file w <> None \/ concat_counts_empty = false ->
  exists w', main utcoffset utcnow read_csv net completion w = (Ok tt, w').
Proof.
  intros Hdated Hcol. rewrite main_spec.
  rewrite plan_jobs_defined by (intros; now apply last_date_dated).
  destruct (is_empty _); [eauto |]. cbv zeta.
  destruct (is_empty _); [eauto |].
  replace (datetime_column w) with true; [eauto |].
  unfold datetime_column.
  destruct (file w); [reflexivity |].
  destruct Hcol as [Hfile | ->]; [congruence | reflexivity].
Qed.

(** X22.  A run that starts without a master file, under a pandas whose
    [pd.concat] counts the empty master in the choice of the types, raises
    at line 118 as soon as the workers bring a row: after the requests and
    the line that counts the new rows, and without writing. *)
Theorem main_fresh_raises_on_object_dates (w : world) (jobs : list job) :
  file w = None ->
  concat_counts_empty = true ->
  plan_jobs FORMATS CATEGORIES [] (last_tuesday_ist utcoffset utcnow true)
  = Some jobs ->
  jobs <> [] ->
  pool_results net (completion jobs) <> [] ->
  main utcoffset utcnow read_csv net completion w
  = (Raised,
     {| file := None;
        log := log w
               ++ [Print StartingFresh; Print (Scraping (List.length jobs))]
               ++ pool_events net (completion jobs)
               ++ [Print (NewRows (List.length (pool_results net (completion jobs))))] |}).
Proof.
  intros Hfile Hcount Hplan Hjobs Hres. rewrite main_spec.
  unfold loaded_master, load_message, datetime_column.
  rewrite Hfile, Hplan, Hcount. cbn [negb].
  destruct jobs as [| j jobs]; [congruence |].
  cbn [is_empty]. cbv zeta.
  destruct (pool_results net (completion (j :: jobs))) as [| r results] eqn:E;
    [congruence |].
  cbn [is_empty]. rewrite length_map, <- !app_assoc. reflexivity.
Qed.

(** X11.  A run either leaves the stored table as it is, or returns
    having stored the merged frame: this has no two equal rows, is sorted
    by (Format, Category, Date, Rank), holds every row of the loaded
    master, and holds besides only rows made of the records the workers
    returned for the planned jobs. *)
Theorem main_keeps_master_rows (w : world) :
  exists res w',
    main utcoffset utcnow read_csv net completion w = (res, w')
    /\ (file w' = file w
        \/ exists jobs combined,
             plan_jobs FORMATS CATEGORIES (loaded_master read_csv w)
                       (last_tuesday_ist utcoffset utcnow true) = Some jobs
             /\ res = Ok tt
             /\ file w' = Some combined
             /\ NoDup combined
             /\ StronglySorted key_le combined
             /\ (forall r, In r (loaded_master read_csv w) -> In r combined)
             /\ (forall r, In r combined ->
                           In r (loaded_master read_csv w)
                           \/ exists rec,
                                In rec (pool_results net (completion jobs))
                                /\ r = new_row rec)).
Proof.
  rewrite main_spec.
  destruct (plan_jobs FORMATS CATEGORIES (loaded_master read_csv w)
                      (last_tuesday_ist utcoffset utcnow true)) as [jobs |];
    [| eexists; eexists; split; [reflexivity | now left]].
  destruct (is_empty jobs);
    [eexists; eexists; split; [reflexivity | now left] |].
  cbv zeta.
  destruct (is_empty (pool_results net (completion jobs)));
    [eexists; eexists; split; [reflexivity | now left] |].
  destruct (datetime_column w);
    [| eexists; eexists; split; [reflexivity | now left]].
  eexists. eexists. split; [reflexivity |]. right.
  exists jobs. eexists. split; [reflexivity |]. split; [reflexivity |].
  cbn [file]. split; [reflexivity |].
  split; [apply NoDup_merge |]. split; [apply merge_sorted |]. split.
  - intros r Hr. apply in_merge. now left.
  - intros r Hr. apply in_merge in Hr. destruct Hr as [Hr | Hr]; [now left |].
    right. apply in_map_iff in Hr. destruct Hr as (rec & <- & Hrec). eauto.
Qed.

End RunMore.

Lemma main_raises_on_undated_pair_witness :
  main kolkata noon_1971_01_06 (fun df => df) one_page_net (fun jobs => jobs)
       {| file := Some [ {| Date := None; Format := "test"; Category := "batting";
                            Rank := Txt "1"; Player := Txt "x"; Rating := Txt "1" |} ];
          log := [] |}
  = (Raised,
     {| file := Some [ {| Date := None; Format := "test"; Category := "batting";
                          Rank := Txt "1"; Player := Txt "x"; Rating := Txt "1" |} ];
        log := [Print LoadedExisting] |}).
Proof.
  refine (main_raises_on_undated_pair kolkata noon_1971_01_06 (fun df => df)
            one_page_net (fun jobs => jobs)
            {| file := Some [ {| Date := None; Format := "test";
                                 Category := "batting"; Rank := Txt "1";
                                 Player := Txt "x"; Rating := Txt "1" |} ];
               log := [] |} "test" "batting" _ _ _ _).
  - right. now left.
  - now left.
  - discriminate.
  - intros r [<- | []]. reflexivity.
Defined.

(** A run on the sample master, under the pandas that counts empty
    frames. *)
Lemma main_returns_when_dated_witness :
  exists w',
    @main pandas_3 default_order kolkata noon_1971_01_06 (fun df => df)
          one_page_net (fun jobs => jobs)
          {| file := Some sample_master; log := [] |} = (Ok tt, w').
Proof.
  apply (@main_returns_when_dated pandas_3 default_order kolkata
           noon_1971_01_06 (fun df => df) one_page_net (fun jobs => jobs)
           {| file := Some sample_master; log := [] |}).
  - intros r [<- | []]. discriminate.
  - left. discriminate.
Defined.

(** The run from nothing that fetches one page, under the pandas that
    counts empty frames. *)
Lemma main_fresh_raises_on_object_dates_witness :
  exists evs,
    @main pandas_3 default_order kolkata noon_1971_01_06 (fun df => df)
          one_page_net (fun jobs => jobs) {| file := None; log := [] |}
    = (Raised, {| file := None; log := evs |})
    /\ filter is_write evs = [].
Proof.
  eexists. split.
  - refine (@main_fresh_raises_on_object_dates pandas_3 default_order kolkata
              noon_1971_01_06 (fun df => df) one_page_net (fun jobs => jobs)
              {| file := None; log := [] |}
              (all_jobs FORMATS CATEGORIES [] (Calendar.ymd2ord 1971 1 5))
              _ _ _ _ _).
    + reflexivity.
    + reflexivity.
    + reflexivity.
    + vm_compute. discriminate.
    + vm_compute. discriminate.
  - vm_compute. reflexivity.
Defined.

(** ** More on the merge *)

Lemma filter_drop_duplicates_from (p : row -> bool) (seen df : frame) :
  filter p (drop_duplicates_from seen df)
  = drop_duplicates_from (filter p seen) (filter p df).
Proof.
  revert seen. induction df as [| r df IH]; intros seen; [reflexivity |].
  cbn [drop_duplicates_from filter].
  destruct (p r) eqn:Hp.
  - cbn [drop_duplicates_from].
    destruct (in_dec row_eq_dec r seen) as [Hin | Hout];
      destruct (in_dec row_eq_dec r (filter p seen)) as [Hin' | Hout'].
    + apply IH.
    + exfalso. apply Hout'. apply filter_In. auto.
    + exfalso. apply Hout. apply filter_In in Hin'. tauto.
    + cbn [filter]. rewrite Hp. f_equal. rewrite IH. cbn [filter].
      now rewrite Hp.
  - destruct (in_dec row_eq_dec r seen) as [Hin | Hout]; [apply IH |].
    cbn [filter]. rewrite Hp, IH. cbn [filter]. now rewrite Hp.
Qed.

Section MergeMore.

Context `{Pandas} `{ColumnOrder}.

Lemma same_key_refl (r : row) : same_key r r = true.
Proof.
  unfold same_key. now rewrite (cmp_refl _ key_compare_sym).
Qed.

Lemma same_key_sym (a b : row) : same_key a b = same_key b a.
Proof.
  unfold same_key. rewrite (key_compare_sym a b).
  now destruct (key_compare a b).
Qed.

Lemma key_le_antisym (a b : row) :
  key_le a b -> key_le b a -> same_key a b = true.
Proof.
  unfold key_le, key_leb, same_key. rewrite (key_compare_sym a b).
  destruct (key_compare a b); cbn; congruence.
Qed.

(** Rows of one sort key agree on Format, Category and Date. *)
Lemma same_key_columns (a b : row) :
  same_key a b = true ->
  Format a = Format b /\ Category a = Category b /\ Date a = Date b.
Proof.
  unfold same_key, key_compare.
  destruct (String.compare (Format a) (Format b)) eqn:Ef; cbn; try discriminate.
  destruct (String.compare (Category a) (Category b)) eqn:Ec; cbn;
    try discriminate.
  destruct (date_compare (Date a) (Date b)) eqn:Ed; cbn; try discriminate.
  intros _. apply String.compare_eq_iff in Ef, Ec.
  split; [exact Ef |]. split; [exact Ec |].
  destruct (Date a) as [x |], (Date b) as [y |]; cbn in Ed;
    try discriminate; [| reflexivity].
  apply Z.compare_eq_iff in Ed. now subst.
Qed.

(** Two sorted frames with the same rows of each key, in the same order,
    are equal: the stable sort of a frame is unique. *)
Lemma sorted_by_keys_unique (s1 s2 : frame) :
  StronglySorted key_le s1 -> StronglySorted key_le s2 ->
  (forall r0, filter (same_key r0) s1 = filter (same_key r0) s2) ->
  s1 = s2.
Proof.
  intros Hs1. revert s2.
  induction Hs1 as [| x s1 Hs1 IH Hx]; intros s2 Hs2 Hkeys.
  - destruct s2 as [| y s2]; [reflexivity |].
    specialize (Hkeys y). cbn in Hkeys. rewrite same_key_refl in Hkeys.
    discriminate.
  - destruct s2 as [| y s2].
    + specialize (Hkeys x). cbn in Hkeys. rewrite same_key_refl in Hkeys.
      discriminate.
    + inversion Hs2 as [| ? ? Hs2' Hy]; subst.
      assert (Hxy : x = y).
      { pose proof (Hkeys x) as Kx. pose proof (Hkeys y) as Ky.
        cbn [filter] in Kx, Ky.
        rewrite same_key_refl in Kx, Ky.
        destruct (same_key x y) eqn:Exy.
        - now injection Kx.
        - exfalso. rewrite same_key_sym, Exy in Ky.
          assert (Hin_x : In x s2).
          { assert (Hi : In x (filter (same_key x) s2))
              by (rewrite <- Kx; now left).
            apply filter_In in Hi. tauto. }
          assert (Hin_y : In y s1).
          { assert (Hi : In y (filter (same_key y) s1))
              by (rewrite Ky; now left).
            apply filter_In in Hi. tauto. }
          rewrite Forall_forall in Hx, Hy.
          pose proof (key_le_antisym x y (Hx y Hin_y) (Hy x Hin_x)).
          congruence. }
      subst y. f_equal. apply IH; [exact Hs2' |].
      intros r0. specialize (Hkeys r0). cbn [filter] in Hkeys.
      destruct (same_key r0 x); [now injection Hkeys | exact Hkeys].
Qed.

Lemma sort_values_unique (l1 l2 : frame) :
  (forall r0, filter (same_key r0) l1 = filter (same_key r0) l2) ->
  sort_values l1 = sort_values l2.
Proof.
  intros Hkeys.
  apply sorted_by_keys_unique; try apply sort_values_sorted.
  intros r0. now rewrite !sort_values_stable.
Qed.

(** X12.  Merging rows the master already has, into a master without
    duplicates, adds nothing: the result has the rows of the master and as
    many; when the master is sorted, the result is the master itself. *)
Theorem merge_known_rows (df_master new_df : frame) :
  NoDup df_master ->
  (forall r, In r new_df -> In r df_master) ->
  Permutation (merge df_master new_df) df_master
  /\ List.length (merge df_master new_df) = List.length df_master
  /\ (StronglySorted key_le df_master -> merge df_master new_df = df_master).
Proof.
  intros Hnd Hnew.
  assert (E : drop_duplicates (df_master ++ new_df) = df_master)
    by (unfold drop_duplicates; apply drop_duplicates_from_absorb; auto).
  unfold merge. cbv zeta. rewrite E. split; [apply sort_values_perm |].
  split; [apply Permutation_length, sort_values_perm |].
  apply sort_values_fixed.
Qed.

(** X13.  The merge is stable: the rows of one sort key (Format, Category,
    Date, Rank) stand in the result as in the master followed by the
    batch, a row that occurred before left out. *)
Theorem merge_stable (df_master new_df : frame) (r0 : row) :
  filter (same_key r0) (merge df_master new_df)
  = drop_duplicates (filter (same_key r0) df_master
                     ++ filter (same_key r0) new_df).
Proof.
  unfold merge. cbv zeta. rewrite sort_values_stable.
  unfold drop_duplicates. rewrite filter_drop_duplicates_from.
  now rewrite filter_app.
Qed.

(** X14.  The last date of a pair never moves back in a merge.  Let the
    pair have a last date [W] in the master: the greatest date of its rows,
    or the sentinel 1970-12-31 when it has no row, and then let the new
    rows of the pair have dates not before the sentinel, as the rows of
    planned jobs do.  Then the pair has a last date in the merged frame,
    and this is not before [W]. *)
Theorem merge_watermark_monotone (df_master new_df : frame) (fmt cat : string)
        (W : Z) :
  last_date df_master fmt cat = Some W ->
  df_sub df_master fmt cat <> []
  \/ (forall r, In r (df_sub new_df fmt cat) ->
                 exists d, Date r = Some d /\ W <= d) ->
  exists W', last_date (merge df_master new_df) fmt cat = Some W' /\ W <= W'.
Proof.
  intros Hlast Hnew.
  destruct (df_sub df_master fmt cat) as [| r1 sub1] eqn:Hsub.
  - destruct Hnew as [Hne | Hnew]; [congruence |].
    destruct (df_sub (merge df_master new_df) fmt cat) as [| r0 sub] eqn:Hmerged.
    + exists W. split; [| lia].
      rewrite (last_date_fresh _ _ _ Hmerged).
      now rewrite (last_date_fresh _ _ _ Hsub) in Hlast.
    + assert (Hr0 : In r0 (df_sub (merge df_master new_df) fmt cat))
        by (rewrite Hmerged; now left).
      assert (Hr0' : In r0 (df_sub new_df fmt cat)).
      { apply in_df_sub in Hr0. destruct Hr0 as (Hin & Hf & Hc).
        apply in_merge in Hin. destruct Hin as [Hin | Hin].
        - exfalso. assert (Hin' : In r0 (df_sub df_master fmt cat))
            by (apply in_df_sub; tauto).
          rewrite Hsub in Hin'. contradiction.
        - apply in_df_sub. tauto. }
      destruct (Hnew r0 Hr0') as (d & Hd & Hle).
      destruct (last_date_watermark (merge df_master new_df) fmt cat)
        as (W' & HW' & [[Hnil _] | [_ Hmax]]).
      * right. exists r0. split; [exact Hr0 | congruence].
      * rewrite Hnil in Hmerged. discriminate.
      * exists W'. split; [exact HW' |].
        apply in_df_sub in Hr0. destruct Hr0 as (Hin & Hf & Hc).
        pose proof (Hmax r0 d Hin Hf Hc Hd). lia.
  - assert (Hne : df_sub df_master fmt cat <> []) by (rewrite Hsub; discriminate).
    destruct (last_date_is_max _ _ _ _ Hne Hlast) as [(r & Hr & Hf & Hc & Hd) _].
    assert (Hin : In r (df_sub (merge df_master new_df) fmt cat)).
    { apply in_df_sub. split; [| tauto]. apply in_merge. now left. }
    destruct (last_date (merge df_master new_df) fmt cat) as [W' |] eqn:E.
    + exists W'. split; [reflexivity |].
      assert (Hne' : df_sub (merge df_master new_df) fmt cat <> [])
        by (intros Hnil; rewrite Hnil in Hin; contradiction).
      destruct (last_date_is_max _ _ _ _ Hne' E) as [_ Hmax].
      apply in_df_sub in Hin. apply (Hmax r W); tauto.
    + exfalso. apply last_date_None_iff in E. destruct E as [_ Hall].
      rewrite (Hall r Hin) in Hd. discriminate.
Qed.

(** X15.  Once a job of the cutoff date has brought a record, the pair is
    covered: planned again with the same cutoff on the merged frame, the
    pair gets no job.  The cutoff lies from 1677-09-22 to 2262-04-11, the
    dates a datetime column holds under every pandas. *)
Theorem covered_after_fetch (df_master : frame) (results : list (list string))
        (cutoff : Z) (fmt cat : string) (rank player rating : string) :
  timestamp_date cutoff ->
  In [Calendar.strftime cutoff; fmt; cat; rank; player; rating] results ->
  pair_jobs (merge df_master (map new_row results)) cutoff fmt cat = Some [].
Proof.
  intros Hd Hrec.
  set (merged := merge df_master (map new_row results)).
  set (r := new_row [Calendar.strftime cutoff; fmt; cat; rank; player; rating]).
  assert (Hdate : Date r = Some cutoff)
    by (unfold r; cbn [new_row Date nth]; now apply strftime_read_back).
  assert (Hin : In r (df_sub merged fmt cat)).
  { apply in_df_sub. split; [| split; reflexivity].
    apply in_merge. right. now apply in_map. }
  assert (Hne : df_sub merged fmt cat <> [])
    by (intros Hnil; rewrite Hnil in Hin; contradiction).
  unfold pair_jobs.
  destruct (last_date merged fmt cat) as [W |] eqn:E.
  - destruct (last_date_is_max _ _ _ _ Hne E) as [_ Hmax].
    apply in_df_sub in Hin.
    assert (Hle : cutoff <= W) by (apply (Hmax r cutoff); tauto).
    apply Z.leb_le in Hle. now rewrite Hle.
  - exfalso. apply last_date_None_iff in E. destruct E as [_ Hall].
    rewrite (Hall r Hin) in Hdate. discriminate.
Qed.

End MergeMore.

(** ** The order in which the workers finish *)

Lemma run_worker_rows_tagged `{Pandas} (net : network) (d : Z) (fmt cat : string)
      (rec : list string) :
  In rec (fst (run_worker net (d, fmt, cat))) ->
  Format (new_row rec) = fmt /\ Category (new_row rec) = cat
  /\ Date (new_row rec) = to_datetime (Calendar.strftime d).
Proof.
  unfold run_worker. rewrite scrape_date_spec.
  destruct (first_page net _ _ MAX_RETRIES) as [[k rows] |]; cbn [fst];
    [| contradiction].
  intros Hrec. apply in_scraped_rows in Hrec.
  destruct Hrec as (row & _ & _ & ->). repeat split.
Qed.

Lemma map_flat_map {A B C : Type} (f : B -> C) (g : A -> list B) (l : list A) :
  map f (flat_map g l) = flat_map (fun a => map f (g a)) l.
Proof.
  induction l as [| a l IH]; [reflexivity |].
  cbn [flat_map]. now rewrite map_app, IH.
Qed.

Lemma filter_flat_map {A B : Type} (p : B -> bool) (g : A -> list B)
      (l : list A) :
  filter p (flat_map g l) = flat_map (fun a => filter p (g a)) l.
Proof.
  induction l as [| a l IH]; [reflexivity |].
  cbn [flat_map]. now rewrite filter_app, IH.
Qed.

Lemma flat_map_nil {A B : Type} (g : A -> list B) (l : list A) :
  (forall a, In a l -> g a = []) -> flat_map g l = [].
Proof.
  induction l as [| a l IH]; intros Hnil; [reflexivity |].
  cbn [flat_map]. rewrite (Hnil a) by now left.
  apply IH. intros b Hb. apply Hnil. now right.
Qed.

(** When one element only of a list without duplicates gives anything, the
    whole list gives what that element gives. *)
Lemma flat_map_single {A B : Type} (g : A -> list B) (l : list A) (a0 : A) :
  NoDup l -> In a0 l ->
  (forall a, In a l -> a <> a0 -> g a = []) ->
  flat_map g l = g a0.
Proof.
  induction l as [| a l IH]; intros Hnd Hin Hothers; [contradiction |].
  inversion Hnd as [| ? ? Ha Hnd']; subst. cbn [flat_map].
  destruct Hin as [-> | Hin].
  - rewrite flat_map_nil; [apply app_nil_r |].
    intros b Hb. apply Hothers; [now right |]. intros ->. contradiction.
  - rewrite (Hothers a) by (now left || (intros ->; contradiction)).
    apply IH; [exact Hnd' | exact Hin |].
    intros b Hb. apply Hothers. now right.
Qed.

Lemma is_empty_perm {A : Type} (l l' : list A) :
  Permutation l l' -> is_empty l = is_empty l'.
Proof.
  intros Hp. destruct l as [| a l], l' as [| b l']; try reflexivity.
  - apply Permutation_nil in Hp. discriminate.
  - symmetry in Hp. apply Permutation_nil in Hp. discriminate.
Qed.

Lemma plan_jobs_Some (formats categories : list string) (df_master : frame)
      (end_date : Z) (jobs : list job) :
  plan_jobs formats categories df_master end_date = Some jobs ->
  jobs = all_jobs formats categories df_master end_date.
Proof.
  intros Hplan.
  assert (Hdef : forall fmt cat, In fmt formats -> In cat categories ->
                                 last_date df_master fmt cat <> None).
  { intros fmt cat Hf Hc Hnone.
    rewrite (plan_jobs_raises _ _ _ _ fmt cat Hf Hc Hnone) in Hplan.
    discriminate. }
  rewrite (plan_jobs_defined _ _ _ _ Hdef) in Hplan. congruence.
Qed.

Section Completion.

Context `{Pandas} `{ColumnOrder}.
Variable net : network.

(** The rows of a key that the jobs bring do not depend on the order of
    the jobs: they all come from one job. *)
Lemma key_rows_of_jobs (r0 : row) (finished1 finished2 : list job) :
  NoDup finished1 -> Permutation finished1 finished2 ->
  (forall j, In j finished1 -> timestamp_date (fst (fst j))) ->
  filter (same_key r0) (map new_row (pool_results net finished1))
  = filter (same_key r0) (map new_row (pool_results net finished2)).
Proof.
  intros Hnd Hperm Hdates.
  assert (Hnd2 : NoDup finished2) by (eapply Permutation_NoDup; eassumption).
  unfold pool_results. rewrite !map_flat_map, !filter_flat_map.
  set (g := fun j : job =>
              filter (same_key r0) (map new_row (fst (run_worker net j)))).
  assert (Hother : forall j d0,
             timestamp_date (fst (fst j)) ->
             Date r0 = Some d0 -> j <> (d0, Format r0, Category r0) ->
             g j = []).
  { intros [[d fmt] cat] d0 Hd Hr0 Hne. unfold g.
    destruct (filter (same_key r0) (map new_row (fst (run_worker net (d, fmt, cat)))))
      as [| r rest] eqn:E; [reflexivity | exfalso].
    assert (Hr : In r (filter (same_key r0)
                               (map new_row (fst (run_worker net (d, fmt, cat))))))
      by (rewrite E; now left).
    apply filter_In in Hr. destruct Hr as [Hr Hkey].
    apply in_map_iff in Hr. destruct Hr as (rec & <- & Hrec).
    apply run_worker_rows_tagged in Hrec. destruct Hrec as (Hf & Hc & Hdt).
    cbn [fst] in Hd. rewrite (strftime_read_back d Hd) in Hdt.
    apply same_key_columns in Hkey. destruct Hkey as (Kf & Kc & Kd).
    apply Hne. rewrite Kf, Kc, Hf, Hc. rewrite Kd, Hdt in Hr0. congruence. }
  assert (Hundated : forall j,
             timestamp_date (fst (fst j)) -> Date r0 = None -> g j = []).
  { intros [[d fmt] cat] Hd Hr0. unfold g.
    destruct (filter (same_key r0) (map new_row (fst (run_worker net (d, fmt, cat)))))
      as [| r rest] eqn:E; [reflexivity | exfalso].
    assert (Hr : In r (filter (same_key r0)
                               (map new_row (fst (run_worker net (d, fmt, cat))))))
      by (rewrite E; now left).
    apply filter_In in Hr. destruct Hr as [Hr Hkey].
    apply in_map_iff in Hr. destruct Hr as (rec & <- & Hrec).
    apply run_worker_rows_tagged in Hrec. destruct Hrec as (_ & _ & Hdt).
    cbn [fst] in Hd. rewrite (strftime_read_back d Hd) in Hdt.
    apply same_key_columns in Hkey. destruct Hkey as (_ & _ & Kd).
    congruence. }
  assert (Hdates2 : forall j, In j finished2 -> timestamp_date (fst (fst j))).
  { intros j Hj. apply Hdates. eapply Permutation_in; [symmetry |]; eassumption. }
  destruct (Date r0) as [d0 |] eqn:Hr0.
  - destruct (in_dec job_eq_dec (d0, Format r0, Category r0) finished1)
      as [Hin | Hout].
    + rewrite (flat_map_single g finished1 _ Hnd Hin)
        by (intros j Hj Hne; apply (Hother j d0); auto).
      rewrite (flat_map_single g finished2 _ Hnd2
                               (Permutation_in _ Hperm Hin))
        by (intros j Hj Hne; apply (Hother j d0); auto).
      reflexivity.
    + rewrite !flat_map_nil; [reflexivity | |].
      * intros j Hj. apply (Hother j d0); auto.
        intros ->. apply Hout. eapply Permutation_in; [symmetry |]; eassumption.
      * intros j Hj. apply (Hother j d0); auto. intros ->. contradiction.
  - rewrite !flat_map_nil; auto.
Qed.

Lemma merge_of_jobs_order (df_master : frame)
      (finished1 finished2 : list job) :
  NoDup finished1 -> Permutation finished1 finished2 ->
  (forall j, In j finished1 -> timestamp_date (fst (fst j))) ->
  merge df_master (map new_row (pool_results net finished1))
  = merge df_master (map new_row (pool_results net finished2)).
Proof.
  intros Hnd Hperm Hdates. unfold merge. cbv zeta.
  apply sort_values_unique. intros r0. unfold drop_duplicates.
  rewrite !filter_drop_duplicates_from, !filter_app.
  now rewrite (key_rows_of_jobs r0 finished1 finished2).
Qed.

(** X16.  The merged frame does not depend on the order in which the
    workers finish: for jobs that are all different and have dates from
    1677-09-22 to 2262-04-11 (the dates a datetime column holds under every
    pandas), two orders of completion give new rows that are a
    rearrangement of each other, and the same merged frame, row for row. *)
Theorem merge_order_independent (df_master : frame)
        (finished1 finished2 : list job) :
  NoDup finished1 -> Permutation finished1 finished2 ->
  (forall j, In j finished1 -> timestamp_date (fst (fst j))) ->
  Permutation (map new_row (pool_results net finished1))
              (map new_row (pool_results net finished2))
  /\ merge df_master (map new_row (pool_results net finished1))
     = merge df_master (map new_row (pool_results net finished2)).
Proof.
  intros Hnd Hperm Hdates. split.
  - apply Permutation_map. unfold pool_results.
    now apply Permutation_flat_map.
  - now apply merge_of_jobs_order.
Qed.

Variable utcoffset : Z -> Z.
Variable utcnow : Z.
Variable read_csv : frame -> frame.

(** X17.  A run ends the same way and leaves the same stored table
    whatever the order in which the workers finish, when the planned jobs
    have dates from 1677-09-22 to 2262-04-11 (the dates a datetime column
    holds under every pandas). *)
Theorem main_completion_independent (w : world) (jobs : list job)
        (completion1 completion2 : list job -> list job) :
  plan_jobs FORMATS CATEGORIES (loaded_master read_csv w)
            (last_tuesday_ist utcoffset utcnow true) = Some jobs ->
  (forall j, In j jobs -> timestamp_date (fst (fst j))) ->
  Permutation (completion1 jobs) jobs ->
  Permutation (completion2 jobs) jobs ->
  fst (main utcoffset utcnow read_csv net completion1 w)
  = fst (main utcoffset utcnow read_csv net completion2 w)
  /\ file (snd (main utcoffset utcnow read_csv net completion1 w))
     = file (snd (main utcoffset utcnow read_csv net completion2 w)).
Proof.
  intros Hplan Hdates Hp1 Hp2.
  assert (Hnd : NoDup jobs).
  { rewrite (plan_jobs_Some _ _ _ _ _ Hplan).
    apply NoDup_all_jobs; [apply NoDup_FORMATS | apply NoDup_CATEGORIES]. }
  assert (Hnd1 : NoDup (completion1 jobs))
    by (eapply Permutation_NoDup; [symmetry |]; eassumption).
  assert (Hp12 : Permutation (completion1 jobs) (completion2 jobs))
    by (etransitivity; [exact Hp1 | now symmetry]).
  assert (Hd1 : forall j, In j (completion1 jobs) -> timestamp_date (fst (fst j)))
    by (intros j Hj; apply Hdates; exact (Permutation_in j Hp1 Hj)).
  rewrite !main_spec, Hplan.
  destruct (is_empty jobs); [split; reflexivity |]. cbv zeta.
  rewrite (is_empty_perm (pool_results net (completion1 jobs))
                         (pool_results net (completion2 jobs)))
    by (unfold pool_results; now apply Permutation_flat_map).
  destruct (is_empty (pool_results net (completion2 jobs)));
    [split; reflexivity |].
  destruct (datetime_column w); [| split; reflexivity].
  cbn [fst snd file]. split; [reflexivity |]. f_equal.
  now apply merge_of_jobs_order.
Qed.

End Completion.

Lemma merge_known_rows_witness :
  Permutation (merge sample_master sample_master) sample_master
  /\ List.length (merge sample_master sample_master) = List.length sample_master
  /\ (StronglySorted key_le sample_master ->
      merge sample_master sample_master = sample_master).
Proof.
  apply (merge_known_rows sample_master sample_master).
  - repeat constructor. intros [].
  - intros r Hr. exact Hr.
Defined.

(** The sample master, and the empty master, merged with a row of
    1971-01-05 for (odi, batting). *)
Lemma merge_watermark_monotone_witness :
  (exists W',
      last_date (merge sample_master
                       (map new_row [["1971/01/05"; "odi"; "batting";
                                      "1"; "G Boycott"; "885"]]))
                "odi" "batting" = Some W'
      /\ Calendar.ymd2ord 1971 1 3 <= W')
  /\ (exists W',
         last_date (merge []
                          (map new_row [["1971/01/05"; "odi"; "batting";
                                         "1"; "G Boycott"; "885"]]))
                   "odi" "batting" = Some W'
         /\ Calendar.ymd2ord 1970 12 31 <= W').
Proof.
  split.
  - apply (merge_watermark_monotone sample_master _ "odi" "batting"
                                    (Calendar.ymd2ord 1971 1 3)).
    + reflexivity.
    + left. discriminate.
  - apply (merge_watermark_monotone [] _ "odi" "batting"
                                    (Calendar.ymd2ord 1970 12 31)).
    + reflexivity.
    + right. intros r [<- | []]. eexists. split; [reflexivity |].
      vm_compute. discriminate.
Defined.

Lemma covered_after_fetch_witness :
  pair_jobs (merge [] (map new_row
                           [[Calendar.strftime (Calendar.ymd2ord 1971 1 5);
                             "odi"; "batting"; "1"; "G Boycott"; "880"]]))
            (Calendar.ymd2ord 1971 1 5) "odi" "batting"
  = Some [].
Proof.
  apply (covered_after_fetch [] _ (Calendar.ymd2ord 1971 1 5) "odi" "batting"
                             "1" "G Boycott" "880").
  - unfold timestamp_date. vm_compute. split; discriminate.
  - now left.
Defined.

Lemma merge_order_independent_witness :
  Permutation
    (map new_row (pool_results one_page_net
                    [(Calendar.ymd2ord 1971 1 4, "odi", "batting");
                     (Calendar.ymd2ord 1971 1 5, "odi", "batting")]))
    (map new_row (pool_results one_page_net
                    [(Calendar.ymd2ord 1971 1 5, "odi", "batting");
                     (Calendar.ymd2ord 1971 1 4, "odi", "batting")]))
  /\ merge sample_master
           (map new_row (pool_results one_page_net
                           [(Calendar.ymd2ord 1971 1 4, "odi", "batting");
                            (Calendar.ymd2ord 1971 1 5, "odi", "batting")]))
     = merge sample_master
             (map new_row (pool_results one_page_net
                             [(Calendar.ymd2ord 1971 1 5, "odi", "batting");
                              (Calendar.ymd2ord 1971 1 4, "odi", "batting")])).
Proof.
  apply (merge_order_independent one_page_net sample_master).
  - repeat constructor; cbn; intuition discriminate.
  - apply perm_swap.
  - intros j [<- | [<- | []]]; unfold timestamp_date; vm_compute;
      split; discriminate.
Defined.

Lemma main_completion_independent_witness :
  fst (main kolkata noon_1971_01_06 (fun df => df) one_page_net
            (fun jobs => jobs) {| file := None; log := [] |})
  = fst (main kolkata noon_1971_01_06 (fun df => df) one_page_net
              (@rev job) {| file := None; log := [] |})
  /\ file (snd (main kolkata noon_1971_01_06 (fun df => df) one_page_net
                     (fun jobs => jobs) {| file := None; log := [] |}))
     = file (snd (main kolkata noon_1971_01_06 (fun df => df) one_page_net
                       (@rev job) {| file := None; log := [] |})).
Proof.
  apply (main_completion_independent
           one_page_net kolkata noon_1971_01_06 (fun df => df)
           {| file := None; log := [] |}
           (all_jobs FORMATS CATEGORIES [] (Calendar.ymd2ord 1971 1 5))
           (fun jobs => jobs) (@rev job)).
  - reflexivity.
  - intros [[d fmt] cat] Hj. apply in_all_jobs in Hj. cbn [fst snd] in *.
    destruct Hj as (_ & _ & Hj).
    apply (in_pair_jobs [] _ fmt cat (Calendar.ymd2ord 1970 12 31)) in Hj;
      [| reflexivity].
    destruct Hj as (d' & E & Hd). injection E as <-.
    unfold timestamp_date.
    change (Calendar.ymd2ord 1970 12 31) with 719527 in Hd.
    change (Calendar.ymd2ord 1971 1 5) with 719532 in Hd.
    unfold TIMESTAMP_FIRST, TIMESTAMP_LAST. lia.
  - reflexivity.
  - symmetry. apply Permutation_rev.
Defined.

(** ** The texts of the cells *)














(** The non-breaking space U+00A0 and the em space U+2003 are stripped as
    the space is; the letter U+00E0, whose second byte is that of U+00A0,
    is kept whole. *)
Example strip_unicode_spaces :
  strip (utf8 [194; 160]%nat ++ " 1 " ++ utf8 [226; 128; 131]%nat)%string = "1"
  /\ strip (" " ++ utf8 [195; 160]%nat ++ " ")%string = utf8 [195; 160]%nat
  /\ get_text_strip
       (td (utf8 [194; 160]%nat ++ "G Boycott" ++ utf8 [194; 160]%nat)%string)
     = "G Boycott".
Proof. repeat split; reflexivity. Qed.


(** ** Pages with one table *)

Lemma node_forall_ind (P : node -> Prop) :
  (forall s, P (Text s)) ->
  (forall tag children, Forall P children -> P (Elem tag children)) ->
  forall n, P n.
Proof.
  intros Htext Helem. fix IH 1. intros [s | tag children].
  - apply Htext.
  - apply Helem. induction children as [| k rest IHrest]; constructor.
    + apply IH.
    + exact IHrest.
Qed.

Lemma flat_map_ext_in {A B : Type} (f g : A -> list B) (l : list A) :
  Forall (fun a => f a = g a) l -> flat_map f l = flat_map g l.
Proof.
  induction 1 as [| a l Ha Hl IH]; [reflexivity |].
  cbn [flat_map]. now rewrite Ha, IH.
Qed.

Lemma flat_map_nil_inv {A B : Type} (g : A -> list B) (l : list A) :
  flat_map g l = [] -> forall a, In a l -> g a = [].
Proof.
  induction l as [| x l IH]; intros Hnil a Ha; [contradiction |].
  cbn [flat_map] in Hnil. apply app_eq_nil in Hnil. destruct Hnil as [Hx Hl].
  destruct Ha as [<- | Ha]; [exact Hx | now apply IH].
Qed.

(** Below a table, the selected rows are all the [tr] elements. *)
Lemma select_inside_table (n : node) :
  select_table_tr true n = find_all "tr" n.
Proof.
  induction n as [s | tag children IH] using node_forall_ind; [reflexivity |].
  cbn [select_table_tr find_all orb andb].
  apply flat_map_ext_in. eapply Forall_impl; [| exact IH].
  intros k Hk. cbn beta. now rewrite Hk.
Qed.

Lemma select_of_table (tag : string) (children : list node) :
  String.eqb tag "table" = true ->
  select_table_tr false (Elem tag children) = find_all "tr" (Elem tag children).
Proof.
  intros Htag. cbn [select_table_tr find_all]. rewrite Htag. cbn [orb andb].
  apply flat_map_ext_in. apply Forall_forall. intros k _.
  now rewrite select_inside_table.
Qed.

(** Outside of any table nothing is selected. *)
Lemma select_without_table (n : node) :
  is_elem "table" n = false -> find_all "table" n = [] ->
  select_table_tr false n = [].
Proof.
  induction n as [s | tag children IH] using node_forall_ind; [reflexivity |].
  cbn [is_elem]. intros Htag Hnone.
  cbn [select_table_tr find_all] in *. rewrite Htag. cbn [orb andb].
  apply flat_map_nil. intros k Hk. cbn [app].
  rewrite Forall_forall in IH.
  pose proof (flat_map_nil_inv _ _ Hnone k Hk) as Hk'. cbn beta in Hk'.
  destruct (is_elem "table" k) eqn:E; [discriminate |].
  apply IH; [exact Hk | exact E | exact Hk'].
Qed.

Lemma select_single_table (n t : node) :
  is_elem "table" n = false -> find_all "table" n = [t] ->
  select_table_tr false n = find_all "tr" t.
Proof.
  revert t. induction n as [s | tag children IH] using node_forall_ind;
    intros t; [discriminate |].
  cbn [is_elem]. intros Htag Hone.
  cbn [select_table_tr find_all] in *. rewrite Htag. cbn [orb andb].
  clear Htag. revert t Hone.
  induction IH as [| k rest Hk Hrest IHrest]; intros t Hone; [discriminate |].
  cbn [flat_map app] in *.
  assert (Hquiet : forall k',
             (if is_elem "table" k' then [k'] else []) ++ find_all "table" k' = [] ->
             select_table_tr false k' = []).
  { intros k' Hk'. destruct (is_elem "table" k') eqn:E; [discriminate |].
    now apply select_without_table. }
  apply app_eq_unit in Hone. destruct Hone as [[Hnil Hone] | [Hone Hnil]].
  - rewrite (Hquiet k Hnil). cbn [app]. now apply IHrest.
  - rewrite (flat_map_nil (fun k' => select_table_tr false k') rest)
      by (intros k' Hk'; apply Hquiet; exact (flat_map_nil_inv _ _ Hnil k' Hk')).
    rewrite app_nil_r.
    destruct (is_elem "table" k) eqn:E.
    + cbn [app] in Hone. injection Hone as -> _.
      destruct t as [s | tag' children']; [discriminate |].
      now apply select_of_table.
    + now apply Hk.
Qed.

(** X19.  On a page without a table no row is selected, and on a page with
    one table the selected rows are the [tr] elements of that table: the
    rows taken are then those of the first table, the first of them left
    out and at most 100 kept. *)
Theorem single_table_rows (soup : node) :
  is_elem "table" soup = false ->
  (find_all "table" soup = [] ->
   page_rows (ok_response soup) = Some [])
  /\ (forall t, find_all "table" soup = [t] ->
                select_table_tr false soup = find_all "tr" t
                /\ page_rows (ok_response soup) = Some (first_table_rows soup)).
Proof.
  intros Hroot. split.
  - intros Hnone. cbn. now rewrite select_without_table.
  - intros t Hone.
    pose proof (select_single_table soup t Hroot Hone) as E.
    split; [exact E |]. cbn. unfold first_table_rows. now rewrite Hone, E.
Qed.

Lemma single_table_rows_witness :
  page_rows (ok_response ranking_page) = Some (first_table_rows ranking_page).
Proof.
  apply (proj2 (single_table_rows ranking_page eq_refl)
               (nth 0 (find_all "table" ranking_page) (Text ""))).
  reflexivity.
Defined.

(** ** What a run requests and writes *)

Lemma pool_events_of_jobs (net : network) (finished : list job) (e : event) :
  In e (pool_events net finished) ->
  e = Sleep 1
  \/ exists j, In j finished
               /\ e = Request (job_url (fst (fst j)) (snd (fst j)) (snd j)) 10.
Proof.
  unfold pool_events. rewrite in_flat_map. intros (j & Hj & He).
  destruct (run_worker_spec net j) as (res & n & E). rewrite E in He.
  cbn [snd] in He.
  destruct (proj1 (attempts_trace_events net _ 0 n) e He) as [-> | ->];
    [right; eauto | now left].
Qed.

Section RunEvents.

Context `{Pandas} `{ColumnOrder}.
Variable utcoffset : Z -> Z.
Variable utcnow : Z.
Variable read_csv : frame -> frame.
Variable net : network.
Variable completion : list job -> list job.

(** X20.  A run writes at most once, to [OUTPUT_FILE], and after all other
    events but its last line of output; the stored table changes only by
    that write, and is then the frame written. *)
Theorem main_writes_at_most_once (w : world) :
  exists res w' evs,
    main utcoffset utcnow read_csv net completion w = (res, w')
    /\ log w' = log w ++ evs
    /\ ((filter is_write evs = [] /\ file w' = file w)
        \/ exists before combined,
             evs = before
                   ++ [ToCsv OUTPUT_FILE combined;
                       Print (Updated OUTPUT_FILE (List.length combined))]
             /\ filter is_write before = []
             /\ file w' = Some combined).
Proof.
  assert (Hquiet : forall l, (forall e, In e l -> is_write e = false) ->
                             filter is_write l = []).
  { induction l as [| e l IH]; intros Hl; [reflexivity |].
    cbn [filter]. rewrite (Hl e) by now left.
    apply IH. intros e' He'. apply Hl. now right. }
  rewrite main_spec.
  destruct (plan_jobs FORMATS CATEGORIES (loaded_master read_csv w)
                      (last_tuesday_ist utcoffset utcnow true)) as [jobs |].
  - destruct (is_empty jobs).
    + eexists. eexists. eexists. split; [reflexivity |].
      split; [reflexivity |]. left. split; reflexivity.
    + cbv zeta. destruct (is_empty (pool_results net (completion jobs))).
      * eexists. eexists. eexists. split; [reflexivity |]. cbn [log file].
        rewrite <- app_assoc. split; [reflexivity |]. left.
        split; [| reflexivity]. apply Hquiet. intros e He.
        cbn [app] in He. destruct He as [<- | [<- | He]]; try reflexivity.
        apply in_app_or in He. destruct He as [He | [<- | []]]; [| reflexivity].
        eapply pool_events_no_write. exact He.
      * set (combined := merge (loaded_master read_csv w)
                               (map new_row (pool_results net (completion jobs)))).
        set (before := [Print (load_message w); Print (Scraping (List.length jobs))]
                       ++ pool_events net (completion jobs)
                       ++ [Print (NewRows (List.length
                                   (map new_row (pool_results net (completion jobs)))))]).
        assert (Hbefore : filter is_write before = []).
        { apply Hquiet. intros e He. unfold before in He.
          cbn [app] in He. destruct He as [<- | [<- | He]]; try reflexivity.
          apply in_app_or in He. destruct He as [He | [<- | []]]; [| reflexivity].
          eapply pool_events_no_write. exact He. }
        destruct (datetime_column w).
        -- eexists. eexists.
           exists (before ++ [ToCsv OUTPUT_FILE combined;
                              Print (Updated OUTPUT_FILE (List.length combined))]).
           split; [reflexivity |]. cbn [log file]. split.
           ++ unfold before. now rewrite <- !app_assoc.
           ++ right. exists before, combined. split; [reflexivity |].
              split; [exact Hbefore | reflexivity].
        -- eexists. eexists. exists before.
           split; [reflexivity |]. cbn [log file]. split.
           ++ unfold before. now rewrite <- !app_assoc.
           ++ left. split; [exact Hbefore | reflexivity].
  - eexists. eexists. eexists. split; [reflexivity |].
    split; [reflexivity |]. left. split; reflexivity.
Qed.

(** X21.  Every request of a run is for a planned job, to the URL of the
    job with a timeout of 10 seconds, provided the jobs that finish are
    among the planned ones; a run that plans nothing requests nothing. *)
Theorem main_requests_planned_jobs (w : world) :
  (forall jobs j, In j (completion jobs) -> In j jobs) ->
  exists res w' evs jobs,
    main utcoffset utcnow read_csv net completion w = (res, w')
    /\ log w' = log w ++ evs
    /\ (forall url timeout,
           In (Request url timeout) evs ->
           timeout = 10
           /\ plan_jobs FORMATS CATEGORIES (loaded_master read_csv w)
                        (last_tuesday_ist utcoffset utcnow true) = Some jobs
           /\ exists d fmt cat,
                In (d, fmt, cat) jobs /\ url = job_url d fmt cat).
Proof.
  intros Hsub. rewrite main_spec.
  destruct (plan_jobs FORMATS CATEGORIES (loaded_master read_csv w)
                      (last_tuesday_ist utcoffset utcnow true)) as [jobs |].
  - assert (Hreq : forall url timeout,
               In (Request url timeout) (pool_events net (completion jobs)) ->
               timeout = 10
               /\ Some jobs = Some jobs
               /\ exists d fmt cat,
                    In (d, fmt, cat) jobs /\ url = job_url d fmt cat).
    { intros url timeout He. apply pool_events_of_jobs in He.
      destruct He as [He | ([[d fmt] cat] & Hj & He)]; [discriminate |].
      injection He as -> ->. split; [reflexivity |]. split; [reflexivity |].
      exists d, fmt, cat. split; [now apply Hsub | reflexivity]. }
    destruct (is_empty jobs).
    + eexists. eexists. eexists. exists jobs. split; [reflexivity |].
      split; [reflexivity |].
      intros url timeout [He | [He | []]]; discriminate.
    + cbv zeta. destruct (is_empty (pool_results net (completion jobs))).
      * eexists. eexists. eexists. exists jobs. split; [reflexivity |].
        cbn [log]. rewrite <- app_assoc. split; [reflexivity |].
        intros url timeout He. cbn [app] in He.
        destruct He as [He | [He | He]]; try discriminate.
        apply in_app_or in He. destruct He as [He | [He | []]];
          [now apply Hreq | discriminate].
      * destruct (datetime_column w).
        -- eexists. eexists. eexists. exists jobs. split; [reflexivity |].
           cbn [log]. rewrite <- app_assoc. split; [reflexivity |].
           intros url timeout He. cbn [app] in He.
           destruct He as [He | [He | He]]; try discriminate.
           apply in_app_or in He.
           destruct He as [He | [He | [He | [He | []]]]];
             [now apply Hreq | discriminate..].
        -- eexists. eexists. eexists. exists jobs. split; [reflexivity |].
           cbn [log]. rewrite <- app_assoc. split; [reflexivity |].
           intros url timeout He. cbn [app] in He.
           destruct He as [He | [He | He]]; try discriminate.
           apply in_app_or in He.
           destruct He as [He | [He | []]];
             [now apply Hreq | discriminate].
  - eexists. eexists. eexists. exists []. split; [reflexivity |].
    split; [reflexivity |].
    intros url timeout [He | []]. discriminate.
Qed.

End RunEvents.

Lemma main_requests_planned_jobs_witness :
  exists res w' evs jobs,
    main kolkata noon_1971_01_06 (fun df => df) one_page_net (@rev job)
         {| file := Some sample_master; log := [] |} = (res, w')
    /\ log w' = [] ++ evs
    /\ (forall url timeout,
           In (Request url timeout) evs ->
           timeout = 10
           /\ plan_jobs FORMATS CATEGORIES
                        (loaded_master (fun df => df)
                                       {| file := Some sample_master; log := [] |})
                        (last_tuesday_ist kolkata noon_1971_01_06 true) = Some jobs
           /\ exists d fmt cat,
                In (d, fmt, cat) jobs /\ url = job_url d fmt cat).
Proof.
  apply (main_requests_planned_jobs kolkata noon_1971_01_06 (fun df => df)
           one_page_net (@rev job)
           {| file := Some sample_master; log := [] |}).
  intros jobs j Hj. now apply in_rev.
Defined.
